(** * pyarr: the Sonarr endpoint client ([pyarr/sonarr_api.py])

    A shallow embedding of the request-building methods of [SonarrAPI]
    and of the one method that computes on a server reply,
    [construct_series_json].

    Python objects live in a store so that aliasing is visible: a list or
    a dict is a store cell, and a value is either an atom or a reference
    to a cell.  Every method is a computation in a state-and-exception
    monad over the store and the log of outbound requests. *)

From Stdlib Require Import Ascii.
From stdpp Require Import gmap strings list pretty.

Local Open Scope string_scope.
Local Open Scope list_scope.
Local Open Scope Z_scope.

(** ** Values and the store *)

Abbreviation loc := nat (only parsing).

(** Immutable scalars: [None], [bool], [int] (unbounded) and [str] (code
    points below 256, the characters of a Rocq [string]).  Floats are
    left out: no modelled operation computes with one. *)
Inductive atom :=
| ANone
| ABool (b : bool)
| AInt (z : Z)
| AStr (s : string).

Inductive pyval :=
| PAtom (a : atom)
| PRef (l : loc).

Coercion PAtom : atom >-> pyval.

#[global] Instance atom_eq_dec : EqDecision atom.
Proof. solve_decision. Defined.

#[global] Instance pyval_eq_dec : EqDecision pyval.
Proof. solve_decision. Defined.

(** Mutable containers.  Dicts decoded from JSON and dicts written as
    literals in the source have string keys only. *)
Inductive pyobj :=
| OList (xs : list pyval)
| ODict (d : gmap string pyval).

(** The built-in exceptions the modelled code can raise, and whatever the
    request layer raises on a transport failure. *)
Inductive pyexn :=
| IndexError
| KeyError
| TypeError
| ValueError
| AttributeError
| RemoteError (name : string).

Definition exn_name (e : pyexn) : string :=
  match e with
  | IndexError => "IndexError"
  | KeyError => "KeyError"
  | TypeError => "TypeError"
  | ValueError => "ValueError"
  | AttributeError => "AttributeError"
  | RemoteError n => n
  end.

(** [Stuck] is the only outcome without a Python counterpart: a
    reference that points outside the store. *)
Inductive outcome (A : Type) :=
| Ok (a : A)
| Raise (e : pyexn)
| Stuck.

Arguments Ok {A} a.
Arguments Raise {A} e.
Arguments Stuck {A}.

Inductive verb := GET | POST | PUT | DELETE.

(** One outbound call, as the request layer sees it: the verb, the path,
    and the contents of the [params] and [data] objects at the time of
    the call ([None] when the argument is not passed). *)
Record request := {
  rq_verb : verb;
  rq_path : string;
  rq_params : option pyobj;
  rq_data : option pyobj
}.

Record world := {
  heap : list pyobj;
  trace : list request
}.

(** ** The monad *)

Definition M (A : Type) : Type := world -> outcome A * world.

Definition ret {A} (a : A) : M A := fun w => (Ok a, w).

Definition bind {A B} (m : M A) (k : A -> M B) : M B := fun w =>
  match m w with
  | (Ok a, w') => k a w'
  | (Raise e, w') => (Raise e, w')
  | (Stuck, w') => (Stuck, w')
  end.

Notation "'let!' x ':=' e 'in' k" := (bind e (fun x => k))
  (at level 10, x name, e at level 100, k at level 200,
   format "'[v' 'let!'  x  ':='  e  'in' '/' k ']'").

Definition raise {A} (e : pyexn) : M A := fun w => (Raise e, w).

Definition lift {A} (r : outcome A) : M A := fun w => (r, w).

(** [{...}] and [[...]]: a fresh cell at the end of the store. *)
Definition alloc (o : pyobj) : M loc := fun w =>
  (Ok (length (heap w)), {| heap := heap w ++ [o]; trace := trace w |}).

Definition read (l : loc) : M pyobj := fun w =>
  match heap w !! l with
  | Some o => (Ok o, w)
  | None => (Stuck, w)
  end.

Definition write (l : loc) (o : pyobj) : M unit := fun w =>
  (Ok tt, {| heap := <[l := o]> (heap w); trace := trace w |}).

Definition read_opt (l : option loc) : M (option pyobj) :=
  match l with
  | Some l => let! o := read l in ret (Some o)
  | None => ret None
  end.

(** [for x in xs: body].  The sequence is fixed when the loop starts: no
    operation of the modelled code changes the length of a list. *)
Fixpoint for_each {A} (xs : list A) (body : A -> M unit) : M unit :=
  match xs with
  | [] => ret tt
  | x :: xs' => let! _ := body x in for_each xs' body
  end.

(** ** Python operations used by the source *)

(** [bool(a)] *)
Definition truthy_atom (a : atom) : bool :=
  match a with
  | ANone => false
  | ABool b => b
  | AInt z => negb (z =? 0)
  | AStr s => negb (String.eqb s "")
  end.

Definition truthy_obj (o : pyobj) : bool :=
  match o with
  | OList xs => negb (bool_decide (xs = []))
  | ODict d => negb (bool_decide (d = ∅))
  end.

Definition truthy (v : pyval) : M bool :=
  match v with
  | PAtom a => ret (truthy_atom a)
  | PRef l => let! o := read l in ret (truthy_obj o)
  end.

(** The text of [str(a)], which is what an f-string field [{a}]
    interpolates when the conversion is allowed (see [str_refused]). *)
Definition py_str (a : atom) : string :=
  match a with
  | ANone => "None"
  | ABool true => "True"
  | ABool false => "False"
  | AInt z => pretty z
  | AStr s => s
  end.

(** [sys.int_info.str_digits_check_threshold]: a decimal of at most this
    many digits is never checked against the limit below. *)
Definition str_digits_check_threshold : Z := 640.

(** Whether [str(a)] is refused.  CPython 3.11 and later, and the patch
    releases of 3.7 to 3.10 that carry the same check, refuse to convert
    an [int] whose decimal form has more than
    [sys.get_int_max_str_digits()] digits, and raise [ValueError]; the
    limit is 4300 unless configured, and 0 switches the check off, which
    is also how an interpreter without the check behaves.  The sign does
    not count, and [z] has more than [n] digits exactly when
    [10 ^ n <= |z|].  [bool], [str] and [None] are always converted. *)
Definition str_refused (max_str_digits : Z) (a : atom) : bool :=
  match a with
  | AInt z =>
      (0 <? max_str_digits)
      && (10 ^ Z.max max_str_digits str_digits_check_threshold <=? Z.abs z)
  | _ => false
  end.

(** The f-string [f"<prefix>{a}"]. *)
Definition f_string (max_str_digits : Z) (prefix : string) (a : atom)
    : outcome string :=
  if str_refused max_str_digits a then Raise ValueError
  else Ok (prefix +:+ py_str a).

(** An atom used as a sequence index: [bool] is an [int]. *)
Definition as_index (k : atom) : option Z :=
  match k with
  | AInt z => Some z
  | ABool b => Some (if b then 1 else 0)
  | _ => None
  end.

(** [xs[i]] with Python's negative indices. *)
Definition seq_index {A} (xs : list A) (i : Z) : outcome A :=
  let n := Z.of_nat (length xs) in
  let j := if i <? 0 then i + n else i in
  if (j <? 0) || (n <=? j) then Raise IndexError
  else match xs !! Z.to_nat j with
       | Some x => Ok x
       | None => Raise IndexError
       end.

Definition chars (s : string) : list pyval :=
  (fun c => PAtom (AStr (String c EmptyString))) <$> String.list_ascii_of_string s.

(** [v[k]] *)
Definition py_getitem (v : pyval) (k : atom) : M pyval :=
  match v with
  | PRef l =>
      let! o := read l in
      match o with
      | OList xs =>
          match as_index k with
          | Some i => lift (seq_index xs i)
          | None => raise TypeError
          end
      | ODict d =>
          match k with
          | AStr s => match d !! s with
                      | Some x => ret x
                      | None => raise KeyError
                      end
          | _ => raise KeyError
          end
      end
  | PAtom (AStr s) =>
      match as_index k with
      | Some i => lift (seq_index (chars s) i)
      | None => raise TypeError
      end
  | PAtom _ => raise TypeError
  end.

(** [v[k] = x] for a string key [k]: only a dict accepts it. *)
Definition py_setitem (v : pyval) (k : string) (x : pyval) : M unit :=
  match v with
  | PRef l =>
      let! o := read l in
      match o with
      | ODict d => write l (ODict (<[k := x]> d))
      | OList _ => raise TypeError
      end
  | PAtom _ => raise TypeError
  end.

(** [v.get(k)]: only a dict has the method. *)
Definition py_get (v : pyval) (k : string) : M pyval :=
  match v with
  | PRef l =>
      let! o := read l in
      match o with
      | ODict d => ret (default (PAtom ANone) (d !! k))
      | OList _ => raise AttributeError
      end
  | PAtom _ => raise AttributeError
  end.

(** The elements [for x in v] visits: the items of a list, the keys of a
    dict, the characters of a string. *)
Definition py_iter (v : pyval) : M (list pyval) :=
  match v with
  | PRef l =>
      let! o := read l in
      match o with
      | OList xs => ret xs
      | ODict d => ret ((fun kv => PAtom (AStr kv.1)) <$> map_to_list d)
      end
  | PAtom (AStr s) => ret (chars s)
  | PAtom _ => raise TypeError
  end.

Definition as_int (a : atom) : option Z :=
  match a with
  | AInt z => Some z
  | ABool b => Some (if b then 1 else 0)
  | _ => None
  end.

(** [a + v] for a scalar left operand: string concatenation, integer
    addition, and [TypeError] for every other pair. *)
Definition py_add (a : atom) (v : pyval) : outcome pyval :=
  match a, v with
  | AStr s, PAtom (AStr t) => Ok (PAtom (AStr (s +:+ t)))
  | _, PAtom b =>
      match as_int a, as_int b with
      | Some x, Some y => Ok (PAtom (AInt (x + y)))
      | _, _ => Raise TypeError
      end
  | _, PRef _ => Raise TypeError
  end.

(** ** [datetime.strptime(s, "%Y-%m-%d")] and [.strftime("%Y-%m-%d")]

    [_strptime] turns the format into a regular expression, one named
    group per directive, and matches it at the start of the input with
    Python's backtracking matcher: alternatives are tried left to right
    and the first overall success wins. *)

Inductive regex :=
| Chr (c : ascii)
| Range (lo hi : ascii)
| Digit
| Seq (r1 r2 : regex)
| Alt (r1 r2 : regex)
| Group (name : string) (r : regex).

Definition in_range (lo hi c : ascii) : bool :=
  (nat_of_ascii lo <=? nat_of_ascii c)%nat && (nat_of_ascii c <=? nat_of_ascii hi)%nat.

Definition is_digit (c : ascii) : bool := in_range "0" "9" c.

Fixpoint take_chars (n : nat) (s : string) : string :=
  match n, s with
  | S n', String c s' => String c (take_chars n' s')
  | _, _ => EmptyString
  end.

(** The text a group matched: what [s] has in front of the unread [rest]. *)
Definition consumed (s rest : string) : string :=
  take_chars (String.length s - String.length rest) s.

(** [rmatch r s g k]: match [r] at the start of [s], then hand the unread
    text and the groups to [k]; when [k] fails, the next alternative of
    [r] is tried. *)
Fixpoint rmatch {T} (r : regex) (s : string) (g : gmap string string)
    (k : string -> gmap string string -> option T) : option T :=
  match r with
  | Chr c =>
      match s with
      | String x s' => if Ascii.eqb x c then k s' g else None
      | EmptyString => None
      end
  | Range lo hi =>
      match s with
      | String x s' => if in_range lo hi x then k s' g else None
      | EmptyString => None
      end
  | Digit =>
      match s with
      | String x s' => if is_digit x then k s' g else None
      | EmptyString => None
      end
  | Seq r1 r2 => rmatch r1 s g (fun s' g' => rmatch r2 s' g' k)
  | Alt r1 r2 =>
      match rmatch r1 s g k with
      | Some t => Some t
      | None => rmatch r2 s g k
      end
  | Group name r1 =>
      rmatch r1 s g (fun s' g' => k s' (<[name := consumed s s']> g'))
  end.

(** [re.match]: the groups and the text left after the match. *)
Definition re_match (r : regex) (s : string) : option (string * gmap string string) :=
  rmatch r s ∅ (fun rest g => Some (rest, g)).

(** [(?P<Y>\d\d\d\d)] *)
Definition re_Y : regex :=
  Group "Y" (Seq Digit (Seq Digit (Seq Digit Digit))).

(** [(?P<m>1[0-2]|0[1-9]|[1-9])] *)
Definition re_m : regex :=
  Group "m" (Alt (Seq (Chr "1") (Range "0" "2"))
            (Alt (Seq (Chr "0") (Range "1" "9"))
                 (Range "1" "9"))).

(** [(?P<d>3[0-1]|[1-2]\d|0[1-9]|[1-9]| [1-9])] *)
Definition re_d : regex :=
  Group "d" (Alt (Seq (Chr "3") (Range "0" "1"))
            (Alt (Seq (Range "1" "2") Digit)
            (Alt (Seq (Chr "0") (Range "1" "9"))
            (Alt (Range "1" "9")
                 (Seq (Chr " ") (Range "1" "9")))))).

(** The pattern of the format ["%Y-%m-%d"]. *)
Definition re_ymd : regex :=
  Seq re_Y (Seq (Chr "-") (Seq re_m (Seq (Chr "-") re_d))).

Definition digit_val (c : ascii) : Z := Z.of_nat (nat_of_ascii c) - 48.

(** [int(text)] on the texts the groups above can capture: decimal
    digits, after an optional blank. *)
Fixpoint int_digits (acc : Z) (s : string) : Z :=
  match s with
  | String c s' => int_digits (if is_digit c then 10 * acc + digit_val c else acc) s'
  | EmptyString => acc
  end.

Definition py_int (s : string) : Z := int_digits 0 s.

Record date := { year : Z; month : Z; day : Z }.

Definition is_leap (y : Z) : bool :=
  (y mod 4 =? 0) && (negb (y mod 100 =? 0) || (y mod 400 =? 0)).

Definition days_in_month (y m : Z) : Z :=
  if m =? 2 then (if is_leap y then 29 else 28)
  else if (m =? 4) || (m =? 6) || (m =? 9) || (m =? 11) then 30
  else 31.

(** The range checks of the [date] constructor: [MINYEAR = 1],
    [MAXYEAR = 9999]. *)
Definition date_ok (y m d : Z) : bool :=
  (1 <=? y) && (y <=? 9999) && (1 <=? m) && (m <=? 12) &&
  (1 <=? d) && (d <=? days_in_month y m).

Definition strptime_str (s : string) : outcome date :=
  match re_match re_ymd s with
  | None => Raise ValueError
  | Some (rest, g) =>
      if negb (String.eqb rest "") then Raise ValueError
      else
        let y := py_int (default "" (g !! "Y")) in
        let m := py_int (default "" (g !! "m")) in
        let d := py_int (default "" (g !! "d")) in
        if date_ok y m d then Ok {| year := y; month := m; day := d |}
        else Raise ValueError
  end.

(** A first argument that is not a [str] is a [TypeError]. *)
Definition strptime (a : atom) : outcome date :=
  match a with
  | AStr s => strptime_str s
  | _ => Raise TypeError
  end.

Definition digit_char (n : Z) : ascii := ascii_of_nat (Z.to_nat (48 + n mod 10)).

Definition pad2 (n : Z) : string :=
  String (digit_char (n / 10)) (String (digit_char n) EmptyString).

Definition pad4 (n : Z) : string :=
  String (digit_char (n / 1000)) (String (digit_char (n / 100))
    (String (digit_char (n / 10)) (String (digit_char n) EmptyString))).

(** [strftime] hands the format to the C library.  [%m] and [%d] are two
    digits everywhere; [%Y] is four digits on some platforms and the
    plain decimal on others (glibc prints the year 999 as [999]), so the
    choice is a parameter. *)
Definition strftime (pads_year : bool) (t : date) : string :=
  (if pads_year then pad4 (year t) else pretty (year t))
    +:+ "-" +:+ pad2 (month t) +:+ "-" +:+ pad2 (day t).

Section Client.

(** Modelled from the spec: the request layer [RequestAPI] (section 6,
    "four primitives get, post, put, delete") is not part of this file.
    It is a parameter: given the call and the store it answers with the
    decoded JSON body, freshly built in the store, or raises. *)
Variable remote : request -> list pyobj -> outcome pyval * list pyobj.

(** Whether the platform's [strftime] zero-pads [%Y] to four digits. *)
Variable pads_year : bool.

(** The interpreter's [sys.get_int_max_str_digits()]; 0 is no limit. *)
Variable max_str_digits : Z.

(** Modelled from the spec: one call of the request layer.  The call is
    logged with the contents its [params] and [data] objects have at
    that moment, and the layer's answer is the result. *)
Definition send (v : verb) (path : string) (params data : option loc) : M pyval :=
  let! p := read_opt params in
  let! d := read_opt data in
  fun w =>
    let rq := {| rq_verb := v; rq_path := path; rq_params := p; rq_data := d |} in
    let '(r, h') := remote rq (heap w) in
    (r, {| heap := h'; trace := trace w ++ [rq] |}).

(** Modelled from the spec: [request_get(path, params=None)]. *)
Definition request_get (path : string) (params : option loc) : M pyval :=
  send GET path params None.

(** Modelled from the spec: [request_post(path, data)]. *)
Definition request_post (path : string) (data : loc) : M pyval :=
  send POST path None (Some data).

(** ** The endpoint methods

    Arguments the caller supplies are scalars, as the docstrings type
    them ([int], [str], [bool]); which scalar is not fixed, since Python
    does not check.  A parameter with a default is an [option]: [None]
    is the omitted argument and takes the default of the signature. *)

Definition lookup_series (term : atom) : M pyval :=
  let! params := alloc (ODict {[ "term" := PAtom term ]}) in
  let path := "/api/series/lookup" in
  let! res := request_get path (Some params) in
  ret res.

Definition lookup_series_by_tvdb_id (id_ : atom) : M pyval :=
  let! term := lift (f_string max_str_digits "tvdb:" id_) in
  let! params := alloc (ODict {[ "term" := PAtom (AStr term) ]}) in
  let path := "/api/series/lookup" in
  let! res := request_get path (Some params) in
  ret res.

Definition construct_series_json
    (tvdb_id quality_profile_id root_dir : atom)
    (season_folder monitored ignore_episodes_with_files
     ignore_episodes_without_files search_for_missing_episodes : option atom)
    : M loc :=
  let season_folder := default (ABool true) season_folder in
  let monitored := default (ABool true) monitored in
  let ignore_episodes_with_files := default (ABool false) ignore_episodes_with_files in
  let ignore_episodes_without_files := default (ABool false) ignore_episodes_without_files in
  let search_for_missing_episodes := default (ABool false) search_for_missing_episodes in
  let! res := lookup_series tvdb_id in
  let! s_dict := py_getitem res (AInt 0) in
  let! cond :=
    (if negb (truthy_atom monitored)
     then let! seasons := py_get s_dict "seasons" in truthy seasons
     else ret false) in
  let! _ :=
    (if cond : bool
     then let! seasons := py_getitem s_dict (AStr "seasons") in
          let! items := py_iter seasons in
          for_each items (fun season => py_setitem season "monitored" (ABool false))
     else ret tt) in
  let! title := py_getitem s_dict (AStr "title") in
  let! seasons := py_getitem s_dict (AStr "seasons") in
  let! title' := py_getitem s_dict (AStr "title") in
  let! path := lift (py_add root_dir title') in
  let! images := py_getitem s_dict (AStr "images") in
  let! title_slug := py_getitem s_dict (AStr "titleSlug") in
  let! add_options := alloc (ODict {[
    "ignoreEpisodesWithFiles" := PAtom ignore_episodes_with_files;
    "ignoreEpisodesWithoutFiles" := PAtom ignore_episodes_without_files;
    "searchForMissingEpisodes" := PAtom search_for_missing_episodes ]}) in
  let! series_json := alloc (ODict {[
    "title" := title;
    "seasons" := seasons;
    "path" := path;
    "qualityProfileId" := PAtom quality_profile_id;
    "seasonFolder" := PAtom season_folder;
    "monitored" := PAtom monitored;
    "tvdbId" := PAtom tvdb_id;
    "images" := images;
    "titleSlug" := title_slug;
    "addOptions" := PRef add_options ]}) in
  ret series_json.

Definition add_series
    (tvdb_id quality_profile_id root_dir : atom)
    (season_folder monitored ignore_episodes_with_files
     ignore_episodes_without_files search_for_missing_episodes : option atom)
    : M pyval :=
  let season_folder := default (ABool true) season_folder in
  let monitored := default (ABool true) monitored in
  let ignore_episodes_with_files := default (ABool false) ignore_episodes_with_files in
  let ignore_episodes_without_files := default (ABool false) ignore_episodes_without_files in
  let search_for_missing_episodes := default (ABool false) search_for_missing_episodes in
  let! series_json :=
    construct_series_json tvdb_id quality_profile_id root_dir
      (Some season_folder) (Some monitored) (Some ignore_episodes_with_files)
      (Some ignore_episodes_without_files) (Some search_for_missing_episodes) in
  let path := "/api/series" in
  let! res := request_post path series_json in
  ret res.

Definition get_calendar (start_date end_date : option atom) : M pyval :=
  let start_date := default ANone start_date in
  let end_date := default ANone end_date in
  let path := "/api/calendar" in
  let! params := alloc (ODict ∅) in
  let! _ :=
    (if truthy_atom start_date
     then let! t := lift (strptime start_date) in
          py_setitem (PRef params) "start" (AStr (strftime pads_year t))
     else ret tt) in
  let! _ :=
    (if truthy_atom end_date
     then let! t := lift (strptime end_date) in
          py_setitem (PRef params) "end" (AStr (strftime pads_year t))
     else ret tt) in
  let! res := request_get path (Some params) in
  ret res.

Definition get_command (id_ : option atom) : M pyval :=
  let id_ := default ANone id_ in
  let! path :=
    (if truthy_atom id_ then lift (f_string max_str_digits "/api/command/" id_)
     else ret "/api/command") in
  let! res := request_get path None in
  ret res.

(** [kwargs] is the bag of keyword arguments of the call, beside the
    positional [name].  [**kwargs] takes the keywords that name no
    parameter: a call whose keywords include [name] or [self] gives that
    parameter two values and fails to bind, with [TypeError], before the
    body runs.  The dict literal [{**kwargs, "name": name}] unpacks the
    bag and then sets ["name"]. *)
Definition set_command (name : atom) (kwargs : gmap string pyval) : M pyval :=
  if bool_decide (is_Some (kwargs !! "name") \/ is_Some (kwargs !! "self"))
  then raise TypeError
  else
    let path := "/api/command" in
    let! data := alloc (ODict (<["name" := PAtom name]> kwargs)) in
    let! res := request_post path data in
    ret res.

Definition get_history (sort_key : atom) (page page_size sort_dir id_ : option atom)
    : M pyval :=
  let page := default (AInt 1) page in
  let page_size := default (AInt 10) page_size in
  let sort_dir := default (AStr "desc") sort_dir in
  let id_ := default ANone id_ in
  let path := "/api/history" in
  let! params := alloc (ODict {[
    "sortKey" := PAtom sort_key;
    "page" := PAtom page;
    "pageSize" := PAtom page_size;
    "sortDir" := PAtom sort_dir ]}) in
  let! _ :=
    (if truthy_atom id_
     then py_setitem (PRef params) "episodeId" id_
     else ret tt) in
  let! res := request_get path (Some params) in
  ret res.

Definition get_tag (id_ : option atom) : M pyval :=
  let id_ := default ANone id_ in
  let! path :=
    (if negb (truthy_atom id_) then ret "/api/tag"
     else lift (f_string max_str_digits "/api/tag/" id_)) in
  let! res := request_get path None in
  ret res.

Definition get_logs
    (page page_size sort_key sort_dir filter_key filter_value : option atom)
    : M pyval :=
  let page := default (AInt 1) page in
  let page_size := default (AInt 10) page_size in
  let sort_key := default (AStr "time") sort_key in
  let sort_dir := default (AStr "desc") sort_dir in
  let filter_key := default ANone filter_key in
  let filter_value := default (AStr "All") filter_value in
  let path := "/api/log" in
  let! params := alloc (ODict {[
    "page" := PAtom page;
    "pageSize" := PAtom page_size;
    "sortKey" := PAtom sort_key;
    "sortDir" := PAtom sort_dir;
    "filterKey" := PAtom filter_key;
    "filterValue" := PAtom filter_value ]}) in
  let! res := request_get path (Some params) in
  ret res.

End Client.

(** ** The remaining endpoint methods *)

Section Endpoints.

Variable remote : request -> list pyobj -> outcome pyval * list pyobj.
Variable max_str_digits : Z.

(** Modelled from the spec: [request_put(path, data)]. *)
Definition request_put (path : string) (data : loc) : M pyval :=
  send remote PUT path None (Some data).

(** Modelled from the spec: [request_del(path, params=None)]. *)
Definition request_del (path : string) (params : option loc) : M pyval :=
  send remote DELETE path params None.

Definition get_disk_space : M pyval :=
  let path := "/api/diskspace" in
  let! res := request_get remote path None in
  ret res.

Definition get_episodes_by_series_id (id_ : atom) : M pyval :=
  let path := "/api/episode" in
  let! params := alloc (ODict {[ "seriesId" := PAtom id_ ]}) in
  let! res := request_get remote path (Some params) in
  ret res.

Definition get_episode_by_episode_id (id_ : atom) : M pyval :=
  let! path := lift (f_string max_str_digits "/api/episode/" id_) in
  let! res := request_get remote path None in
  ret res.

(** [data] is the caller's dict, passed on as it is. *)
Definition upd_episode (data : loc) : M pyval :=
  let path := "/api/episode" in
  let! res := request_put path data in
  ret res.

Definition get_episode_files_by_series_id (id_ : atom) : M pyval :=
  let path := "/api/episodefile" in
  let! params := alloc (ODict {[ "seriesId" := PAtom id_ ]}) in
  let! res := request_get remote path (Some params) in
  ret res.

Definition get_episode_file (id_ : atom) : M pyval :=
  let! path := lift (f_string max_str_digits "/api/episodefile/" id_) in
  let! res := request_get remote path None in
  ret res.

Definition del_episode_file (id_ : atom) : M pyval :=
  let! path := lift (f_string max_str_digits "/api/episodefile/" id_) in
  let! res := request_del path None in
  ret res.

Definition upd_episode_file_quality (id_ : atom) (data : loc) : M pyval :=
  let! path := lift (f_string max_str_digits "/api/episodefile/" id_) in
  let! res := request_put path data in
  ret res.

Definition get_wanted (sort_key : atom) (page page_size sort_dir : option atom)
    : M pyval :=
  let page := default (AInt 1) page in
  let page_size := default (AInt 10) page_size in
  let sort_dir := default (AStr "asc") sort_dir in
  let path := "/api/wanted/missing" in
  let! params := alloc (ODict {[
    "sortKey" := PAtom sort_key;
    "page" := PAtom page;
    "pageSize" := PAtom page_size;
    "sortDir" := PAtom sort_dir ]}) in
  let! res := request_get remote path (Some params) in
  ret res.

Definition get_queue : M pyval :=
  let path := "/api/queue" in
  let! res := request_get remote path None in
  ret res.

Definition del_queue (id_ : atom) (blacklist : option atom) : M pyval :=
  let blacklist := default (ABool true) blacklist in
  let! params := alloc (ODict {[ "id" := PAtom id_;
                                 "blacklist" := PAtom blacklist ]}) in
  let path := "/api/queue/" in
  let! res := request_del path (Some params) in
  ret res.

Definition get_parsed_title (title : atom) : M pyval :=
  let! params := alloc (ODict {[ "title" := PAtom title ]}) in
  let path := "/api/parse" in
  let! res := request_get remote path (Some params) in
  ret res.

Definition get_parsed_path (path : atom) : M pyval :=
  let! params := alloc (ODict {[ "path" := PAtom path ]}) in
  let path_ := "/api/parse" in
  let! res := request_get remote path_ (Some params) in
  ret res.

Definition get_quality_profiles : M pyval :=
  let path := "/api/profile" in
  let! res := request_get remote path None in
  ret res.

Definition get_releases (id_ : atom) : M pyval :=
  let! params := alloc (ODict {[ "episodeId" := PAtom id_ ]}) in
  let path := "/api/release" in
  let! res := request_get remote path (Some params) in
  ret res.

Definition download_release (guid indexer_id : atom) : M pyval :=
  let! data := alloc (ODict {[ "guid" := PAtom guid;
                               "indexerId" := PAtom indexer_id ]}) in
  let path := "/api/release" in
  let! res := request_post remote path data in
  ret res.

Definition push_release (title download_url protocol publish_date : atom)
    : M pyval :=
  let! data := alloc (ODict {[
    "title" := PAtom title;
    "downloadUrl" := PAtom download_url;
    "protocol" := PAtom protocol;
    "publishDate" := PAtom publish_date ]}) in
  let path := "/api/release/push" in
  let! res := request_post remote path data in
  ret res.

Definition get_root_folder : M pyval :=
  let path := "/api/rootfolder" in
  let! res := request_get remote path None in
  ret res.

(** [id_] has no default here, but is tested like an optional one. *)
Definition get_series (id_ : atom) : M pyval :=
  let! path :=
    (if truthy_atom id_ then lift (f_string max_str_digits "/api/series/" id_)
     else ret "/api/series") in
  let! res := request_get remote path None in
  ret res.

Definition upd_series (data : loc) : M pyval :=
  let path := "/api/series" in
  let! res := request_put path data in
  ret res.

Definition del_series (id_ : atom) (delete_files : option atom) : M pyval :=
  let delete_files := default (ABool false) delete_files in
  let! params := alloc (ODict {[ "deleteFiles" := PAtom delete_files ]}) in
  let! path := lift (f_string max_str_digits "/api/series/" id_) in
  let! res := request_del path (Some params) in
  ret res.

Definition get_system_status : M pyval :=
  let path := "/api/system/status" in
  let! res := request_get remote path None in
  ret res.

Definition get_backup : M pyval :=
  let path := "/api/system/backup" in
  let! res := request_get remote path None in
  ret res.

Definition create_tag (id_ label : atom) : M pyval :=
  let! data := alloc (ODict {[ "id" := PAtom id_; "label" := PAtom label ]}) in
  let path := "/api/tag" in
  let! res := request_post remote path data in
  ret res.

Definition upd_tag (id_ label : atom) : M pyval :=
  let! data := alloc (ODict {[ "id" := PAtom id_; "label" := PAtom label ]}) in
  let! path := lift (f_string max_str_digits "/api/tag/" id_) in
  let! res := request_put path data in
  ret res.

Definition del_tag (id_ : atom) : M pyval :=
  let! path := lift (f_string max_str_digits "/api/tag/" id_) in
  let! res := request_del path None in
  ret res.

End Endpoints.

(** ** Sample request layers *)

(** A request layer that answers every call with [reply], after adding
    [cells] to the store as the decoded body. *)
Definition answers (reply : pyval) (cells : list pyobj)
    : request -> list pyobj -> outcome pyval * list pyobj :=
  fun _ h => (Ok reply, h ++ cells).

(** A server with nothing to say. *)
Definition no_reply : request -> list pyobj -> outcome pyval * list pyobj :=
  answers (PAtom ANone) [].

(** A lookup that finds nothing: the body is [[]].  From the empty
    store the parameter dict of the call is cell 0 and the body cell 1. *)
Definition empty_reply : request -> list pyobj -> outcome pyval * list pyobj :=
  answers (PRef 1) [OList []].

Definition sample_fields : gmap string pyval :=
  {[ "title" := PAtom (AStr "Show");
     "seasons" := PRef 3;
     "images" := PRef 6;
     "titleSlug" := PAtom (AStr "show");
     "tvdbId" := PAtom (AInt 7) ]}.

Definition sample_seasons : list pyval := [PRef 4; PRef 5].

(** A lookup that finds one series with two seasons, the first one
    monitored:
    [[{"title": "Show", "seasons": [{"seasonNumber": 1, "monitored": true},
       {"seasonNumber": 2, "monitored": false}], "images": [], ...}]]. *)
Definition sample_reply : request -> list pyobj -> outcome pyval * list pyobj :=
  answers (PRef 1)
    [ OList [PRef 2];
      ODict sample_fields;
      OList sample_seasons;
      ODict {[ "seasonNumber" := PAtom (AInt 1); "monitored" := PAtom (ABool true) ]};
      ODict {[ "seasonNumber" := PAtom (AInt 2); "monitored" := PAtom (ABool false) ]};
      OList [] ].

Definition empty_world : world := {| heap := []; trace := [] |}.

(** The state the sample lookup leaves. *)
Definition sample_world : world :=
  (lookup_series sample_reply (AInt 7) empty_world).2.

(** ** Date strings

    The strings the properties call valid [YYYY-MM-DD] dates: four
    digits, a dash, two digits, a dash, two digits, naming a day of the
    calendar between the years 1 and 9999. *)
Definition canonical_ymd (s : string) : bool :=
  match s with
  | String y1 (String y2 (String y3 (String y4 (String s1
      (String m1 (String m2 (String s2 (String d1 (String d2 EmptyString))))))))) =>
      forallb is_digit [y1; y2; y3; y4; m1; m2; d1; d2]
      && Ascii.eqb s1 "-" && Ascii.eqb s2 "-"
      && date_ok (1000 * digit_val y1 + 100 * digit_val y2
                  + 10 * digit_val y3 + digit_val y4)
                 (10 * digit_val m1 + digit_val m2)
                 (10 * digit_val d1 + digit_val d2)
  | _ => false
  end.

(** The year a string starts with. *)
Definition year_of (s : string) : Z := py_int (take_chars 4 s).

(** The strings [strptime] parses under ["%Y-%m-%d"]. *)
Definition accepts_ymd (s : string) : bool :=
  match strptime_str s with
  | Ok _ => true
  | _ => false
  end.

Definition digits : list ascii :=
  ["0"; "1"; "2"; "3"; "4"; "5"; "6"; "7"; "8"; "9"]%char.

(** The request [get_calendar] logs when its parameter dict is [d]. *)
Definition calendar_call (d : gmap string pyval) : request :=
  {| rq_verb := GET; rq_path := "/api/calendar";
     rq_params := Some (ODict d); rq_data := None |}.

(** The request [lookup_series term] logs. *)
Definition lookup_call (term : atom) : request :=
  {| rq_verb := GET; rq_path := "/api/series/lookup";
     rq_params := Some (ODict {[ "term" := PAtom term ]}); rq_data := None |}.

(** ** Shape of a lookup reply *)

(** [season["monitored"] = False] on one cell: a dict gets the key, a
    list is no season entry and stays as it is. *)
Definition set_monitored (o : pyobj) : pyobj :=
  match o with
  | ODict d => ODict (<["monitored" := PAtom (ABool false)]> d)
  | OList xs => OList xs
  end.

(** The store after the flag of every cell referenced from [items] has
    been set. *)
Definition mark_seasons (items : list pyval) (h : list pyobj) : list pyobj :=
  imap (fun l o => if bool_decide (PRef l ∈ items) then set_monitored o else o) h.

Definition is_dict_ref (h : list pyobj) (v : pyval) : Prop :=
  exists l d, v = PRef l /\ h !! l = Some (ODict d).

(** [res] is a list whose first element is the dict [fields], stored at
    [d]. *)
Definition first_match (h : list pyobj) (res : pyval) (d : loc)
    (fields : gmap string pyval) : Prop :=
  exists l rest, res = PRef l /\ h !! l = Some (OList (PRef d :: rest))
                 /\ h !! d = Some (ODict fields).

(** A series descriptor: a title, a list of season dicts stored at [sl],
    images and a title slug. *)
Definition series_descriptor (h : list pyobj) (fields : gmap string pyval)
    (title : string) (sl : loc) (seasons : list pyval) (images slug : pyval) : Prop :=
  fields !! "title" = Some (PAtom (AStr title))
  /\ fields !! "seasons" = Some (PRef sl)
  /\ fields !! "images" = Some images
  /\ fields !! "titleSlug" = Some slug
  /\ h !! sl = Some (OList seasons)
  /\ Forall (is_dict_ref h) seasons.

(** The cells a season loop over the first match of [res] can reach: the
    entries of the list stored under its ["seasons"] key. *)
Definition season_entry (h : list pyobj) (res : pyval) (l : loc) : Prop :=
  exists d fields sl items,
    first_match h res d fields
    /\ fields !! "seasons" = Some (PRef sl)
    /\ h !! sl = Some (OList items)
    /\ PRef l ∈ items.

(** Every cell of [h] is still there in [h'], as it was. *)
Definition preserved (h h' : list pyobj) : Prop :=
  forall l o, h !! l = Some o -> h' !! l = Some o.

(** Every cell of [h] is still there in [h']: as it was, or, for a cell
    in [P], with its ["monitored"] key set to [False]. *)
Definition touched (P : loc -> Prop) (h h' : list pyobj) : Prop :=
  forall l o, h !! l = Some o ->
    h' !! l = Some o \/ (P l /\ h' !! l = Some (set_monitored o)).

(** The two dicts [construct_series_json] builds, for a descriptor with
    the given title, season list, images and slug; [opts] is where the
    ["addOptions"] dict is stored. *)
Definition add_options_dict (with_files without_files search : atom)
    : gmap string pyval :=
  {[ "ignoreEpisodesWithFiles" := PAtom with_files;
     "ignoreEpisodesWithoutFiles" := PAtom without_files;
     "searchForMissingEpisodes" := PAtom search ]}.

Definition series_payload (tvdb_id quality_profile_id : atom) (root_dir : string)
    (season_folder monitored : atom) (title : string) (sl : loc)
    (images slug : pyval) (opts : loc) : gmap string pyval :=
  {[ "title" := PAtom (AStr title);
     "seasons" := PRef sl;
     "path" := PAtom (AStr (root_dir +:+ title));
     "qualityProfileId" := PAtom quality_profile_id;
     "seasonFolder" := PAtom season_folder;
     "monitored" := PAtom monitored;
     "tvdbId" := PAtom tvdb_id;
     "images" := images;
     "titleSlug" := slug;
     "addOptions" := PRef opts ]}.

(** A season entry whose ["monitored"] flag is [False] in [h]. *)
Definition unmonitored (h : list pyobj) (v : pyval) : Prop :=
  exists l sd, v = PRef l /\ h !! l = Some (ODict sd)
               /\ sd !! "monitored" = Some (PAtom (ABool false)).

(** A computation that logs no request and changes the store only
    within [R]. *)
Definition keeps (R : list pyobj -> list pyobj -> Prop) {A} (m : M A) : Prop :=
  forall w r w', m w = (r, w') -> trace w' = trace w /\ R (heap w) (heap w').

(** The same, from the one state [w]. *)
Definition keeps_at (R : list pyobj -> list pyobj -> Prop) (w : world) {A}
    (m : M A) : Prop :=
  forall r w', m w = (r, w') -> trace w' = trace w /\ R (heap w) (heap w').

(** A computation that only reads the store. *)
Definition reads_only {A} (m : M A) : Prop :=
  forall w r w', m w = (r, w') -> w' = w.

(** ** Further shapes *)

(** One round trip: the computation asks the request layer once, at most
    one fresh cell [extra] (its parameter or body dict) is added before
    the call, nothing that was in the store is changed by the client,
    and the layer's outcome is the result. *)
Definition single_call (remote : request -> list pyobj -> outcome pyval * list pyobj)
    (m : M pyval) (w : world) (rq : request) : Prop :=
  exists extra : list pyobj,
    (length extra <= 1)%nat
    /\ m w = ((remote rq (heap w ++ extra)).1,
              {| heap := (remote rq (heap w ++ extra)).2;
                 trace := trace w ++ [rq] |}).

(** One round trip with nothing built on the way: the request layer is
    handed the store exactly as the caller left it, and its outcome and
    the store it leaves are the result. *)
Definition direct_call (remote : request -> list pyobj -> outcome pyval * list pyobj)
    (m : M pyval) (w : world) (rq : request) : Prop :=
  m w = ((remote rq (heap w)).1,
         {| heap := (remote rq (heap w)).2; trace := trace w ++ [rq] |}).

(** The store [h'] has the cells of [h], no more, each as it was or with
    its ["monitored"] key set to [False]. *)
Definition same_cells (h h' : list pyobj) : Prop :=
  forall l, h' !! l = h !! l
            \/ exists o, h !! l = Some o /\ h' !! l = Some (set_monitored o).

(** A value on which [v["monitored"] = False] raises [TypeError]: a
    scalar or a list. *)
Definition not_a_dict (h : list pyobj) (v : pyval) : Prop :=
  match v with
  | PAtom _ => True
  | PRef l => exists xs, h !! l = Some (OList xs)
  end.

(** The dict literal of [construct_series_json], for whatever values the
    first match holds. *)
Definition series_json_dict (tvdb_id quality_profile_id season_folder monitored : atom)
    (title seasons path images slug : pyval) (opts : loc) : gmap string pyval :=
  {[ "title" := title;
     "seasons" := seasons;
     "path" := path;
     "qualityProfileId" := PAtom quality_profile_id;
     "seasonFolder" := PAtom season_folder;
     "monitored" := PAtom monitored;
     "tvdbId" := PAtom tvdb_id;
     "images" := images;
     "titleSlug" := slug;
     "addOptions" := PRef opts ]}.

(** The request [add_series] logs for the payload [d]. *)
Definition add_series_call (d : pyobj) : request :=
  {| rq_verb := POST; rq_path := "/api/series";
     rq_params := None; rq_data := Some d |}.



(** A lookup answered with an error body, [{"error": "Unauthorized"}]. *)
Definition error_reply : request -> list pyobj -> outcome pyval * list pyobj :=
  answers (PRef 1) [ODict {[ "error" := PAtom (AStr "Unauthorized") ]}].

(** A lookup whose one match has a title but no ["seasons"] key. *)
Definition bare_reply : request -> list pyobj -> outcome pyval * list pyobj :=
  answers (PRef 1)
    [ OList [PRef 2];
      ODict {[ "title" := PAtom (AStr "Show") ]} ].

(** A lookup whose match lists a season dict, then [None], then another
    season dict. *)
Definition ragged_reply : request -> list pyobj -> outcome pyval * list pyobj :=
  answers (PRef 1)
    [ OList [PRef 2];
      ODict sample_fields;
      OList [PRef 4; PAtom ANone; PRef 5];
      ODict {[ "seasonNumber" := PAtom (AInt 1); "monitored" := PAtom (ABool true) ]};
      ODict {[ "seasonNumber" := PAtom (AInt 2); "monitored" := PAtom (ABool true) ]};
      OList [] ].

(** A lookup whose match has [null] for a title. *)
Definition null_title_reply : request -> list pyobj -> outcome pyval * list pyobj :=
  answers (PRef 1)
    [ OList [PRef 2];
      ODict {[ "title" := PAtom ANone; "seasons" := PRef 3 ]};
      OList [] ].

(** A store holding one dict of the caller's, [{"id": 3, "monitored": true}]. *)
Definition callers_world : world :=
  {| heap := [ODict {[ "id" := PAtom (AInt 3); "monitored" := PAtom (ABool true) ]}];
     trace := [] |}.

(** A request layer that is down. *)
Definition offline : request -> list pyobj -> outcome pyval * list pyobj :=
  fun _ h => (Raise (RemoteError "ConnectionError"), h).

(** The request with the given verb and path whose parameter and body
    objects are the dicts [params] and [data]. *)
Definition call (v : verb) (path : string)
    (params data : option (gmap string pyval)) : request :=
  {| rq_verb := v; rq_path := path;
     rq_params := ODict <$> params; rq_data := ODict <$> data |}.

(** * Properties *)

(** ** Running the primitives *)

Lemma lookup_fresh (h : list pyobj) (o : pyobj) : (h ++ [o]) !! length h = Some o.
Proof. by rewrite lookup_app_r, Nat.sub_diag. Qed.

Ltac run :=
  repeat (cbv beta iota delta [bind ret raise lift alloc read write read_opt];
          cbn [heap trace fst snd]; rewrite ?lookup_fresh).

Lemma f_string_ok (n : Z) (prefix : string) (a : atom) :
  str_refused n a = false -> f_string n prefix a = Ok (prefix +:+ py_str a).
Proof. unfold f_string. by intros ->. Qed.

Lemma f_string_refused (n : Z) (prefix : string) (a : atom) :
  str_refused n a = true -> f_string n prefix a = Raise ValueError.
Proof. unfold f_string. by intros ->. Qed.

(** Ids of at most 640 digits are converted whatever the limit is. *)
Lemma short_int_is_converted (n z : Z) :
  Z.abs z < 10 ^ str_digits_check_threshold -> str_refused n (AInt z) = false.
Proof.
  intros Hz. unfold str_refused.
  destruct (0 <? n) eqn:Hn; [| reflexivity]. cbn [andb].
  apply Z.leb_gt. eapply Z.lt_le_trans; [exact Hz |].
  apply Z.pow_le_mono_r; [lia |]. apply Z.le_max_r.
Qed.

Section Requests.

Variable remote : request -> list pyobj -> outcome pyval * list pyobj.
Variable max_str_digits : Z.

(** What a GET with a freshly built parameter dict does: one cell is
    added, one request is logged, and the request layer's answer is the
    result. *)
Lemma get_with_fresh_params (path : string) (d : gmap string pyval) (w : world) :
  let rq := {| rq_verb := GET; rq_path := path;
               rq_params := Some (ODict d); rq_data := None |} in
  (let! params := alloc (ODict d) in
   let! res := request_get remote path (Some params) in
   ret res) w
  = ((remote rq (heap w ++ [ODict d])).1,
     {| heap := (remote rq (heap w ++ [ODict d])).2; trace := trace w ++ [rq] |}).
Proof.
  unfold request_get, send. run.
  destruct (remote _ _) as [[r | e |] h']; reflexivity.
Qed.

Lemma get_without_params (path : string) (w : world) :
  let rq := {| rq_verb := GET; rq_path := path;
               rq_params := None; rq_data := None |} in
  (let! res := request_get remote path None in ret res) w
  = ((remote rq (heap w)).1,
     {| heap := (remote rq (heap w)).2; trace := trace w ++ [rq] |}).
Proof.
  unfold request_get, send. run.
  destruct (remote _ _) as [[r | e |] h']; reflexivity.
Qed.

Lemma post_fresh_data (path : string) (d : gmap string pyval) (w : world) :
  let rq := {| rq_verb := POST; rq_path := path;
               rq_params := None; rq_data := Some (ODict d) |} in
  (let! data := alloc (ODict d) in
   let! res := request_post remote path data in
   ret res) w
  = ((remote rq (heap w ++ [ODict d])).1,
     {| heap := (remote rq (heap w ++ [ODict d])).2; trace := trace w ++ [rq] |}).
Proof.
  unfold request_post, send. run.
  destruct (remote _ _) as [[r | e |] h']; reflexivity.
Qed.

(** A call of [set_command] that binds runs the body. *)
Lemma set_command_binds (name : atom) (kwargs : gmap string pyval) :
  kwargs !! "name" = None ->
  kwargs !! "self" = None ->
  set_command remote name kwargs
  = (let! data := alloc (ODict (<["name" := PAtom name]> kwargs)) in
     let! res := request_post remote "/api/command" data in
     ret res).
Proof.
  intros Hname Hself. unfold set_command.
  rewrite bool_decide_eq_false_2; [reflexivity |].
  rewrite Hname, Hself. intros [[? [=]] | [? [=]]].
Qed.

Lemma set_command_trace (name : atom) (kwargs : gmap string pyval) (w : world) :
  kwargs !! "name" = None ->
  kwargs !! "self" = None ->
  trace (set_command remote name kwargs w).2
  = trace w ++ [ {| rq_verb := POST; rq_path := "/api/command";
                    rq_params := None;
                    rq_data := Some (ODict (<["name" := PAtom name]> kwargs)) |} ].
Proof.
  intros Hname Hself. rewrite set_command_binds by done.
  by rewrite post_fresh_data.
Qed.

(** A call that gives [name] or [self] a second value does not bind. *)
Lemma set_command_rejects_parameter_names (name : atom)
    (kwargs : gmap string pyval) (w : world) :
  is_Some (kwargs !! "name") \/ is_Some (kwargs !! "self") ->
  set_command remote name kwargs w = (Raise TypeError, w).
Proof.
  intros H. unfold set_command. by rewrite bool_decide_eq_true_2.
Qed.

(** C7: for every provider id that [str] converts (any id but an [int]
    of more digits than the interpreter's limit),
    [lookup_series_by_tvdb_id id] is the same computation as
    [lookup_series] applied to the term ["tvdb:<id>"]: it logs one GET to
    [/api/series/lookup] whose parameters are exactly
    [{"term": "tvdb:<id>"}]; for the id 12345 the term is ["tvdb:12345"]. *)
Theorem lookup_by_tvdb_id_is_term_lookup (id_ : atom) (w : world) :
  str_refused max_str_digits id_ = false ->
  lookup_series_by_tvdb_id remote max_str_digits id_ w
    = lookup_series remote (AStr ("tvdb:" +:+ py_str id_)) w
  /\ trace (lookup_series_by_tvdb_id remote max_str_digits id_ w).2
    = trace w ++ [ {| rq_verb := GET; rq_path := "/api/series/lookup";
                      rq_params := Some (ODict {[ "term" :=
                         PAtom (AStr ("tvdb:" +:+ py_str id_)) ]});
                      rq_data := None |} ]
  /\ "tvdb:" +:+ py_str (AInt 12345) = "tvdb:12345".
Proof.
  intros Hid.
  assert (Hrun : lookup_series_by_tvdb_id remote max_str_digits id_ w
                 = lookup_series remote (AStr ("tvdb:" +:+ py_str id_)) w).
  { unfold lookup_series_by_tvdb_id. by rewrite (f_string_ok _ _ _ Hid). }
  split; [exact Hrun |]. split; [| reflexivity].
  rewrite Hrun. unfold lookup_series. by rewrite get_with_fresh_params.
Qed.

(** C8: for every command name and every bag of extra keyword
    parameters (keywords other than the method's own parameters [name]
    and [self]), [set_command] logs one POST to [/api/command] whose body
    is the bag with the name stored under ["name"]; the body for
    [set_command("RescanSeries", seriesId=3)] is
    [{"name": "RescanSeries", "seriesId": 3}]. *)
Theorem set_command_body (name : atom) (kwargs : gmap string pyval) (w : world) :
  kwargs !! "name" = None ->
  kwargs !! "self" = None ->
  trace (set_command remote name kwargs w).2
    = trace w ++ [ {| rq_verb := POST; rq_path := "/api/command";
                      rq_params := None;
                      rq_data := Some (ODict (<["name" := PAtom name]> kwargs)) |} ]
  /\ (<["name" := PAtom name]> kwargs) !! "name" = Some (PAtom name)
  /\ (forall k, k <> "name" ->
        (<["name" := PAtom name]> kwargs) !! k = kwargs !! k)
  /\ trace (set_command remote (AStr "RescanSeries")
              {[ "seriesId" := PAtom (AInt 3) ]} w).2
    = trace w ++ [ {| rq_verb := POST; rq_path := "/api/command";
                      rq_params := None;
                      rq_data := Some (ODict {[ "name" := PAtom (AStr "RescanSeries");
                                                "seriesId" := PAtom (AInt 3) ]}) |} ].
Proof.
  intros Hname Hself.
  split; [by apply set_command_trace |].
  split; [apply lookup_insert_eq |].
  split; [intros k Hk; by apply lookup_insert_ne |].
  by rewrite set_command_trace.
Qed.

(** C9: an optional id is tested for truthiness, not for [None]: for
    every falsy id (0, [False], the empty string, [None]) [get_command]
    and [get_tag] request the collection paths [/api/command] and
    [/api/tag], and [get_history] sends no ["episodeId"] parameter; each
    call is the same computation as the call without the id. *)
Theorem falsy_id_is_no_id (id_ sort_key : atom) (page page_size sort_dir : option atom)
    (w : world) :
  truthy_atom id_ = false ->
  get_command remote max_str_digits (Some id_) w
  = get_command remote max_str_digits None w
  /\ trace (get_command remote max_str_digits (Some id_) w).2
     = trace w ++ [ {| rq_verb := GET; rq_path := "/api/command";
                       rq_params := None; rq_data := None |} ]
  /\ get_tag remote max_str_digits (Some id_) w
     = get_tag remote max_str_digits None w
  /\ trace (get_tag remote max_str_digits (Some id_) w).2
     = trace w ++ [ {| rq_verb := GET; rq_path := "/api/tag";
                       rq_params := None; rq_data := None |} ]
  /\ get_history remote sort_key page page_size sort_dir (Some id_) w
     = get_history remote sort_key page page_size sort_dir None w
  /\ exists d : gmap string pyval,
       trace (get_history remote sort_key page page_size sort_dir (Some id_) w).2
       = trace w ++ [ {| rq_verb := GET; rq_path := "/api/history";
                         rq_params := Some (ODict d); rq_data := None |} ]
       /\ d !! "episodeId" = None
       /\ dom d = ({[ "sortKey"; "page"; "pageSize"; "sortDir" ]} : gset string).
Proof.
  intros Hfalsy.
  assert (Hc : get_command remote max_str_digits (Some id_) w
               = get_command remote max_str_digits None w).
  { unfold get_command. cbn [default from_option id]. by rewrite Hfalsy. }
  assert (Ht : get_tag remote max_str_digits (Some id_) w
               = get_tag remote max_str_digits None w).
  { unfold get_tag. cbn [default from_option id]. by rewrite Hfalsy. }
  assert (Hh : get_history remote sort_key page page_size sort_dir (Some id_) w
               = get_history remote sort_key page page_size sort_dir None w).
  { unfold get_history. simpl. by rewrite Hfalsy. }
  split; [exact Hc |]. split.
  { rewrite Hc.
    change (get_command remote max_str_digits None w)
      with ((let! res := request_get remote "/api/command" None in ret res) w).
    by rewrite get_without_params. }
  split; [exact Ht |]. split.
  { rewrite Ht.
    change (get_tag remote max_str_digits None w)
      with ((let! res := request_get remote "/api/tag" None in ret res) w).
    by rewrite get_without_params. }
  split; [exact Hh |].
  eexists. split.
  { rewrite Hh. unfold get_history. simpl.
    unfold request_get, send. run.
    destruct (remote _ _) as [[r | e |] h']; reflexivity. }
  split.
  - by rewrite !lookup_insert_ne.
  - rewrite !dom_insert_L, dom_singleton_L. set_solver.
Qed.

(** C10: every call of [get_logs] logs one GET to [/api/log] whose
    parameter dict holds, under the six keys [page], [pageSize],
    [sortKey], [sortDir], [filterKey] and [filterValue] and no other, the
    six arguments, each replaced by its default when omitted (1, 10,
    ["time"], ["desc"], [None], ["All"]); with no argument given,
    [filterKey] is sent as [None] and [filterValue] as ["All"]. *)
Theorem get_logs_sends_six_parameters
    (page page_size sort_key sort_dir filter_key filter_value : option atom)
    (w : world) :
  (exists d : gmap string pyval,
     trace (get_logs remote page page_size sort_key sort_dir
              filter_key filter_value w).2
     = trace w ++ [ {| rq_verb := GET; rq_path := "/api/log";
                       rq_params := Some (ODict d); rq_data := None |} ]
     /\ d = {[ "page" := PAtom (default (AInt 1) page);
               "pageSize" := PAtom (default (AInt 10) page_size);
               "sortKey" := PAtom (default (AStr "time") sort_key);
               "sortDir" := PAtom (default (AStr "desc") sort_dir);
               "filterKey" := PAtom (default ANone filter_key);
               "filterValue" := PAtom (default (AStr "All") filter_value) ]}
     /\ dom d = ({[ "page"; "pageSize"; "sortKey"; "sortDir";
                    "filterKey"; "filterValue" ]} : gset string))
  /\ trace (get_logs remote None None None None None None w).2
     = trace w ++ [ {| rq_verb := GET; rq_path := "/api/log";
                       rq_params := Some (ODict {[
                         "page" := PAtom (AInt 1);
                         "pageSize" := PAtom (AInt 10);
                         "sortKey" := PAtom (AStr "time");
                         "sortDir" := PAtom (AStr "desc");
                         "filterKey" := PAtom ANone;
                         "filterValue" := PAtom (AStr "All") ]});
                       rq_data := None |} ].
Proof.
  split.
  - eexists. split; [| split; [reflexivity |]].
    + unfold get_logs. rewrite get_with_fresh_params. reflexivity.
    + rewrite !dom_insert_L, dom_singleton_L. set_solver.
  - unfold get_logs. by rewrite get_with_fresh_params.
Qed.

End Requests.

(** ** Digits and fixed-width fields *)

Lemma is_digit_cases (c : ascii) : is_digit c = true -> c ∈ digits.
Proof.
  destruct c as [[] [] [] [] [] [] [] []]; vm_compute; try discriminate; intros _;
  unfold digits; set_solver.
Qed.

Ltac each_digit H :=
  apply is_digit_cases in H; unfold digits in H;
  repeat (apply elem_of_cons in H as [-> | H]);
  try (by apply elem_of_nil in H).

Lemma digit_val_range (c : ascii) : is_digit c = true -> 0 <= digit_val c <= 9.
Proof. intros H. each_digit H; vm_compute; split; discriminate. Qed.

Lemma digit_char_val (c : ascii) (n : Z) :
  is_digit c = true -> n mod 10 = digit_val c -> digit_char n = c.
Proof.
  intros H E. unfold digit_char. rewrite E. each_digit H; reflexivity.
Qed.

Lemma four_digits (a b c d : Z) :
  0 <= a <= 9 -> 0 <= b <= 9 -> 0 <= c <= 9 -> 0 <= d <= 9 ->
  let n := 1000 * a + 100 * b + 10 * c + d in
  (n / 1000) mod 10 = a /\ (n / 100) mod 10 = b
  /\ (n / 10) mod 10 = c /\ n mod 10 = d.
Proof. intros. subst n. repeat split; Z.div_mod_to_equations; lia. Qed.

Lemma two_digits (a b : Z) :
  0 <= a <= 9 -> 0 <= b <= 9 ->
  let n := 10 * a + b in (n / 10) mod 10 = a /\ n mod 10 = b.
Proof. intros. subst n. split; Z.div_mod_to_equations; lia. Qed.

Lemma pad4_digits (a b c d : ascii) :
  is_digit a = true -> is_digit b = true -> is_digit c = true -> is_digit d = true ->
  pad4 (1000 * digit_val a + 100 * digit_val b + 10 * digit_val c + digit_val d)
  = String a (String b (String c (String d EmptyString))).
Proof.
  intros Ha Hb Hc Hd.
  destruct (four_digits (digit_val a) (digit_val b) (digit_val c) (digit_val d))
    as (E1 & E2 & E3 & E4); auto using digit_val_range.
  unfold pad4.
  by rewrite (digit_char_val a _ Ha E1), (digit_char_val b _ Hb E2),
    (digit_char_val c _ Hc E3), (digit_char_val d _ Hd E4).
Qed.

Lemma pad2_digits (a b : ascii) :
  is_digit a = true -> is_digit b = true ->
  pad2 (10 * digit_val a + digit_val b) = String a (String b EmptyString).
Proof.
  intros Ha Hb.
  destruct (two_digits (digit_val a) (digit_val b)) as (E1 & E2);
    auto using digit_val_range.
  unfold pad2.
  by rewrite (digit_char_val a _ Ha E1), (digit_char_val b _ Hb E2).
Qed.

(** From 1000 on, the plain decimal of a year is its four-digit form. *)
Lemma pretty_four_digits (y : Z) : 1000 <= y <= 9999 -> pretty y = pad4 y.
Proof.
  intros Hy.
  assert (Hall : Forall (fun y : Z => pretty y = pad4 y) (seqZ 1000 9000)).
  { apply (bool_decide_unpack _). vm_compute. exact I. }
  rewrite Forall_forall in Hall. apply Hall, elem_of_seqZ. lia.
Qed.

(** ** The pattern on canonical input *)

Lemma length_append_str (p r : string) :
  String.length (p +:+ r) = (String.length p + String.length r)%nat.
Proof. induction p as [| c p IH]; simpl; [reflexivity | by rewrite IH]. Qed.

Lemma consumed_prefix (p rest : string) : consumed (p +:+ rest) rest = p.
Proof.
  unfold consumed. rewrite length_append_str.
  replace (String.length p + String.length rest - String.length rest)%nat
    with (String.length p) by lia.
  induction p as [| c p IH]; simpl.
  - by destruct rest.
  - by rewrite IH.
Qed.

Lemma consumed_2 (a b : ascii) (rest : string) :
  consumed (String a (String b rest)) rest = String a (String b EmptyString).
Proof. apply (consumed_prefix (String a (String b EmptyString))). Qed.

Lemma consumed_4 (a b c d : ascii) (rest : string) :
  consumed (String a (String b (String c (String d rest)))) rest
  = String a (String b (String c (String d EmptyString))).
Proof.
  apply (consumed_prefix (String a (String b (String c (String d EmptyString))))).
Qed.

Lemma match_year {T} (a b c d : ascii) (rest : string) (g : gmap string string)
    (k : string -> gmap string string -> option T) :
  is_digit a = true -> is_digit b = true -> is_digit c = true -> is_digit d = true ->
  rmatch re_Y (String a (String b (String c (String d rest)))) g k
  = k rest (<["Y" := String a (String b (String c (String d EmptyString)))]> g).
Proof.
  intros Ha Hb Hc Hd. unfold re_Y. cbn [rmatch].
  by rewrite Ha, Hb, Hc, Hd, consumed_4.
Qed.

Ltac out_of_range H :=
  exfalso; vm_compute in H; destruct H as [H1 H2]; (by apply H1) || (by apply H2).

(** A two-digit month is taken by the first alternative that fits it, as
    long as the rest of the pattern goes through after it. *)
Lemma match_month {T} (a b : ascii) (rest : string) (g : gmap string string)
    (k : string -> gmap string string -> option T) (t : T) :
  is_digit a = true -> is_digit b = true ->
  1 <= 10 * digit_val a + digit_val b <= 12 ->
  k rest (<["m" := String a (String b EmptyString)]> g) = Some t ->
  rmatch re_m (String a (String b rest)) g k = Some t.
Proof.
  intros Ha Hb Hr Hk.
  each_digit Ha; each_digit Hb; try (out_of_range Hr);
    unfold re_m; cbn [rmatch Ascii.eqb Bool.eqb];
    rewrite ?consumed_2, ?Hk; reflexivity.
Qed.

Lemma match_day {T} (a b : ascii) (rest : string) (g : gmap string string)
    (k : string -> gmap string string -> option T) (t : T) :
  is_digit a = true -> is_digit b = true ->
  1 <= 10 * digit_val a + digit_val b <= 31 ->
  k rest (<["d" := String a (String b EmptyString)]> g) = Some t ->
  rmatch re_d (String a (String b rest)) g k = Some t.
Proof.
  intros Ha Hb Hr Hk.
  each_digit Ha; each_digit Hb; try (out_of_range Hr);
    unfold re_d; cbn [rmatch Ascii.eqb Bool.eqb];
    rewrite ?consumed_2, ?Hk; reflexivity.
Qed.

Lemma py_int_4 (a b c d : ascii) :
  is_digit a = true -> is_digit b = true -> is_digit c = true -> is_digit d = true ->
  py_int (String a (String b (String c (String d EmptyString))))
  = 1000 * digit_val a + 100 * digit_val b + 10 * digit_val c + digit_val d.
Proof.
  intros Ha Hb Hc Hd. unfold py_int. cbn [int_digits].
  rewrite Ha, Hb, Hc, Hd. lia.
Qed.

Lemma py_int_2 (a b : ascii) :
  is_digit a = true -> is_digit b = true ->
  py_int (String a (String b EmptyString)) = 10 * digit_val a + digit_val b.
Proof.
  intros Ha Hb. unfold py_int. cbn [int_digits]. rewrite Ha, Hb. lia.
Qed.

Lemma days_in_month_le (y m : Z) : days_in_month y m <= 31.
Proof.
  unfold days_in_month.
  destruct (m =? 2); [destruct (is_leap y); lia |].
  destruct ((m =? 4) || (m =? 6) || (m =? 9) || (m =? 11)); lia.
Qed.

(** A canonical string parses to the date it spells, and formatting that
    date with four-digit years gives the string back. *)
Lemma canonical_parses (s : string) :
  canonical_ymd s = true ->
  exists t, strptime_str s = Ok t
            /\ strftime true t = s
            /\ year t = year_of s
            /\ 1 <= year t <= 9999.
Proof.
  intros H. unfold canonical_ymd in H.
  do 10 (destruct s as [| ? s]; [discriminate |]).
  destruct s; [| discriminate].
  rename a into y1, a0 into y2, a1 into y3, a2 into y4, a3 into s1,
    a4 into m1, a5 into m2, a6 into s2, a7 into d1, a8 into d2.
  cbn [forallb] in H. rewrite !andb_true_iff in H.
  destruct H as ((((Hy1 & Hy2 & Hy3 & Hy4 & Hm1 & Hm2 & Hd1 & Hd2 & _) & Hs1) & Hs2) & Hok).
  apply Ascii.eqb_eq in Hs1, Hs2. subst s1 s2.
  set (yy := 1000 * digit_val y1 + 100 * digit_val y2 + 10 * digit_val y3
             + digit_val y4) in *.
  set (mm := 10 * digit_val m1 + digit_val m2) in *.
  set (dd := 10 * digit_val d1 + digit_val d2) in *.
  assert (Hr := Hok). unfold date_ok in Hr.
  rewrite !andb_true_iff, !Z.leb_le in Hr.
  assert (Hd31 := days_in_month_le yy mm).
  set (g := <["d" := String d1 (String d2 EmptyString)]>
            (<["m" := String m1 (String m2 EmptyString)]>
             (<["Y" := String y1 (String y2 (String y3 (String y4 EmptyString)))]>
              (∅ : gmap string string)))).
  assert (Hm : re_match re_ymd
                 (String y1 (String y2 (String y3 (String y4 (String "-"
                   (String m1 (String m2 (String "-"
                     (String d1 (String d2 EmptyString))))))))))
               = Some (EmptyString, g)).
  { unfold re_match, re_ymd. cbn [rmatch].
    rewrite match_year by assumption. cbn [Ascii.eqb Bool.eqb].
    apply match_month; [assumption | assumption | subst mm; lia |].
    cbn [Ascii.eqb Bool.eqb].
    apply match_day; [assumption | assumption | subst dd; lia |].
    reflexivity. }
  exists {| year := yy; month := mm; day := dd |}.
  assert (HY : py_int (default "" (g !! "Y")) = yy).
  { subst g. rewrite lookup_insert_ne, lookup_insert_ne, lookup_insert_eq by done.
    by apply py_int_4. }
  assert (HM : py_int (default "" (g !! "m")) = mm).
  { subst g. rewrite lookup_insert_ne, lookup_insert_eq by done.
    by apply py_int_2. }
  assert (HD : py_int (default "" (g !! "d")) = dd).
  { subst g. rewrite lookup_insert_eq. by apply py_int_2. }
  split.
  { unfold strptime_str. rewrite Hm. cbn [String.eqb negb].
    rewrite HY, HM, HD, Hok. reflexivity. }
  split.
  { unfold strftime. cbn [year month day]. subst yy mm dd.
    rewrite pad4_digits, !pad2_digits by assumption. reflexivity. }
  split.
  { cbn [year]. unfold year_of. cbn [take_chars]. symmetry. by apply py_int_4. }
  cbn [year]. lia.
Qed.

(** [strptime] on a string either parses or raises [ValueError]. *)
Lemma strptime_str_cases (s : string) :
  (exists t, strptime_str s = Ok t) \/ strptime_str s = Raise ValueError.
Proof.
  unfold strptime_str.
  destruct (re_match re_ymd s) as [[rest g] |]; [| by right].
  destruct (negb (String.eqb rest "")); [by right |].
  destruct (date_ok _ _ _); [left; eauto | by right].
Qed.

Lemma rejected_raises (s : string) :
  accepts_ymd s = false -> strptime_str s = Raise ValueError.
Proof.
  unfold accepts_ymd. destruct (strptime_str_cases s) as [[t ->] | ->]; done.
Qed.

Lemma canonical_round_trip (pads : bool) (s : string) :
  canonical_ymd s = true ->
  pads = true \/ 1000 <= year_of s ->
  exists t, strptime (AStr s) = Ok t /\ strftime pads t = s.
Proof.
  intros Hc Hp. destruct (canonical_parses s Hc) as (t & Hparse & Hfmt & Hy & Hr).
  exists t. split; [exact Hparse |].
  destruct pads; [exact Hfmt |].
  destruct Hp as [? | Hp]; [done |].
  unfold strftime in *. rewrite pretty_four_digits by lia. exact Hfmt.
Qed.

(** Every valid date string is one [strptime] parses. *)
Lemma canonical_accepted (s : string) :
  canonical_ymd s = true -> accepts_ymd s = true.
Proof.
  intros Hc. destruct (canonical_parses s Hc) as (t & Hp & _).
  unfold accepts_ymd. by rewrite Hp.
Qed.

Lemma canonical_truthy (s : string) :
  canonical_ymd s = true -> truthy_atom (AStr s) = true.
Proof. by destruct s. Qed.

Lemma insert_fresh (h : list pyobj) (o o' : pyobj) :
  <[length h := o']> (h ++ [o]) = h ++ [o'].
Proof. by rewrite insert_app_r_alt, Nat.sub_diag. Qed.

Ltac run_store :=
  repeat (cbv beta iota delta [bind ret raise lift alloc read write read_opt
                               py_setitem];
          cbn [heap trace fst snd];
          rewrite ?lookup_fresh, ?insert_fresh).

Section Calendar.

Variable remote : request -> list pyobj -> outcome pyval * list pyobj.
Variable pads_year : bool.

(** C4, as the code has it: for every non-empty start or end date string
    that [strptime] does not parse under [%Y-%m-%d], [get_calendar]
    raises [ValueError] and logs no request, whatever the other date
    string is. *)
Theorem rejected_date_raises_before_get (s : string) (other : option string)
    (w : world) :
  s <> "" -> accepts_ymd s = false ->
  (exists w', get_calendar remote pads_year (Some (AStr s)) (AStr <$> other) w
              = (Raise ValueError, w')
              /\ trace w' = trace w)
  /\ (exists w', get_calendar remote pads_year (AStr <$> other) (Some (AStr s)) w
                 = (Raise ValueError, w')
                 /\ trace w' = trace w).
Proof.
  intros Hne Hrej. apply rejected_raises in Hrej.
  assert (Ht : truthy_atom (AStr s) = true) by (by destruct s).
  split.
  - unfold get_calendar. cbn [default from_option id]. rewrite Ht. cbn [strptime].
    rewrite Hrej. run_store. eauto.
  - unfold get_calendar. cbn [default from_option id]. rewrite Ht. cbn [strptime].
    rewrite Hrej.
    destruct other as [o |]; cbn [fmap option_fmap option_map default from_option id].
    + destruct (truthy_atom (AStr o)); cbn [strptime].
      * destruct (strptime_str_cases o) as [[t ->] | ->]; run_store; eauto.
      * run_store. eauto.
    + cbn [truthy_atom]. run_store. eauto.
Qed.

(** C5, as the code has it: for valid [YYYY-MM-DD] strings, on a
    platform that pads [%Y] or for years from 1000 on, parsing and
    reformatting gives the string back, and [get_calendar] sends it
    unchanged as ["start"] and ["end"]. *)
Theorem canonical_dates_sent_unchanged (s e : string) (w : world) :
  canonical_ymd s = true -> canonical_ymd e = true ->
  pads_year = true \/ (1000 <= year_of s /\ 1000 <= year_of e) ->
  (exists t, strptime (AStr s) = Ok t /\ strftime pads_year t = s)
  /\ trace (get_calendar remote pads_year (Some (AStr s)) (Some (AStr e)) w).2
     = trace w ++ [ calendar_call {[ "start" := PAtom (AStr s);
                                     "end" := PAtom (AStr e) ]} ]
  /\ trace (get_calendar remote pads_year (Some (AStr s)) None w).2
     = trace w ++ [ calendar_call {[ "start" := PAtom (AStr s) ]} ]
  /\ trace (get_calendar remote pads_year None (Some (AStr e)) w).2
     = trace w ++ [ calendar_call {[ "end" := PAtom (AStr e) ]} ].
Proof.
  intros Hs He Hp.
  destruct (canonical_round_trip pads_year s Hs) as (ts & Hps & Hfs); [tauto |].
  destruct (canonical_round_trip pads_year e He) as (te & Hpe & Hfe); [tauto |].
  assert (Hts := canonical_truthy s Hs). assert (Hte := canonical_truthy e He).
  split; [eauto |].
  repeat split.
  - unfold get_calendar, request_get, send. cbn [default from_option id].
    rewrite Hts, Hte, Hps, Hpe. run_store. rewrite Hfs, Hfe.
    destruct (remote _ _) as [r h']. cbn [snd trace].
    rewrite (insert_insert_ne (M := gmap string)) by done.
    rewrite insert_empty. by destruct r.
  - unfold get_calendar, request_get, send. cbn [default from_option id].
    rewrite Hts, Hps. cbn [truthy_atom]. run_store. rewrite Hfs.
    by destruct (remote _ _) as [[] h'].
  - unfold get_calendar, request_get, send. cbn [default from_option id].
    rewrite Hte, Hpe. cbn [truthy_atom]. run_store. rewrite Hfe.
    by destruct (remote _ _) as [[] h'].
Qed.

End Calendar.

(** ** Local steps log nothing *)

Lemma bind_ret_l {A B} (a : A) (k : A -> M B) : bind (ret a) k = k a.
Proof. reflexivity. Qed.

Lemma set_monitored_idemp (o : pyobj) :
  set_monitored (set_monitored o) = set_monitored o.
Proof. destruct o; simpl; [reflexivity |]. by rewrite insert_insert_eq. Qed.

Section Frame.

Variable R : list pyobj -> list pyobj -> Prop.
Hypothesis R_refl : forall h, R h h.
Hypothesis R_trans : forall h1 h2 h3, R h1 h2 -> R h2 h3 -> R h1 h3.
Hypothesis R_alloc : forall h o, R h (h ++ [o]).

Lemma keeps_ret {A} (a : A) : keeps R (ret a).
Proof. intros w r w' [= <- <-]. auto. Qed.

Lemma keeps_raise {A} (e : pyexn) : keeps R (raise (A := A) e).
Proof. intros w r w' [= <- <-]. auto. Qed.

Lemma keeps_lift {A} (o : outcome A) : keeps R (lift o).
Proof. intros w r w' [= <- <-]. auto. Qed.

Lemma keeps_read (l : loc) : keeps R (read l).
Proof.
  intros w r w'. unfold read. destruct (heap w !! l); intros [= <- <-]; auto.
Qed.

Lemma keeps_alloc (o : pyobj) : keeps R (alloc o).
Proof. intros w r w' [= <- <-]. simpl. auto. Qed.

Lemma keeps_bind {A B} (m : M A) (k : A -> M B) :
  keeps R m -> (forall a, keeps R (k a)) -> keeps R (bind m k).
Proof.
  intros Hm Hk w r w'. unfold bind.
  destruct (m w) as [[a | e |] w1] eqn:E; destruct (Hm _ _ _ E) as [Ht Hh].
  - intros E2. destruct (Hk _ _ _ _ E2) as [Ht2 Hh2].
    split; [congruence | eauto].
  - intros [= <- <-]. auto.
  - intros [= <- <-]. auto.
Qed.

Lemma keeps_truthy (v : pyval) : keeps R (truthy v).
Proof.
  destruct v; simpl; [apply keeps_ret |].
  apply keeps_bind; [apply keeps_read | intros; apply keeps_ret].
Qed.

Lemma keeps_getitem (v : pyval) (k : atom) : keeps R (py_getitem v k).
Proof.
  destruct v as [[] |]; simpl; try apply keeps_raise.
  - destruct (as_index k); [apply keeps_lift | apply keeps_raise].
  - apply keeps_bind; [apply keeps_read |].
    intros [xs | d].
    + destruct (as_index k); [apply keeps_lift | apply keeps_raise].
    + destruct k; try apply keeps_raise.
      destruct (d !! s); [apply keeps_ret | apply keeps_raise].
Qed.

Lemma keeps_get (v : pyval) (k : string) : keeps R (py_get v k).
Proof.
  destruct v; simpl; [apply keeps_raise |].
  apply keeps_bind; [apply keeps_read |].
  intros []; [apply keeps_raise | apply keeps_ret].
Qed.

Lemma keeps_iter (v : pyval) : keeps R (py_iter v).
Proof.
  destruct v as [[] |]; simpl; try apply keeps_raise; try apply keeps_ret.
  apply keeps_bind; [apply keeps_read |].
  intros []; apply keeps_ret.
Qed.

End Frame.

Lemma touched_refl (P : loc -> Prop) (h : list pyobj) : touched P h h.
Proof. intros l o Hl. by left. Qed.

Lemma touched_trans (P : loc -> Prop) (h1 h2 h3 : list pyobj) :
  touched P h1 h2 -> touched P h2 h3 -> touched P h1 h3.
Proof.
  intros H1 H2 l o Hl.
  destruct (H1 _ _ Hl) as [E | [Hp E]]; destruct (H2 _ _ E) as [E' | [_ E']]; auto.
  rewrite set_monitored_idemp in E'. auto.
Qed.

Lemma touched_alloc (P : loc -> Prop) (h : list pyobj) (o : pyobj) :
  touched P h (h ++ [o]).
Proof. intros l o' Hl. left. by apply lookup_app_l_Some. Qed.

Lemma touched_weaken (P Q : loc -> Prop) (h h' : list pyobj) :
  (forall l, P l -> Q l) -> touched P h h' -> touched Q h h'.
Proof. intros HPQ H l o Hl. destruct (H _ _ Hl) as [E | [Hp E]]; auto. Qed.

Lemma touched_nowhere (h h' : list pyobj) :
  touched (fun _ => False) h h' -> preserved h h'.
Proof. intros H l o Hl. by destruct (H _ _ Hl) as [E | [[] _]]. Qed.

Lemma keeps_weaken {A} (P Q : loc -> Prop) (m : M A) :
  (forall l, P l -> Q l) -> keeps (touched P) m -> keeps (touched Q) m.
Proof.
  intros HPQ Hm w r w' E. destruct (Hm _ _ _ E) as [Ht Hh].
  eauto using touched_weaken.
Qed.

(** The one write of the client, [season["monitored"] = False], changes
    the cell it is applied to and nothing else. *)
Lemma keeps_set_monitored (P : loc -> Prop) (v : pyval) :
  (forall l, v = PRef l -> P l) ->
  keeps (touched P) (py_setitem v "monitored" (PAtom (ABool false))).
Proof.
  intros Hv.
  destruct v as [a | l]; simpl; [apply keeps_raise, touched_refl |].
  intros w r w'. unfold bind, read.
  destruct (heap w !! l) as [[xs | d] |] eqn:E.
  - intros [= <- <-]. auto using touched_refl.
  - intros [= <- <-]. split; [reflexivity |]. simpl.
    intros l' o Hl. destruct (decide (l = l')) as [Heq | Hne].
    + subst l'. right. split; [by apply Hv |].
      rewrite list_lookup_insert_eq by (by eapply lookup_lt_Some).
      assert (Some (ODict d) = Some o) as [= <-] by (rewrite <- E; exact Hl).
      reflexivity.
    + left. by rewrite list_lookup_insert_ne.
  - intros [= <- <-]. auto using touched_refl.
Qed.

Lemma keeps_for_each_in {A} (R : list pyobj -> list pyobj -> Prop)
    (xs : list A) (body : A -> M unit) :
  (forall h, R h h) -> (forall h1 h2 h3, R h1 h2 -> R h2 h3 -> R h1 h3) ->
  (forall x, x ∈ xs -> keeps R (body x)) -> keeps R (for_each xs body).
Proof.
  intros Hrefl Htrans. induction xs as [| x xs IH]; intros Hb; simpl.
  - by apply keeps_ret.
  - apply keeps_bind; [assumption | apply Hb; left |].
    intros _. apply IH. intros y Hy. apply Hb. by right.
Qed.

Lemma keeps_season_loop (items : list pyval) :
  keeps (touched (fun l => PRef l ∈ items))
    (for_each items (fun season =>
       py_setitem season "monitored" (PAtom (ABool false)))).
Proof.
  apply keeps_for_each_in.
  - apply touched_refl.
  - apply touched_trans.
  - intros x Hx. apply keeps_set_monitored. by intros l ->.
Qed.

(** ** Series payload construction *)

Lemma bind_ok {A B} (m : M A) (k : A -> M B) (w w1 : world) (a : A) :
  m w = (Ok a, w1) -> bind m k w = k a w1.
Proof. intros E. unfold bind. by rewrite E. Qed.

Lemma bind_raise {A B} (m : M A) (k : A -> M B) (w w1 : world) (e : pyexn) :
  m w = (Raise e, w1) -> bind m k w = (Raise e, w1).
Proof. intros E. unfold bind. by rewrite E. Qed.

Lemma read_ok (l : loc) (o : pyobj) (w : world) :
  heap w !! l = Some o -> read l w = (Ok o, w).
Proof. intros E. unfold read. by rewrite E. Qed.

Section Series.

Variable remote : request -> list pyobj -> outcome pyval * list pyobj.

Lemma lookup_series_trace (term : atom) (w w1 : world) (r : outcome pyval) :
  lookup_series remote term w = (r, w1) ->
  trace w1 = trace w ++ [lookup_call term].
Proof.
  unfold lookup_series. rewrite get_with_fresh_params. by intros [= _ <-].
Qed.

(** C1, as the code has it: when the lookup returns an empty list,
    [construct_series_json], and with it [add_series], raises
    [IndexError] at [res[0]] and stops in the very state the lookup left:
    the lookup is the only request logged. *)
Theorem empty_lookup_raises_index_error
    (tvdb_id quality_profile_id root_dir : atom)
    (season_folder monitored with_files without_files search : option atom)
    (w0 w1 : world) (l : loc) :
  lookup_series remote tvdb_id w0 = (Ok (PRef l), w1) ->
  heap w1 !! l = Some (OList []) ->
  construct_series_json remote tvdb_id quality_profile_id root_dir
    season_folder monitored with_files without_files search w0
  = (Raise IndexError, w1)
  /\ add_series remote tvdb_id quality_profile_id root_dir
       season_folder monitored with_files without_files search w0
     = (Raise IndexError, w1)
  /\ trace w1 = trace w0 ++ [lookup_call tvdb_id].
Proof.
  intros Hlook Hempty.
  assert (Hc : forall sf mon wf wof se,
    construct_series_json remote tvdb_id quality_profile_id root_dir
      sf mon wf wof se w0 = (Raise IndexError, w1)).
  { intros. unfold construct_series_json. cbv zeta.
    rewrite (bind_ok _ _ _ _ _ Hlook).
    apply bind_raise. unfold py_getitem.
    rewrite (bind_ok _ _ _ _ _ (read_ok _ _ _ Hempty)). reflexivity. }
  split; [apply Hc |]. split.
  - unfold add_series. cbv zeta. by apply bind_raise.
  - by eapply lookup_series_trace.
Qed.

End Series.

(** ** The season loop in closed form *)

Lemma mark_seasons_lookup (items : list pyval) (h : list pyobj) (l : loc) :
  mark_seasons items h !! l
  = (fun o => if bool_decide (PRef l ∈ items) then set_monitored o else o)
      <$> h !! l.
Proof. unfold mark_seasons. by rewrite list_lookup_imap. Qed.

Lemma mark_seasons_nil (h : list pyobj) : mark_seasons [] h = h.
Proof.
  apply list_eq. intros l. rewrite mark_seasons_lookup.
  rewrite bool_decide_eq_false_2 by apply not_elem_of_nil.
  by destruct (h !! l).
Qed.

Lemma mark_seasons_cons (l : loc) (d : gmap string pyval)
    (items : list pyval) (h : list pyobj) :
  h !! l = Some (ODict d) ->
  mark_seasons items (<[l := ODict (<["monitored" := PAtom (ABool false)]> d)]> h)
  = mark_seasons (PRef l :: items) h.
Proof.
  intros Hl. apply list_eq. intros i. rewrite !mark_seasons_lookup.
  destruct (decide (i = l)) as [-> | Hne].
  - rewrite list_lookup_insert_eq by (by eapply lookup_lt_Some).
    rewrite Hl. simpl.
    rewrite (bool_decide_eq_true_2 (PRef l ∈ PRef l :: items)) by left.
    destruct (bool_decide _); simpl; [by rewrite insert_insert_eq | reflexivity].
  - rewrite list_lookup_insert_ne by done.
    destruct (h !! i) as [o |]; [simpl | reflexivity].
    f_equal. apply (f_equal (fun b : bool => if b then set_monitored o else o)).
    apply bool_decide_ext. rewrite elem_of_cons.
    split; [by right |]. intros [E | E]; [congruence | exact E].
Qed.

Lemma is_dict_ref_insert (h : list pyobj) (l : loc) (d' : gmap string pyval)
    (v : pyval) :
  is_dict_ref h v -> is_dict_ref (<[l := ODict d']> h) v.
Proof.
  intros (l' & d & -> & Hl). destruct (decide (l = l')) as [-> | Hne].
  - exists l', d'. split; [reflexivity |].
    by rewrite list_lookup_insert_eq by (by eapply lookup_lt_Some).
  - exists l', d. split; [reflexivity |]. by rewrite list_lookup_insert_ne.
Qed.

(** On a list of season dicts the loop runs to its end, and the store it
    leaves is [mark_seasons]. *)
Lemma season_loop_run (items : list pyval) (h : list pyobj) (tr : list request) :
  Forall (is_dict_ref h) items ->
  for_each items
    (fun season => py_setitem season "monitored" (PAtom (ABool false)))
    {| heap := h; trace := tr |}
  = (Ok tt, {| heap := mark_seasons items h; trace := tr |}).
Proof.
  revert h. induction items as [| x items IH]; intros h Hall.
  - simpl. by rewrite mark_seasons_nil.
  - apply Forall_cons in Hall as [(l & d & -> & Hl) Hall].
    cbn [for_each]. unfold py_setitem.
    erewrite bind_ok; [| erewrite bind_ok by (by apply read_ok); reflexivity].
    cbn [heap trace]. rewrite IH.
    + by rewrite (mark_seasons_cons _ _ _ _ Hl).
    + eapply Forall_impl; [exact Hall |]. intros v. apply is_dict_ref_insert.
Qed.

(** A marked dict keeps every key but ["monitored"]. *)
Lemma mark_seasons_dict (items : list pyval) (h : list pyobj) (l : loc)
    (d : gmap string pyval) :
  h !! l = Some (ODict d) ->
  exists d', mark_seasons items h !! l = Some (ODict d')
             /\ forall k, k <> "monitored" -> d' !! k = d !! k.
Proof.
  intros Hl. rewrite mark_seasons_lookup, Hl. simpl.
  destruct (bool_decide _); simpl.
  - eexists. split; [reflexivity |]. intros k Hk. by rewrite lookup_insert_ne.
  - eexists. split; [reflexivity |]. done.
Qed.

Lemma mark_seasons_list (items : list pyval) (h : list pyobj) (l : loc)
    (xs : list pyval) :
  h !! l = Some (OList xs) -> mark_seasons items h !! l = Some (OList xs).
Proof.
  intros Hl. rewrite mark_seasons_lookup, Hl. simpl. by destruct (bool_decide _).
Qed.

(** ** Running [construct_series_json] on a well-formed reply *)

Lemma seq_index_head {A} (x : A) (xs : list A) : seq_index (x :: xs) 0 = Ok x.
Proof.
  unfold seq_index. cbn [length]. rewrite Nat2Z.inj_succ.
  replace (0 <? 0) with false by reflexivity. cbn [orb].
  destruct (Z.leb_spec (Z.succ (Z.of_nat (length xs))) 0); [lia | reflexivity].
Qed.

Lemma getitem_first (l : loc) (x : pyval) (xs : list pyval) (w : world) :
  heap w !! l = Some (OList (x :: xs)) ->
  py_getitem (PRef l) (AInt 0) w = (Ok x, w).
Proof.
  intros Hl. unfold py_getitem. rewrite (bind_ok _ _ _ _ _ (read_ok _ _ _ Hl)).
  cbn [as_index]. unfold lift. by rewrite seq_index_head.
Qed.

Lemma getitem_key (l : loc) (d : gmap string pyval) (k : string) (v : pyval)
    (w : world) :
  heap w !! l = Some (ODict d) -> d !! k = Some v ->
  py_getitem (PRef l) (AStr k) w = (Ok v, w).
Proof.
  intros Hl Hk. unfold py_getitem. rewrite (bind_ok _ _ _ _ _ (read_ok _ _ _ Hl)).
  by rewrite Hk.
Qed.

Lemma get_key (l : loc) (d : gmap string pyval) (k : string) (v : pyval)
    (w : world) :
  heap w !! l = Some (ODict d) -> d !! k = Some v ->
  py_get (PRef l) k w = (Ok v, w).
Proof.
  intros Hl Hk. unfold py_get. rewrite (bind_ok _ _ _ _ _ (read_ok _ _ _ Hl)).
  by rewrite Hk.
Qed.

Lemma truthy_list (l : loc) (xs : list pyval) (w : world) :
  heap w !! l = Some (OList xs) ->
  truthy (PRef l) w = (Ok (negb (bool_decide (xs = []))), w).
Proof.
  intros Hl. unfold truthy. by rewrite (bind_ok _ _ _ _ _ (read_ok _ _ _ Hl)).
Qed.

Lemma iter_list (l : loc) (xs : list pyval) (w : world) :
  heap w !! l = Some (OList xs) -> py_iter (PRef l) w = (Ok xs, w).
Proof.
  intros Hl. unfold py_iter. by rewrite (bind_ok _ _ _ _ _ (read_ok _ _ _ Hl)).
Qed.

Section SeriesRun.

Variable remote : request -> list pyobj -> outcome pyval * list pyobj.

(** On a reply whose first match is a series descriptor,
    [construct_series_json] returns: the store is the one the lookup
    left, with the season flags cleared when [monitored] is falsy,
    followed by the ["addOptions"] dict and the payload. *)
Lemma construct_series_json_run
    (tvdb_id quality_profile_id : atom) (root_dir : string)
    (season_folder monitored with_files without_files search : option atom)
    (w0 w1 : world) (res : pyval) (d : loc) (fields : gmap string pyval)
    (title : string) (sl : loc) (seasons : list pyval) (images slug : pyval) :
  lookup_series remote tvdb_id w0 = (Ok res, w1) ->
  first_match (heap w1) res d fields ->
  series_descriptor (heap w1) fields title sl seasons images slug ->
  let mon := default (ABool true) monitored in
  let h := if truthy_atom mon then heap w1 else mark_seasons seasons (heap w1) in
  construct_series_json remote tvdb_id quality_profile_id (AStr root_dir)
    season_folder monitored with_files without_files search w0
  = (Ok (S (length h)),
     {| heap := h ++ [ ODict (add_options_dict
                                (default (ABool false) with_files)
                                (default (ABool false) without_files)
                                (default (ABool false) search));
                       ODict (series_payload tvdb_id quality_profile_id root_dir
                                (default (ABool true) season_folder) mon
                                title sl images slug (length h)) ];
        trace := trace w1 |}).
Proof.
  intros Hlook (l0 & rest & -> & Hres & Hd) (Htitle & Hsl & Himg & Hslug & Hlist & Hall).
  intros mon h.
  unfold construct_series_json. cbv zeta. fold mon.
  rewrite (bind_ok _ _ _ _ _ Hlook).
  rewrite (bind_ok _ _ _ _ _ (getitem_first _ _ _ _ Hres)).
  match goal with
  | |- bind _ (fun cond => bind _ (fun _ => ?tail)) _ = _ => set (T := tail)
  end.
  assert (Htail : forall w' f',
    heap w' !! d = Some (ODict f') ->
    (forall k, k <> "monitored" -> f' !! k = fields !! k) ->
    T w' = (Ok (S (length (heap w'))),
            {| heap := heap w' ++
                 [ ODict (add_options_dict
                            (default (ABool false) with_files)
                            (default (ABool false) without_files)
                            (default (ABool false) search));
                   ODict (series_payload tvdb_id quality_profile_id root_dir
                            (default (ABool true) season_folder) mon
                            title sl images slug (length (heap w'))) ];
               trace := trace w' |})).
  { intros w' f' Hd' Hsame. subst T.
    assert (Ht' : f' !! "title" = Some (PAtom (AStr title)))
      by (by rewrite Hsame).
    assert (Hs' : f' !! "seasons" = Some (PRef sl)) by (by rewrite Hsame).
    assert (Hi' : f' !! "images" = Some images) by (by rewrite Hsame).
    assert (Hg' : f' !! "titleSlug" = Some slug) by (by rewrite Hsame).
    rewrite (bind_ok _ _ _ _ _ (getitem_key _ _ _ _ _ Hd' Ht')).
    rewrite (bind_ok _ _ _ _ _ (getitem_key _ _ _ _ _ Hd' Hs')).
    rewrite (bind_ok _ _ _ _ _ (getitem_key _ _ _ _ _ Hd' Ht')).
    cbn [py_add]. unfold lift at 1. unfold bind at 1.
    rewrite (bind_ok _ _ _ _ _ (getitem_key _ _ _ _ _ Hd' Hi')).
    rewrite (bind_ok _ _ _ _ _ (getitem_key _ _ _ _ _ Hd' Hg')).
    unfold bind, alloc, ret. cbn [heap trace].
    rewrite length_app, Nat.add_1_r, <- app_assoc. reflexivity. }
  destruct (truthy_atom mon) eqn:Hmon; cbn [negb].
  - rewrite bind_ret_l, bind_ret_l. subst h.
    by apply (Htail w1 fields).
  - assert (Hg : py_get (PRef d) "seasons" w1 = (Ok (PRef sl), w1))
      by (by eapply get_key).
    rewrite (bind_ok _ _ _ _ _
               (eq_trans (bind_ok _ _ _ _ _ Hg) (truthy_list _ _ _ Hlist))).
    destruct (bool_decide (seasons = [])) eqn:Hnil; cbn [negb].
    + apply bool_decide_eq_true_1 in Hnil. subst seasons.
      rewrite bind_ret_l. subst h. rewrite mark_seasons_nil.
      by apply (Htail w1 fields).
    + rewrite (bind_ok _ _ w1 {| heap := mark_seasons seasons (heap w1);
                                 trace := trace w1 |} tt).
      * destruct (mark_seasons_dict seasons _ _ _ Hd) as (f' & Hd' & Hsame).
        by rewrite (Htail {| heap := mark_seasons seasons (heap w1);
                             trace := trace w1 |} f' Hd' Hsame).
      * rewrite (bind_ok _ _ _ _ _ (getitem_key _ _ _ _ _ Hd Hsl)).
        rewrite (bind_ok _ _ _ _ _ (iter_list _ _ _ Hlist)).
        destruct w1 as [h1 t1]. by apply season_loop_run.
Qed.

Lemma lookup_second_fresh (h : list pyobj) (a b : pyobj) :
  (h ++ [a; b]) !! S (length h) = Some b.
Proof. rewrite lookup_app_r by lia. by replace (S (length h) - length h)%nat with 1%nat by lia. Qed.

Lemma preserved_app (h : list pyobj) (xs : list pyobj) : preserved h (h ++ xs).
Proof. intros l o Hl. by apply lookup_app_l_Some. Qed.

(** C2: when the first match of the lookup is a series descriptor with
    [N] season dicts, [construct_series_json] with [monitored=False]
    returns a payload whose ["seasons"] is that list of [N] entries, each
    with ["monitored"] equal to [False] whatever it was before; with
    [monitored=True] the payload holds the same list and no cell of the
    reply has changed. *)
Theorem seasons_unmonitored_or_unchanged
    (tvdb_id quality_profile_id : atom) (root_dir : string)
    (season_folder with_files without_files search : option atom)
    (w0 w1 : world) (res : pyval) (d : loc) (fields : gmap string pyval)
    (title : string) (sl : loc) (seasons : list pyval) (images slug : pyval) :
  lookup_series remote tvdb_id w0 = (Ok res, w1) ->
  first_match (heap w1) res d fields ->
  series_descriptor (heap w1) fields title sl seasons images slug ->
  (exists p w2 payload,
     construct_series_json remote tvdb_id quality_profile_id (AStr root_dir)
       season_folder (Some (ABool false)) with_files without_files search w0
     = (Ok p, w2)
     /\ heap w2 !! p = Some (ODict payload)
     /\ payload !! "seasons" = Some (PRef sl)
     /\ heap w2 !! sl = Some (OList seasons)
     /\ Forall (unmonitored (heap w2)) seasons)
  /\ (exists p w2 payload,
     construct_series_json remote tvdb_id quality_profile_id (AStr root_dir)
       season_folder (Some (ABool true)) with_files without_files search w0
     = (Ok p, w2)
     /\ heap w2 !! p = Some (ODict payload)
     /\ payload !! "seasons" = Some (PRef sl)
     /\ heap w2 !! sl = Some (OList seasons)
     /\ preserved (heap w1) (heap w2)).
Proof.
  intros Hlook Hfirst Hdesc. split.
  - eexists _, _, _. split.
    { by eapply construct_series_json_run. }
    cbn [default from_option id truthy_atom heap].
    destruct Hdesc as (_ & _ & _ & _ & Hlist & Hall).
    split; [apply lookup_second_fresh |].
    split; [reflexivity |].
    split.
    { apply lookup_app_l_Some. by apply mark_seasons_list. }
    rewrite Forall_forall in Hall |- *. intros v Hv.
    destruct (Hall v Hv) as (l & sd & -> & Hl).
    exists l, (<["monitored" := PAtom (ABool false)]> sd).
    split; [reflexivity |]. split; [| apply lookup_insert_eq].
    apply lookup_app_l_Some. rewrite mark_seasons_lookup, Hl. simpl.
    by rewrite bool_decide_eq_true_2.
  - eexists _, _, _. split.
    { by eapply construct_series_json_run. }
    cbn [default from_option id truthy_atom heap].
    destruct Hdesc as (_ & _ & _ & _ & Hlist & Hall).
    split; [apply lookup_second_fresh |].
    split; [reflexivity |].
    split; [by apply lookup_app_l_Some | apply preserved_app].
Qed.

(** C6: for every root directory string, when the first match of the
    lookup is a series descriptor, the ["path"] of the payload is the
    root directory immediately followed by the descriptor's title:
    nothing is put between the two. *)
Theorem path_is_root_dir_then_title
    (tvdb_id quality_profile_id : atom) (root_dir : string)
    (season_folder monitored with_files without_files search : option atom)
    (w0 w1 : world) (res : pyval) (d : loc) (fields : gmap string pyval)
    (title : string) (sl : loc) (seasons : list pyval) (images slug : pyval) :
  lookup_series remote tvdb_id w0 = (Ok res, w1) ->
  first_match (heap w1) res d fields ->
  series_descriptor (heap w1) fields title sl seasons images slug ->
  exists p w2 payload,
    construct_series_json remote tvdb_id quality_profile_id (AStr root_dir)
      season_folder monitored with_files without_files search w0
    = (Ok p, w2)
    /\ heap w2 !! p = Some (ODict payload)
    /\ payload !! "title" = Some (PAtom (AStr title))
    /\ payload !! "path" = Some (PAtom (AStr (root_dir +:+ title))).
Proof.
  intros Hlook Hfirst Hdesc.
  eexists _, _, _. split.
  { by eapply construct_series_json_run. }
  cbn [heap]. split; [apply lookup_second_fresh |].
  split; reflexivity.
Qed.

End SeriesRun.

(** ** What [construct_series_json] does to the lookup reply *)

Lemma keeps_eq_reads_only {A} (m : M A) : keeps eq m -> reads_only m.
Proof.
  intros Hm w r w' E. destruct (Hm _ _ _ E) as [Ht Hh].
  destruct w, w'. simpl in *. congruence.
Qed.

Lemma reads_only_getitem (v : pyval) (k : atom) : reads_only (py_getitem v k).
Proof. apply keeps_eq_reads_only, keeps_getitem; [done | congruence]. Qed.

Lemma reads_only_get (v : pyval) (k : string) : reads_only (py_get v k).
Proof. apply keeps_eq_reads_only, keeps_get; [done | congruence]. Qed.

Lemma reads_only_truthy (v : pyval) : reads_only (truthy v).
Proof. apply keeps_eq_reads_only, keeps_truthy; [done | congruence]. Qed.

Lemma reads_only_iter (v : pyval) : reads_only (py_iter v).
Proof. apply keeps_eq_reads_only, keeps_iter; [done | congruence]. Qed.

Lemma reads_only_bind {A B} (m : M A) (k : A -> M B) :
  reads_only m -> (forall a, reads_only (k a)) -> reads_only (bind m k).
Proof.
  intros Hm Hk w r w'. unfold bind.
  destruct (m w) as [[a | e |] w1] eqn:E; rewrite (Hm _ _ _ E).
  - apply Hk.
  - by intros [= _ <-].
  - by intros [= _ <-].
Qed.

Lemma keeps_at_all (R : list pyobj -> list pyobj -> Prop) {A} (m : M A) (w : world) :
  keeps R m -> keeps_at R w m.
Proof. intros Hm r w'. apply Hm. Qed.

Lemma keeps_at_bind_reads (R : list pyobj -> list pyobj -> Prop) {A B}
    (m : M A) (k : A -> M B) (w : world) :
  (forall h, R h h) ->
  reads_only m ->
  (forall a, m w = (Ok a, w) -> keeps_at R w (k a)) ->
  keeps_at R w (bind m k).
Proof.
  intros Hrefl Hm Hk r w'. unfold bind.
  destruct (m w) as [[a | e |] w1] eqn:E; pose proof (Hm _ _ _ E); subst w1.
  - by apply Hk.
  - intros [= <- <-]. auto.
  - intros [= <- <-]. auto.
Qed.

Lemma keeps_at_bind (R : list pyobj -> list pyobj -> Prop) {A B}
    (m : M A) (k : A -> M B) (w : world) :
  (forall h1 h2 h3, R h1 h2 -> R h2 h3 -> R h1 h3) ->
  keeps_at R w m -> (forall a, keeps R (k a)) -> keeps_at R w (bind m k).
Proof.
  intros Htrans Hm Hk r w'. unfold bind.
  destruct (m w) as [[a | e |] w1] eqn:E; destruct (Hm _ _ E) as [Ht Hh].
  - intros E2. destruct (Hk _ _ _ _ E2) as [Ht2 Hh2].
    split; [congruence | eauto].
  - intros [= <- <-]. auto.
  - intros [= <- <-]. auto.
Qed.

Lemma seq_index_zero_inv {A} (xs : list A) (x : A) :
  seq_index xs 0 = Ok x -> exists rest, xs = x :: rest.
Proof.
  destruct xs as [| y ys]; [discriminate |].
  rewrite seq_index_head. intros [= ->]. eauto.
Qed.

Lemma getitem_first_inv (res : pyval) (d : loc) (w w' : world) :
  py_getitem res (AInt 0) w = (Ok (PRef d), w') ->
  exists l rest, res = PRef l /\ heap w !! l = Some (OList (PRef d :: rest)).
Proof.
  destruct res as [[| | | s] | l]; try discriminate.
  - unfold py_getitem, lift, as_index. intros [= E _].
    apply seq_index_zero_inv in E as [rest E]. by destruct s.
  - unfold py_getitem, bind, read.
    destruct (heap w !! l) as [[xs | f] |] eqn:El; try discriminate.
    unfold lift, as_index. intros [= E _].
    apply seq_index_zero_inv in E as [rest ->]. eauto.
Qed.

Lemma get_inv (v : pyval) (k : string) (g : pyval) (w w' : world) :
  py_get v k w = (Ok g, w') ->
  exists l f, v = PRef l /\ heap w !! l = Some (ODict f).
Proof.
  destruct v as [a | l]; [discriminate |].
  unfold py_get, bind, read.
  destruct (heap w !! l) as [[xs | f] |] eqn:El; try discriminate. eauto.
Qed.

Lemma getitem_key_inv (l : loc) (f : gmap string pyval) (k : string)
    (v : pyval) (w w' : world) :
  heap w !! l = Some (ODict f) ->
  py_getitem (PRef l) (AStr k) w = (Ok v, w') -> f !! k = Some v.
Proof.
  intros Hl. unfold py_getitem. rewrite (bind_ok _ _ _ _ _ (read_ok _ _ _ Hl)).
  destruct (f !! k); [by intros [= -> _] | discriminate].
Qed.

Lemma iter_ref_inv (v : pyval) (items : list pyval) (l : loc) (w w' : world) :
  py_iter v w = (Ok items, w') -> PRef l ∈ items ->
  exists sl, v = PRef sl /\ heap w !! sl = Some (OList items).
Proof.
  destruct v as [[| | | s] | sl]; try discriminate.
  - intros [= <- _] Hin. unfold chars in Hin.
    apply list_elem_of_fmap in Hin as (c & [=] & _).
  - unfold py_iter, bind, read.
    destruct (heap w !! sl) as [[xs | f] |] eqn:El; try discriminate.
    + intros [= <- _] _. eauto.
    + intros [= <- _] Hin.
      apply list_elem_of_fmap in Hin as (kv & [=] & _).
Qed.

Lemma keeps_touched_tail (P : loc -> Prop) {A B} (m : M A) (k : A -> M B) :
  keeps (touched P) m -> (forall a, keeps (touched P) (k a)) ->
  keeps (touched P) (bind m k).
Proof. apply keeps_bind, touched_trans. Qed.

Ltac frame_leaf :=
  first [ apply keeps_ret | apply keeps_raise | apply keeps_lift
        | apply keeps_alloc | apply keeps_getitem | apply keeps_get
        | apply keeps_truthy | apply keeps_iter ];
  first [ apply touched_refl | apply touched_trans | apply touched_alloc ].

Ltac frame := repeat (apply keeps_touched_tail; [| intros ?]); frame_leaf.

Section SeriesFrame.

Variable remote : request -> list pyobj -> outcome pyval * list pyobj.

(** C3, as the code has it: after the lookup, [construct_series_json]
    logs no request and, whether it returns or fails, leaves every cell
    of the store as the lookup left it, with one exception: when
    [monitored] is falsy, the entries of the first match's season list
    may have ["monitored"] set to [False].  With a truthy [monitored]
    the reply is unchanged. *)
Theorem lookup_reply_changes_only_season_flags
    (tvdb_id quality_profile_id root_dir : atom)
    (season_folder monitored with_files without_files search : option atom)
    (w0 w1 w2 : world) (res : pyval) (r : outcome loc) :
  lookup_series remote tvdb_id w0 = (Ok res, w1) ->
  construct_series_json remote tvdb_id quality_profile_id root_dir
    season_folder monitored with_files without_files search w0 = (r, w2) ->
  trace w2 = trace w1
  /\ touched (fun l => truthy_atom (default (ABool true) monitored) = false
                       /\ season_entry (heap w1) res l)
       (heap w1) (heap w2)
  /\ (truthy_atom (default (ABool true) monitored) = true ->
      preserved (heap w1) (heap w2)).
Proof.
  intros Hlook Hrun.
  set (mon := default (ABool true) monitored) in *.
  set (P := fun l : loc => truthy_atom mon = false /\ season_entry (heap w1) res l).
  assert (Hmain : trace w2 = trace w1 /\ touched P (heap w1) (heap w2)).
  { revert Hrun. unfold construct_series_json. cbv zeta. fold mon.
    rewrite (bind_ok _ _ _ _ _ Hlook).
    match goal with
    | |- ?m w1 = (r, w2) -> _ =>
        enough (Hk : keeps_at (touched P) w1 m) by (intros E; exact (Hk _ _ E))
    end.
    apply keeps_at_bind_reads;
      [apply touched_refl | apply reads_only_getitem |]. intros s_dict F1.
    apply keeps_at_bind_reads; [apply touched_refl | |].
    { destruct (negb (truthy_atom mon)).
      - apply reads_only_bind; [apply reads_only_get |].
        intros g. apply reads_only_truthy.
      - apply keeps_eq_reads_only, keeps_ret. done. }
    intros cond F2.
    apply keeps_at_bind; [apply touched_trans | | intros _; frame].
    destruct cond; [| apply keeps_at_all; frame].
    destruct (truthy_atom mon) eqn:Hmon; [discriminate |]. cbn [negb] in F2.
    apply keeps_at_bind_reads;
      [apply touched_refl | apply reads_only_getitem |]. intros seasons F3.
    apply keeps_at_bind_reads;
      [apply touched_refl | apply reads_only_iter |]. intros items F4.
    apply keeps_at_all.
    apply (keeps_weaken (fun l => PRef l ∈ items)); [| apply keeps_season_loop].
    intros l Hin. split; [reflexivity |].
    unfold bind in F2.
    destruct (py_get s_dict "seasons" w1) as [[g | |] wg] eqn:Hget; try discriminate.
    apply get_inv in Hget as (d & f & -> & Hd).
    apply getitem_first_inv in F1 as (l0 & rest & -> & Hres).
    apply (getitem_key_inv _ _ _ _ _ _ Hd) in F3.
    destruct (iter_ref_inv _ _ _ _ _ F4 Hin) as (sl & -> & Hsl).
    exists d, f, sl, items. repeat split; try assumption.
    exists l0, rest. auto. }
  destruct Hmain as [Ht Hh]. split; [exact Ht |]. split; [exact Hh |].
  intros Htrue. apply touched_nowhere.
  eapply touched_weaken; [| exact Hh].
  intros l [Hfalse _]. congruence.
Qed.

End SeriesFrame.

(** * Instances *)

Lemma empty_lookup_raises_index_error_witness :
  lookup_series empty_reply (AInt 7) empty_world
  = (Ok (PRef 1), {| heap := [ODict {[ "term" := PAtom (AInt 7) ]}; OList []];
                     trace := [lookup_call (AInt 7)] |})
  /\ ([ODict {[ "term" := PAtom (AInt 7) ]}; OList []] : list pyobj) !! 1%nat
     = Some (OList [])
  /\ construct_series_json empty_reply (AInt 7) (AInt 1) (AStr "/tv/")
       None None None None None empty_world
     = (Raise IndexError,
        {| heap := [ODict {[ "term" := PAtom (AInt 7) ]}; OList []];
           trace := [lookup_call (AInt 7)] |})
  /\ add_series empty_reply (AInt 7) (AInt 1) (AStr "/tv/")
       None None None None None empty_world
     = (Raise IndexError,
        {| heap := [ODict {[ "term" := PAtom (AInt 7) ]}; OList []];
           trace := [lookup_call (AInt 7)] |}).
Proof.
  split; [reflexivity |]. split; [reflexivity |].
  destruct (empty_lookup_raises_index_error empty_reply
              (AInt 7) (AInt 1) (AStr "/tv/") None None None None None
              empty_world
              {| heap := [ODict {[ "term" := PAtom (AInt 7) ]}; OList []];
                 trace := [lookup_call (AInt 7)] |} 1%nat)
    as (Hc & Ha & _); [reflexivity | reflexivity |].
  split; [exact Hc | exact Ha].
Defined.

(** C1 as stated fails: on an empty lookup the exception is Python's
    [IndexError], not a [NotFoundError]. *)
Lemma empty_lookup_is_not_a_not_found_error :
  (construct_series_json empty_reply (AInt 7) (AInt 1) (AStr "/tv/")
     None None None None None empty_world).1 = Raise IndexError
  /\ (add_series empty_reply (AInt 7) (AInt 1) (AStr "/tv/")
        None None None None None empty_world).1 = Raise IndexError
  /\ exn_name IndexError <> "NotFoundError".
Proof. split; [reflexivity |]. split; [reflexivity | discriminate]. Qed.

Lemma sample_lookup :
  lookup_series sample_reply (AInt 7) empty_world = (Ok (PRef 1), sample_world).
Proof. reflexivity. Qed.

Lemma sample_first_match :
  first_match (heap sample_world) (PRef 1) 2 sample_fields.
Proof. exists 1%nat, []. repeat split; reflexivity. Qed.

Lemma sample_descriptor :
  series_descriptor (heap sample_world) sample_fields
    "Show" 3 sample_seasons (PRef 6) (PAtom (AStr "show")).
Proof.
  repeat split; try reflexivity.
  repeat constructor; eexists _, _; (split; [reflexivity |]); reflexivity.
Qed.

Lemma seasons_unmonitored_or_unchanged_witness :
  lookup_series sample_reply (AInt 7) empty_world = (Ok (PRef 1), sample_world)
  /\ first_match (heap sample_world) (PRef 1) 2 sample_fields
  /\ series_descriptor (heap sample_world) sample_fields
       "Show" 3 sample_seasons (PRef 6) (PAtom (AStr "show"))
  /\ (exists p w2 payload,
        construct_series_json sample_reply (AInt 7) (AInt 1) (AStr "/tv/")
          None (Some (ABool false)) None None None empty_world
        = (Ok p, w2)
        /\ heap w2 !! p = Some (ODict payload)
        /\ payload !! "seasons" = Some (PRef 3)
        /\ heap w2 !! 3%nat = Some (OList sample_seasons)
        /\ Forall (unmonitored (heap w2)) sample_seasons)
  /\ (exists p w2 payload,
        construct_series_json sample_reply (AInt 7) (AInt 1) (AStr "/tv/")
          None (Some (ABool true)) None None None empty_world
        = (Ok p, w2)
        /\ heap w2 !! p = Some (ODict payload)
        /\ payload !! "seasons" = Some (PRef 3)
        /\ heap w2 !! 3%nat = Some (OList sample_seasons)
        /\ preserved (heap sample_world) (heap w2)).
Proof.
  split; [exact sample_lookup |].
  split; [exact sample_first_match |].
  split; [exact sample_descriptor |].
  exact (seasons_unmonitored_or_unchanged sample_reply
           (AInt 7) (AInt 1) "/tv/" None None None None
           empty_world sample_world (PRef 1) 2 sample_fields
           "Show" 3 sample_seasons (PRef 6) (PAtom (AStr "show"))
           sample_lookup sample_first_match sample_descriptor).
Defined.

Lemma path_is_root_dir_then_title_witness :
  lookup_series sample_reply (AInt 7) empty_world = (Ok (PRef 1), sample_world)
  /\ first_match (heap sample_world) (PRef 1) 2 sample_fields
  /\ series_descriptor (heap sample_world) sample_fields
       "Show" 3 sample_seasons (PRef 6) (PAtom (AStr "show"))
  /\ exists p w2 payload,
       construct_series_json sample_reply (AInt 7) (AInt 1) (AStr "/tv")
         None None None None None empty_world
       = (Ok p, w2)
       /\ heap w2 !! p = Some (ODict payload)
       /\ payload !! "title" = Some (PAtom (AStr "Show"))
       /\ payload !! "path" = Some (PAtom (AStr ("/tv" +:+ "Show"))).
Proof.
  split; [exact sample_lookup |].
  split; [exact sample_first_match |].
  split; [exact sample_descriptor |].
  exact (path_is_root_dir_then_title sample_reply
           (AInt 7) (AInt 1) "/tv" None None None None None
           empty_world sample_world (PRef 1) 2 sample_fields
           "Show" 3 sample_seasons (PRef 6) (PAtom (AStr "show"))
           sample_lookup sample_first_match sample_descriptor).
Defined.

Lemma lookup_reply_changes_only_season_flags_witness :
  lookup_series sample_reply (AInt 7) empty_world = (Ok (PRef 1), sample_world)
  /\ trace (construct_series_json sample_reply (AInt 7) (AInt 1) (AStr "/tv/")
              None (Some (ABool false)) None None None empty_world).2
     = trace sample_world
  /\ touched (fun l => truthy_atom (default (ABool true) (Some (ABool false))) = false
                       /\ season_entry (heap sample_world) (PRef 1) l)
       (heap sample_world)
       (heap (construct_series_json sample_reply (AInt 7) (AInt 1) (AStr "/tv/")
                None (Some (ABool false)) None None None empty_world).2)
  /\ (truthy_atom (default (ABool true) (Some (ABool false))) = true ->
      preserved (heap sample_world)
        (heap (construct_series_json sample_reply (AInt 7) (AInt 1) (AStr "/tv/")
                 None (Some (ABool false)) None None None empty_world).2)).
Proof.
  split; [exact sample_lookup |].
  exact (lookup_reply_changes_only_season_flags sample_reply
           (AInt 7) (AInt 1) (AStr "/tv/") None (Some (ABool false)) None None None
           empty_world sample_world _ (PRef 1) _
           sample_lookup (surjective_pairing _)).
Defined.

(** C3 as stated fails: with [monitored=False] the first season dict of
    the sample reply, cell 4 of the store, is monitored after the lookup
    and unmonitored after [construct_series_json]. *)
Lemma sample_reply_is_modified :
  heap sample_world !! 4%nat
  = Some (ODict {[ "seasonNumber" := PAtom (AInt 1);
                   "monitored" := PAtom (ABool true) ]})
  /\ heap (construct_series_json sample_reply (AInt 7) (AInt 1) (AStr "/tv/")
             None (Some (ABool false)) None None None empty_world).2 !! 4%nat
     = Some (ODict {[ "seasonNumber" := PAtom (AInt 1);
                      "monitored" := PAtom (ABool false) ]})
  /\ ~ preserved (heap sample_world)
         (heap (construct_series_json sample_reply (AInt 7) (AInt 1) (AStr "/tv/")
                  None (Some (ABool false)) None None None empty_world).2).
Proof.
  split; [reflexivity |]. split; [reflexivity |].
  intros H. specialize (H 4%nat _ eq_refl). discriminate H.
Qed.

Lemma rejected_date_raises_before_get_witness :
  "2021-02-30" <> ""
  /\ accepts_ymd "2021-02-30" = false
  /\ (exists w', get_calendar no_reply false (Some (AStr "2021-02-30"))
                   (AStr <$> Some "2021-03-01") empty_world
                 = (Raise ValueError, w')
                 /\ trace w' = trace empty_world)
  /\ (exists w', get_calendar no_reply false (AStr <$> Some "2021-03-01")
                   (Some (AStr "2021-02-30")) empty_world
                 = (Raise ValueError, w')
                 /\ trace w' = trace empty_world).
Proof.
  split; [discriminate |]. split; [reflexivity |].
  apply (rejected_date_raises_before_get no_reply false
           "2021-02-30" (Some "2021-03-01") empty_world);
    [discriminate | reflexivity].
Defined.

(** C4 as stated fails: the empty string and ["2021-1-5"] are no
    [YYYY-MM-DD] strings, yet the first is dropped and the second is
    normalised, and the GET goes out; a string that does not parse raises
    [ValueError], and no exception is called [ValidationError]. *)
Lemma malformed_dates_that_pass :
  canonical_ymd "" = false
  /\ get_calendar no_reply false (Some (AStr "")) None empty_world
     = (Ok (PAtom ANone),
        {| heap := [ODict ∅]; trace := [calendar_call ∅] |})
  /\ canonical_ymd "2021-1-5" = false
  /\ get_calendar no_reply false (Some (AStr "2021-1-5")) None empty_world
     = (Ok (PAtom ANone),
        {| heap := [ODict {[ "start" := PAtom (AStr "2021-01-05") ]}];
           trace := [calendar_call {[ "start" := PAtom (AStr "2021-01-05") ]}] |})
  /\ (get_calendar no_reply false (Some (AStr "tomorrow")) None empty_world).1
     = Raise ValueError
  /\ exn_name ValueError <> "ValidationError".
Proof. repeat split; try reflexivity; discriminate. Qed.

Lemma canonical_dates_sent_unchanged_witness :
  canonical_ymd "2021-03-04" = true
  /\ canonical_ymd "2021-03-05" = true
  /\ (false = true \/ (1000 <= year_of "2021-03-04" /\ 1000 <= year_of "2021-03-05"))
  /\ (exists t, strptime (AStr "2021-03-04") = Ok t
                /\ strftime false t = "2021-03-04")
  /\ trace (get_calendar no_reply false (Some (AStr "2021-03-04"))
              (Some (AStr "2021-03-05")) empty_world).2
     = trace empty_world
       ++ [ calendar_call {[ "start" := PAtom (AStr "2021-03-04");
                             "end" := PAtom (AStr "2021-03-05") ]} ]
  /\ trace (get_calendar no_reply false (Some (AStr "2021-03-04")) None
              empty_world).2
     = trace empty_world
       ++ [ calendar_call {[ "start" := PAtom (AStr "2021-03-04") ]} ]
  /\ trace (get_calendar no_reply false None (Some (AStr "2021-03-05"))
              empty_world).2
     = trace empty_world
       ++ [ calendar_call {[ "end" := PAtom (AStr "2021-03-05") ]} ].
Proof.
  split; [reflexivity |]. split; [reflexivity |].
  split; [right; vm_compute; split; discriminate |].
  apply (canonical_dates_sent_unchanged no_reply false
           "2021-03-04" "2021-03-05" empty_world);
    [reflexivity | reflexivity | right; vm_compute; split; discriminate].
Defined.

(** C5 as stated fails where [strftime] does not pad [%Y]: the valid
    string ["0999-01-05"] is sent as ["999-01-05"]. *)
Lemma early_year_loses_its_zero :
  canonical_ymd "0999-01-05" = true
  /\ strptime (AStr "0999-01-05") = Ok {| year := 999; month := 1; day := 5 |}
  /\ strftime false {| year := 999; month := 1; day := 5 |} = "999-01-05"
  /\ trace (get_calendar no_reply false (Some (AStr "0999-01-05")) None
              empty_world).2
     = [ calendar_call {[ "start" := PAtom (AStr "999-01-05") ]} ]
  /\ "999-01-05" <> "0999-01-05".
Proof. repeat split; try reflexivity; discriminate. Qed.

Lemma lookup_by_tvdb_id_is_term_lookup_witness :
  str_refused 4300 (AInt 12345) = false
  /\ lookup_series_by_tvdb_id no_reply 4300 (AInt 12345) empty_world
     = lookup_series no_reply (AStr ("tvdb:" +:+ py_str (AInt 12345))) empty_world
  /\ trace (lookup_series_by_tvdb_id no_reply 4300 (AInt 12345) empty_world).2
     = trace empty_world
       ++ [ {| rq_verb := GET; rq_path := "/api/series/lookup";
               rq_params := Some (ODict {[ "term" :=
                  PAtom (AStr ("tvdb:" +:+ py_str (AInt 12345))) ]});
               rq_data := None |} ]
  /\ "tvdb:" +:+ py_str (AInt 12345) = "tvdb:12345".
Proof.
  split; [vm_compute; reflexivity |].
  apply (lookup_by_tvdb_id_is_term_lookup no_reply 4300 (AInt 12345) empty_world).
  vm_compute; reflexivity.
Defined.

(** C7 as stated fails under the default limit of 4300 digits: the id
    [10 ** 4300], of 4301 digits, makes the f-string raise [ValueError]
    and nothing is sent, while [lookup_series] sends the term
    ["tvdb:1000...0"] it is given.  The largest id of 4300 digits is
    still converted. *)
Lemma huge_id_is_never_looked_up :
  lookup_series_by_tvdb_id no_reply 4300 (AInt (10 ^ 4300)) empty_world
  = (Raise ValueError, empty_world)
  /\ (lookup_series no_reply (AStr ("tvdb:" +:+ py_str (AInt (10 ^ 4300))))
        empty_world).1
     = Ok (PAtom ANone)
  /\ trace (lookup_series no_reply (AStr ("tvdb:" +:+ py_str (AInt (10 ^ 4300))))
              empty_world).2
     = [ lookup_call (AStr ("tvdb:" +:+ py_str (AInt (10 ^ 4300)))) ]
  /\ str_refused 4300 (AInt (10 ^ 4300 - 1)) = false.
Proof.
  split; [vm_compute; reflexivity |].
  split; [exact (eq_refl ((fun term => (lookup_series no_reply term empty_world).1)
                            (AStr ("tvdb:" +:+ py_str (AInt (10 ^ 4300)))))) |].
  split; [| vm_compute; reflexivity].
  exact (lookup_series_trace no_reply _ empty_world _ _ (surjective_pairing _)).
Qed.

Lemma set_command_body_witness :
  ({[ "seriesId" := PAtom (AInt 3) ]} : gmap string pyval) !! "name" = None
  /\ ({[ "seriesId" := PAtom (AInt 3) ]} : gmap string pyval) !! "self" = None
  /\ trace (set_command no_reply (AStr "RescanSeries")
              {[ "seriesId" := PAtom (AInt 3) ]} empty_world).2
     = trace empty_world
       ++ [ {| rq_verb := POST; rq_path := "/api/command";
               rq_params := None;
               rq_data := Some (ODict (<["name" := PAtom (AStr "RescanSeries")]>
                                         {[ "seriesId" := PAtom (AInt 3) ]})) |} ]
  /\ (<["name" := PAtom (AStr "RescanSeries")]>
        ({[ "seriesId" := PAtom (AInt 3) ]} : gmap string pyval)) !! "name"
     = Some (PAtom (AStr "RescanSeries"))
  /\ (forall k, k <> "name" ->
        (<["name" := PAtom (AStr "RescanSeries")]>
           ({[ "seriesId" := PAtom (AInt 3) ]} : gmap string pyval)) !! k
        = ({[ "seriesId" := PAtom (AInt 3) ]} : gmap string pyval) !! k)
  /\ trace (set_command no_reply (AStr "RescanSeries")
              {[ "seriesId" := PAtom (AInt 3) ]} empty_world).2
     = trace empty_world
       ++ [ {| rq_verb := POST; rq_path := "/api/command";
               rq_params := None;
               rq_data := Some (ODict {[ "name" := PAtom (AStr "RescanSeries");
                                         "seriesId" := PAtom (AInt 3) ]}) |} ].
Proof.
  split; [reflexivity |]. split; [reflexivity |].
  apply (set_command_body no_reply (AStr "RescanSeries")
           {[ "seriesId" := PAtom (AInt 3) ]} empty_world); reflexivity.
Defined.

Lemma falsy_id_is_no_id_witness :
  truthy_atom (AInt 0) = false
  /\ get_command no_reply 4300 (Some (AInt 0)) empty_world
     = get_command no_reply 4300 None empty_world
  /\ trace (get_command no_reply 4300 (Some (AInt 0)) empty_world).2
     = trace empty_world
       ++ [ {| rq_verb := GET; rq_path := "/api/command";
               rq_params := None; rq_data := None |} ]
  /\ get_tag no_reply 4300 (Some (AInt 0)) empty_world
     = get_tag no_reply 4300 None empty_world
  /\ trace (get_tag no_reply 4300 (Some (AInt 0)) empty_world).2
     = trace empty_world
       ++ [ {| rq_verb := GET; rq_path := "/api/tag";
               rq_params := None; rq_data := None |} ]
  /\ get_history no_reply (AStr "date") None None None (Some (AInt 0)) empty_world
     = get_history no_reply (AStr "date") None None None None empty_world
  /\ exists d : gmap string pyval,
       trace (get_history no_reply (AStr "date") None None None (Some (AInt 0))
                empty_world).2
       = trace empty_world
         ++ [ {| rq_verb := GET; rq_path := "/api/history";
                 rq_params := Some (ODict d); rq_data := None |} ]
       /\ d !! "episodeId" = None
       /\ dom d = ({[ "sortKey"; "page"; "pageSize"; "sortDir" ]} : gset string).
Proof.
  split; [reflexivity |].
  apply (falsy_id_is_no_id no_reply 4300 (AInt 0) (AStr "date") None None None
           empty_world).
  reflexivity.
Defined.

(** * Further properties *)

(** ** More on series payload construction *)

Lemma getitem_missing (l : loc) (d : gmap string pyval) (k : string) (w : world) :
  heap w !! l = Some (ODict d) -> d !! k = None ->
  py_getitem (PRef l) (AStr k) w = (Raise KeyError, w).
Proof.
  intros Hl Hk. unfold py_getitem. rewrite (bind_ok _ _ _ _ _ (read_ok _ _ _ Hl)).
  by rewrite Hk.
Qed.

Lemma get_missing (l : loc) (d : gmap string pyval) (k : string) (w : world) :
  heap w !! l = Some (ODict d) -> d !! k = None ->
  py_get (PRef l) k w = (Ok (PAtom ANone), w).
Proof.
  intros Hl Hk. unfold py_get. rewrite (bind_ok _ _ _ _ _ (read_ok _ _ _ Hl)).
  by rewrite Hk.
Qed.

Lemma for_each_app {A} (xs ys : list A) (body : A -> M unit) (w w' : world) :
  for_each xs body w = (Ok tt, w') ->
  for_each (xs ++ ys) body w = for_each ys body w'.
Proof.
  revert w. induction xs as [| x xs IH]; intros w; simpl.
  - by intros [= <-].
  - unfold bind. destruct (body x w) as [[[] | e |] w1]; try discriminate.
    apply IH.
Qed.

Lemma setitem_not_a_dict (h : list pyobj) (tr : list request) (v : pyval)
    (k : string) (x : pyval) :
  not_a_dict h v ->
  py_setitem v k x {| heap := h; trace := tr |}
  = (Raise TypeError, {| heap := h; trace := tr |}).
Proof.
  destruct v as [a | l]; [reflexivity |]. intros [xs Hl].
  unfold py_setitem.
  by rewrite (bind_ok _ _ _ _ _ (read_ok l _ {| heap := h; trace := tr |} Hl)).
Qed.

Lemma not_a_dict_marked (items : list pyval) (h : list pyobj) (v : pyval) :
  not_a_dict h v -> not_a_dict (mark_seasons items h) v.
Proof.
  destruct v as [a | l]; [done |]. intros [xs Hl]. exists xs.
  by apply mark_seasons_list.
Qed.

Lemma str_not_its_own_suffix (p s : string) : p <> "" -> s <> p +:+ s.
Proof.
  intros Hp E. apply (f_equal String.length) in E.
  rewrite length_append_str in E. destruct p; [done |]. simpl in E. lia.
Qed.

Section SeriesEdges.

Variable remote : request -> list pyobj -> outcome pyval * list pyobj.

(** The arguments [add_series] hands over are the ones it was given. *)
Lemma construct_defaults
    (tvdb_id quality_profile_id root_dir : atom)
    (season_folder monitored with_files without_files search : option atom) :
  construct_series_json remote tvdb_id quality_profile_id root_dir
    (Some (default (ABool true) season_folder))
    (Some (default (ABool true) monitored))
    (Some (default (ABool false) with_files))
    (Some (default (ABool false) without_files))
    (Some (default (ABool false) search))
  = construct_series_json remote tvdb_id quality_profile_id root_dir
      season_folder monitored with_files without_files search.
Proof. reflexivity. Qed.

Lemma add_series_after_raise
    (tvdb_id quality_profile_id root_dir : atom)
    (season_folder monitored with_files without_files search : option atom)
    (w0 w2 : world) (e : pyexn) :
  construct_series_json remote tvdb_id quality_profile_id root_dir
    season_folder monitored with_files without_files search w0 = (Raise e, w2) ->
  add_series remote tvdb_id quality_profile_id root_dir
    season_folder monitored with_files without_files search w0 = (Raise e, w2).
Proof.
  intros H. unfold add_series. cbv zeta. rewrite construct_defaults.
  by apply bind_raise.
Qed.

Lemma add_series_after_ok
    (tvdb_id quality_profile_id root_dir : atom)
    (season_folder monitored with_files without_files search : option atom)
    (w0 w2 : world) (p : loc) (o : pyobj) :
  construct_series_json remote tvdb_id quality_profile_id root_dir
    season_folder monitored with_files without_files search w0 = (Ok p, w2) ->
  heap w2 !! p = Some o ->
  add_series remote tvdb_id quality_profile_id root_dir
    season_folder monitored with_files without_files search w0
  = ((remote (add_series_call o) (heap w2)).1,
     {| heap := (remote (add_series_call o) (heap w2)).2;
        trace := trace w2 ++ [add_series_call o] |}).
Proof.
  intros H Hp. unfold add_series. cbv zeta. rewrite construct_defaults.
  rewrite (bind_ok _ _ _ _ _ H).
  unfold request_post, send, read_opt, bind, ret, read, add_series_call.
  rewrite Hp. by destruct (remote _ _) as [[] h'].
Qed.

Lemma construct_series_json_trace
    (tvdb_id quality_profile_id root_dir : atom)
    (season_folder monitored with_files without_files search : option atom)
    (w0 : world) :
  trace (construct_series_json remote tvdb_id quality_profile_id root_dir
           season_folder monitored with_files without_files search w0).2
  = trace w0 ++ [lookup_call tvdb_id].
Proof.
  unfold construct_series_json. cbv zeta. unfold bind at 1.
  destruct (lookup_series remote tvdb_id w0) as [[res | e |] w1] eqn:Hlook;
    pose proof (lookup_series_trace _ _ _ _ _ Hlook) as Ht;
    [| exact Ht | exact Ht].
  match goal with
  | |- trace (?m w1).2 = _ =>
      assert (Hk : keeps (touched (fun _ => True)) m)
  end.
  { apply keeps_touched_tail; [frame_leaf | intros s_dict].
    apply keeps_touched_tail; [| intros cond].
    { destruct (negb _); [frame | frame_leaf]. }
    apply keeps_touched_tail; [| intros _; frame].
    destruct cond; [| frame_leaf].
    apply keeps_touched_tail; [frame_leaf | intros seasons].
    apply keeps_touched_tail; [frame_leaf | intros items].
    apply (keeps_weaken (fun l => PRef l ∈ items)); [done |].
    apply keeps_season_loop. }
  match goal with
  | |- trace (?m w1).2 = _ => destruct (m w1) as [r w2] eqn:Hrun
  end.
  destruct (Hk _ _ _ Hrun) as [Htr _]. simpl. congruence.
Qed.

(** X1: whatever the reply and whatever the outcome, [construct_series_json]
    logs one request and no other: the lookup, with the id itself as the
    term.  That term is never the ["tvdb:<id>"] term of
    [lookup_series_by_tvdb_id]. *)
Theorem construct_logs_only_the_lookup
    (tvdb_id quality_profile_id root_dir : atom)
    (season_folder monitored with_files without_files search : option atom)
    (w0 : world) :
  trace (construct_series_json remote tvdb_id quality_profile_id root_dir
           season_folder monitored with_files without_files search w0).2
  = trace w0 ++ [lookup_call tvdb_id]
  /\ lookup_call tvdb_id <> lookup_call (AStr ("tvdb:" +:+ py_str tvdb_id)).
Proof.
  split; [apply construct_series_json_trace |].
  intros E.
  apply (f_equal (fun rq => match rq_params rq with
                            | Some (ODict d) => d !! "term"
                            | _ => None
                            end)) in E.
  unfold lookup_call in E. cbn [rq_params] in E.
  rewrite !lookup_singleton_eq in E. injection E as E.
  destruct tvdb_id as [| b | z | s]; try discriminate.
  injection E as E. by apply (str_not_its_own_suffix "tvdb:" s).
Qed.

Lemma add_series_after_stuck
    (tvdb_id quality_profile_id root_dir : atom)
    (season_folder monitored with_files without_files search : option atom)
    (w0 w2 : world) :
  construct_series_json remote tvdb_id quality_profile_id root_dir
    season_folder monitored with_files without_files search w0 = (Stuck, w2) ->
  add_series remote tvdb_id quality_profile_id root_dir
    season_folder monitored with_files without_files search w0 = (Stuck, w2).
Proof.
  intros H. unfold add_series. cbv zeta. rewrite construct_defaults.
  unfold bind at 1. by rewrite H.
Qed.

(** X6: a reply that is no list never yields a payload: a dict, such as an
    error body, makes [res[0]] raise [KeyError], and [None], a number or
    a boolean make it raise [TypeError].  [add_series] stops there too,
    with the lookup as the only request. *)
Theorem reply_that_is_no_list_raises
    (tvdb_id quality_profile_id root_dir : atom)
    (season_folder monitored with_files without_files search : option atom)
    (w0 w1 : world) (res : pyval) :
  lookup_series remote tvdb_id w0 = (Ok res, w1) ->
  ((exists l f, res = PRef l /\ heap w1 !! l = Some (ODict f)) ->
   construct_series_json remote tvdb_id quality_profile_id root_dir
     season_folder monitored with_files without_files search w0
   = (Raise KeyError, w1)
   /\ add_series remote tvdb_id quality_profile_id root_dir
        season_folder monitored with_files without_files search w0
      = (Raise KeyError, w1))
  /\ ((exists a, res = PAtom a /\ forall s, a <> AStr s) ->
      construct_series_json remote tvdb_id quality_profile_id root_dir
        season_folder monitored with_files without_files search w0
      = (Raise TypeError, w1)
      /\ add_series remote tvdb_id quality_profile_id root_dir
           season_folder monitored with_files without_files search w0
         = (Raise TypeError, w1)).
Proof.
  intros Hlook. split.
  - intros (l & f & -> & Hl).
    assert (Hc : construct_series_json remote tvdb_id quality_profile_id root_dir
                   season_folder monitored with_files without_files search w0
                 = (Raise KeyError, w1)).
    { unfold construct_series_json. cbv zeta.
      rewrite (bind_ok _ _ _ _ _ Hlook). apply bind_raise.
      unfold py_getitem. by rewrite (bind_ok _ _ _ _ _ (read_ok _ _ _ Hl)). }
    split; [exact Hc | by apply add_series_after_raise].
  - intros (a & -> & Ha).
    assert (Hc : construct_series_json remote tvdb_id quality_profile_id root_dir
                   season_folder monitored with_files without_files search w0
                 = (Raise TypeError, w1)).
    { unfold construct_series_json. cbv zeta.
      rewrite (bind_ok _ _ _ _ _ Hlook). apply bind_raise.
      destruct a as [| b | z | s]; try reflexivity. by destruct (Ha s). }
    split; [exact Hc | by apply add_series_after_raise].
Qed.

(** X7: [.get("seasons")] guards the loop only: when the first match has no
    ["seasons"] key, [construct_series_json] raises [KeyError] for every
    value of [monitored], leaves the reply as it is, and [add_series]
    posts nothing. *)
Theorem missing_seasons_raises_key_error
    (tvdb_id quality_profile_id root_dir : atom)
    (season_folder monitored with_files without_files search : option atom)
    (w0 w1 : world) (res : pyval) (d : loc) (fields : gmap string pyval) :
  lookup_series remote tvdb_id w0 = (Ok res, w1) ->
  first_match (heap w1) res d fields ->
  fields !! "seasons" = None ->
  construct_series_json remote tvdb_id quality_profile_id root_dir
    season_folder monitored with_files without_files search w0
  = (Raise KeyError, w1)
  /\ add_series remote tvdb_id quality_profile_id root_dir
       season_folder monitored with_files without_files search w0
     = (Raise KeyError, w1).
Proof.
  intros Hlook (l0 & rest & -> & Hres & Hd) Hnone.
  assert (Hc : construct_series_json remote tvdb_id quality_profile_id root_dir
                 season_folder monitored with_files without_files search w0
               = (Raise KeyError, w1)).
  { unfold construct_series_json. cbv zeta.
    rewrite (bind_ok _ _ _ _ _ Hlook).
    rewrite (bind_ok _ _ _ _ _ (getitem_first _ _ _ _ Hres)).
    assert (Htail : forall (T : pyval -> pyval -> M loc),
      (let! title := py_getitem (PRef d) (AStr "title") in
       let! seasons := py_getitem (PRef d) (AStr "seasons") in
       T title seasons) w1 = (Raise KeyError, w1)).
    { intros T. destruct (fields !! "title") as [t |] eqn:Ht.
      - rewrite (bind_ok _ _ _ _ _ (getitem_key _ _ _ _ _ Hd Ht)).
        apply bind_raise. by eapply getitem_missing.
      - apply bind_raise. by eapply getitem_missing. }
    destruct (truthy_atom (default (ABool true) monitored)); cbn [negb].
    - rewrite !bind_ret_l. apply Htail.
    - rewrite (bind_ok _ _ w1 w1 false).
      + rewrite bind_ret_l. apply Htail.
      + by rewrite (bind_ok _ _ _ _ _ (get_missing _ _ _ _ Hd Hnone)). }
  split; [exact Hc | by apply add_series_after_raise].
Qed.

(** X10: the season loop has no rollback: with a falsy [monitored], when the
    season list holds dicts [pre], then an entry that is no dict, the
    call raises [TypeError] with the entries of [pre] already
    unmonitored and everything else as the lookup left it. *)
Theorem season_loop_stops_at_first_non_dict
    (tvdb_id quality_profile_id root_dir : atom)
    (season_folder monitored with_files without_files search : option atom)
    (w0 w1 : world) (res : pyval) (d : loc) (fields : gmap string pyval)
    (sl : loc) (pre post : list pyval) (bad : pyval) :
  lookup_series remote tvdb_id w0 = (Ok res, w1) ->
  first_match (heap w1) res d fields ->
  fields !! "seasons" = Some (PRef sl) ->
  heap w1 !! sl = Some (OList (pre ++ bad :: post)) ->
  Forall (is_dict_ref (heap w1)) pre ->
  not_a_dict (heap w1) bad ->
  truthy_atom (default (ABool true) monitored) = false ->
  construct_series_json remote tvdb_id quality_profile_id root_dir
    season_folder monitored with_files without_files search w0
  = (Raise TypeError,
     {| heap := mark_seasons pre (heap w1); trace := trace w1 |}).
Proof.
  intros Hlook (l0 & rest & -> & Hres & Hd) Hsl Hlist Hpre Hbad Hmon.
  unfold construct_series_json. cbv zeta.
  rewrite (bind_ok _ _ _ _ _ Hlook).
  rewrite (bind_ok _ _ _ _ _ (getitem_first _ _ _ _ Hres)).
  rewrite Hmon. cbn [negb].
  rewrite (bind_ok _ _ w1 w1 true).
  2:{ rewrite (bind_ok _ _ _ _ _ (get_key _ _ _ _ _ Hd Hsl)).
      rewrite (truthy_list _ _ _ Hlist). do 2 f_equal.
      rewrite bool_decide_eq_false_2; [reflexivity |]. by destruct pre. }
  apply bind_raise.
  rewrite (bind_ok _ _ _ _ _ (getitem_key _ _ _ _ _ Hd Hsl)).
  rewrite (bind_ok _ _ _ _ _ (iter_list _ _ _ Hlist)).
  destruct w1 as [h1 t1]. cbn [heap trace] in *.
  rewrite (for_each_app _ _ _ _ _ (season_loop_run pre h1 t1 Hpre)).
  cbn [for_each]. apply bind_raise.
  apply setitem_not_a_dict. by apply not_a_dict_marked.
Qed.

End SeriesEdges.

(** ** A returned payload and the reply it was built from *)

Lemma bind_ok_inv {A B} (m : M A) (k : A -> M B) (w w' : world) (b : B) :
  bind m k w = (Ok b, w') ->
  exists a wm, m w = (Ok a, wm) /\ k a wm = (Ok b, w').
Proof.
  unfold bind. destruct (m w) as [[a | e |] wm]; try discriminate. eauto.
Qed.

Lemma same_cells_refl (h : list pyobj) : same_cells h h.
Proof. intros l. by left. Qed.

Lemma same_cells_trans (h1 h2 h3 : list pyobj) :
  same_cells h1 h2 -> same_cells h2 h3 -> same_cells h1 h3.
Proof.
  intros H12 H23 l.
  destruct (H12 l) as [E | (o & E1 & E2)]; destruct (H23 l) as [E' | (o' & E1' & E2')].
  - left. congruence.
  - right. exists o'. split; congruence.
  - right. exists o. split; congruence.
  - right. exists o. split; [exact E1 |].
    rewrite E2 in E1'. injection E1' as <-. by rewrite set_monitored_idemp in E2'.
Qed.

Lemma keeps_set_monitored_same (v : pyval) :
  keeps same_cells (py_setitem v "monitored" (PAtom (ABool false))).
Proof.
  destruct v as [a | l]; simpl; [apply keeps_raise, same_cells_refl |].
  intros w r w'. unfold bind, read.
  destruct (heap w !! l) as [[xs | d] |] eqn:E.
  - intros [= <- <-]. auto using same_cells_refl.
  - intros [= <- <-]. split; [reflexivity |]. simpl.
    intros l'. destruct (decide (l = l')) as [Heq | Hne].
    + subst l'. right. exists (ODict d). split; [exact E |].
      by rewrite list_lookup_insert_eq by (by eapply lookup_lt_Some).
    + left. by rewrite list_lookup_insert_ne.
  - intros [= <- <-]. auto using same_cells_refl.
Qed.

Ltac same_leaf :=
  first [ apply keeps_ret | apply keeps_raise | apply keeps_lift
        | apply keeps_getitem | apply keeps_get
        | apply keeps_truthy | apply keeps_iter ];
  first [ apply same_cells_refl | apply same_cells_trans ].

(** The guarded loop of [construct_series_json] adds no cell. *)
Lemma keeps_guarded_loop (s_dict : pyval) (cond : bool) :
  keeps same_cells
    (if cond
     then let! seasons := py_getitem s_dict (AStr "seasons") in
          let! items := py_iter seasons in
          for_each items (fun season =>
            py_setitem season "monitored" (PAtom (ABool false)))
     else ret tt).
Proof.
  destruct cond; [| same_leaf].
  apply keeps_bind; [apply same_cells_trans | same_leaf |]. intros seasons.
  apply keeps_bind; [apply same_cells_trans | same_leaf |]. intros items.
  apply keeps_for_each_in;
    [apply same_cells_refl | apply same_cells_trans |].
  intros x _. apply keeps_set_monitored_same.
Qed.

Lemma getitem_str_inv (v : pyval) (k : string) (x : pyval) (w w' : world) :
  py_getitem v (AStr k) w = (Ok x, w') ->
  w' = w /\ exists l f, v = PRef l /\ heap w !! l = Some (ODict f) /\ f !! k = Some x.
Proof.
  intros H. split; [by eapply reads_only_getitem |].
  destruct v as [[| | | s] | l]; try discriminate.
  unfold py_getitem, bind, read in H.
  destruct (heap w !! l) as [[xs | f] |] eqn:El; try discriminate.
  destruct (f !! k) as [y |] eqn:Ek; [| discriminate].
  injection H as <- _. eauto.
Qed.

(** A dict that came out of the loop had the same keys going in, but
    for ["monitored"]. *)
Lemma same_cells_dict (h h' : list pyobj) (l : loc) (f' : gmap string pyval) :
  same_cells h h' -> h' !! l = Some (ODict f') ->
  exists f, h !! l = Some (ODict f)
            /\ forall k, k <> "monitored" -> f !! k = f' !! k.
Proof.
  intros Hs Hl. destruct (Hs l) as [E | (o & E1 & E2)].
  - exists f'. split; [congruence | done].
  - rewrite Hl in E2. destruct o as [xs | f]; [discriminate |].
    injection E2 as ->. exists f. split; [exact E1 |].
    intros k Hk. by rewrite lookup_insert_ne.
Qed.

Section PayloadOrigin.

Variable remote : request -> list pyobj -> outcome pyval * list pyobj.

(** When [construct_series_json] returns, the reply was a list whose
    first element is a dict [fields] holding the four keys; the result is
    the last cell of the store and holds the dict literal built from
    those values, the cell before it holds the ["addOptions"] dict, and
    nothing else was added. *)
Lemma construct_ok_inv
    (tvdb_id quality_profile_id root_dir : atom)
    (season_folder monitored with_files without_files search : option atom)
    (w0 w1 w2 : world) (res : pyval) (p : loc) :
  lookup_series remote tvdb_id w0 = (Ok res, w1) ->
  construct_series_json remote tvdb_id quality_profile_id root_dir
    season_folder monitored with_files without_files search w0 = (Ok p, w2) ->
  exists d fields title seasons path images slug hc,
    first_match (heap w1) res d fields
    /\ fields !! "title" = Some title
    /\ fields !! "seasons" = Some seasons
    /\ fields !! "images" = Some images
    /\ fields !! "titleSlug" = Some slug
    /\ py_add root_dir title = Ok path
    /\ same_cells (heap w1) hc
    /\ p = S (length hc)
    /\ heap w2
       = hc ++ [ ODict (add_options_dict
                          (default (ABool false) with_files)
                          (default (ABool false) without_files)
                          (default (ABool false) search));
                 ODict (series_json_dict tvdb_id quality_profile_id
                          (default (ABool true) season_folder)
                          (default (ABool true) monitored)
                          title seasons path images slug (length hc)) ]
    /\ trace w2 = trace w1.
Proof.
  intros Hlook Hrun. revert Hrun.
  unfold construct_series_json. cbv zeta.
  rewrite (bind_ok _ _ _ _ _ Hlook). intros Hrun.
  apply bind_ok_inv in Hrun as (s_dict & wa & F1 & Hrun).
  pose proof (reads_only_getitem _ _ _ _ _ F1). subst wa.
  apply bind_ok_inv in Hrun as (cond & wb & F2 & Hrun).
  assert (wb = w1) as ->.
  { revert F2. destruct (negb _).
    - apply reads_only_bind; [apply reads_only_get |].
      intros g. apply reads_only_truthy.
    - by intros [= _ <-]. }
  apply bind_ok_inv in Hrun as ([] & wc & F3 & Hrun).
  destruct (keeps_guarded_loop s_dict cond _ _ _ F3) as [Htr Hsame].
  apply bind_ok_inv in Hrun as (title & wd & F4 & Hrun).
  apply getitem_str_inv in F4 as (-> & d & f' & -> & Hd' & Ht').
  apply bind_ok_inv in Hrun as (seasons & wd & F5 & Hrun).
  pose proof (reads_only_getitem _ _ _ _ _ F5). subst wd.
  apply (getitem_key_inv _ _ _ _ _ _ Hd') in F5.
  apply bind_ok_inv in Hrun as (title' & wd & F6 & Hrun).
  pose proof (reads_only_getitem _ _ _ _ _ F6). subst wd.
  apply (getitem_key_inv _ _ _ _ _ _ Hd') in F6.
  assert (title' = title) as -> by congruence.
  apply bind_ok_inv in Hrun as (path & wd & F7 & Hrun).
  unfold lift in F7. injection F7 as F7 <-.
  apply bind_ok_inv in Hrun as (images & wd & F8 & Hrun).
  pose proof (reads_only_getitem _ _ _ _ _ F8). subst wd.
  apply (getitem_key_inv _ _ _ _ _ _ Hd') in F8.
  apply bind_ok_inv in Hrun as (slug & wd & F9 & Hrun).
  pose proof (reads_only_getitem _ _ _ _ _ F9). subst wd.
  apply (getitem_key_inv _ _ _ _ _ _ Hd') in F9.
  unfold bind, alloc, ret in Hrun. cbn [heap trace] in Hrun.
  injection Hrun as <- <-.
  destruct (same_cells_dict _ _ _ _ Hsame Hd') as (fields & Hd & Hkeys).
  apply getitem_first_inv in F1 as (l0 & rest & -> & Hres).
  exists d, fields, title, seasons, path, images, slug, (heap wc).
  split; [exists l0, rest; auto |].
  rewrite !Hkeys by done.
  repeat split; try assumption.
  - by rewrite length_app, Nat.add_1_r.
  - cbn [heap]. by rewrite <- app_assoc.
Qed.


End PayloadOrigin.

(** ** [add_series] as a composition *)

Section AddSeries.

Variable remote : request -> list pyobj -> outcome pyval * list pyobj.

(** X3: [add_series] posts only what [construct_series_json] returned: when
    the construction fails, [add_series] fails the same way, in the same
    state, having logged the lookup alone; when it returns, the payload
    is posted to [/api/series] as the second and last request and the
    request layer's answer is the result. *)
Theorem add_series_posts_only_a_payload
    (tvdb_id quality_profile_id root_dir : atom)
    (season_folder monitored with_files without_files search : option atom)
    (w0 : world) :
  match construct_series_json remote tvdb_id quality_profile_id root_dir
          season_folder monitored with_files without_files search w0 with
  | (Ok p, w2) =>
      exists o, heap w2 !! p = Some o
        /\ add_series remote tvdb_id quality_profile_id root_dir
             season_folder monitored with_files without_files search w0
           = ((remote (add_series_call o) (heap w2)).1,
              {| heap := (remote (add_series_call o) (heap w2)).2;
                 trace := trace w0 ++ [lookup_call tvdb_id; add_series_call o] |})
  | (Raise e, w2) =>
      add_series remote tvdb_id quality_profile_id root_dir
        season_folder monitored with_files without_files search w0
      = (Raise e, w2)
      /\ trace w2 = trace w0 ++ [lookup_call tvdb_id]
  | (Stuck, w2) =>
      add_series remote tvdb_id quality_profile_id root_dir
        season_folder monitored with_files without_files search w0
      = (Stuck, w2)
      /\ trace w2 = trace w0 ++ [lookup_call tvdb_id]
  end.
Proof.
  pose proof (construct_series_json_trace remote tvdb_id quality_profile_id
                root_dir season_folder monitored with_files without_files
                search w0) as Htr.
  destruct (construct_series_json remote tvdb_id quality_profile_id root_dir
              season_folder monitored with_files without_files search w0)
    as [[p | e |] w2] eqn:Hc; cbn [snd] in Htr.
  - assert (Hlook : exists res w1, lookup_series remote tvdb_id w0 = (Ok res, w1)).
    { revert Hc. unfold construct_series_json. cbv zeta. intros Hc.
      apply bind_ok_inv in Hc as (res & w1 & Hl & _). eauto. }
    destruct Hlook as (res & w1 & Hlook).
    destruct (construct_ok_inv _ _ _ _ _ _ _ _ _ _ _ _ _ _ Hlook Hc)
      as (d & fields & title & seasons & path & images & slug & hc
          & _ & _ & _ & _ & _ & _ & _ & -> & Hheap & _).
    eexists. split.
    { rewrite Hheap. apply lookup_second_fresh. }
    erewrite add_series_after_ok; [| exact Hc | rewrite Hheap; apply lookup_second_fresh].
    by rewrite Htr, <- app_assoc.
  - split; [by apply add_series_after_raise | exact Htr].
  - split; [by apply add_series_after_stuck | exact Htr].
Qed.


End AddSeries.

(** ** More on calendar dates *)

Lemma digit_char_cases (n : Z) :
  is_digit (digit_char n) = true /\ digit_val (digit_char n) = n mod 10.
Proof.
  unfold digit_char.
  assert (Hr : 0 <= n mod 10 < 10) by (apply Z.mod_pos_bound; lia).
  set (r := n mod 10) in *.
  assert (Hc : r = 0 \/ r = 1 \/ r = 2 \/ r = 3 \/ r = 4 \/ r = 5 \/ r = 6
               \/ r = 7 \/ r = 8 \/ r = 9) by lia.
  destruct Hc as [-> | [-> | [-> | [-> | [-> | [-> | [-> | [-> | [-> | ->]]]]]]]]];
    split; reflexivity.
Qed.

Lemma strptime_ok_date (s : string) (t : date) :
  strptime_str s = Ok t -> date_ok (year t) (month t) (day t) = true.
Proof.
  unfold strptime_str.
  destruct (re_match re_ymd s) as [[rest g] |]; [| discriminate].
  destruct (negb (String.eqb rest "")); [discriminate |].
  destruct (date_ok _ _ _) eqn:Hok; [| discriminate].
  by intros [= <-].
Qed.

Lemma date_ok_ranges (y m d : Z) :
  date_ok y m d = true -> 1 <= y <= 9999 /\ 1 <= m <= 12 /\ 1 <= d <= 31.
Proof.
  unfold date_ok. rewrite !andb_true_iff, !Z.leb_le.
  pose proof (days_in_month_le y m). lia.
Qed.

Lemma four_digit_value (y : Z) :
  0 <= y <= 9999 ->
  1000 * ((y / 1000) mod 10) + 100 * ((y / 100) mod 10)
  + 10 * ((y / 10) mod 10) + y mod 10 = y.
Proof. intros. Z.div_mod_to_equations. lia. Qed.

Lemma two_digit_value (n : Z) :
  0 <= n <= 99 -> 10 * ((n / 10) mod 10) + n mod 10 = n.
Proof. intros. Z.div_mod_to_equations. lia. Qed.

(** Formatting a date with a four-digit year gives a valid date string,
    and that string parses back to the date. *)
Lemma formatted_date_parses (t : date) :
  date_ok (year t) (month t) (day t) = true ->
  canonical_ymd (strftime true t) = true
  /\ strptime_str (strftime true t) = Ok t.
Proof.
  intros Hok. destruct t as [y m d]. cbn [year month day] in *.
  destruct (date_ok_ranges _ _ _ Hok) as (Hy & Hm & Hd).
  assert (Hcan : canonical_ymd (strftime true {| year := y; month := m; day := d |})
                 = true).
  { unfold strftime, pad4, pad2. cbn [year month day].
    cbv beta iota delta [String.append]. cbn [canonical_ymd forallb].
    rewrite !(proj1 (digit_char_cases _)), !(proj2 (digit_char_cases _)).
    rewrite four_digit_value, !two_digit_value by lia.
    by rewrite Hok. }
  split; [exact Hcan |].
  destruct (canonical_parses _ Hcan) as (t' & Hp & Hf & _ & _).
  rewrite Hp. f_equal.
  pose proof (strptime_ok_date _ _ Hp) as Hok'.
  destruct t' as [y' m' d']. cbn [year month day] in *.
  destruct (date_ok_ranges _ _ _ Hok') as (Hy' & Hm' & Hd').
  unfold strftime, pad4, pad2 in Hf. cbn [year month day] in Hf.
  cbv beta iota delta [String.append] in Hf.
  injection Hf as E1 E2 E3 E4 E5 E6 E7 E8.
  repeat match goal with
         | E : digit_char _ = digit_char _ |- _ =>
             apply (f_equal digit_val) in E;
             rewrite !(proj2 (digit_char_cases _)) in E
         end.
  rewrite <- (four_digit_value y), <- (four_digit_value y') by lia.
  rewrite <- (two_digit_value m), <- (two_digit_value m') by lia.
  rewrite <- (two_digit_value d), <- (two_digit_value d') by lia.
  congruence.
Qed.



Section CalendarEdges.

Variable remote : request -> list pyobj -> outcome pyval * list pyobj.
Variable pads_year : bool.



Lemma get_calendar_start_sent (s : string) (t : date) (w : world) :
  strptime_str s = Ok t ->
  trace (get_calendar remote pads_year (Some (AStr s)) None w).2
  = trace w ++ [calendar_call {[ "start" := PAtom (AStr (strftime pads_year t)) ]}].
Proof.
  intros Hp.
  assert (Ht : truthy_atom (AStr s) = true) by (by destruct s).
  unfold get_calendar, request_get, send. cbn [default from_option id].
  rewrite Ht. cbn [strptime truthy_atom]. rewrite Hp. run_store.
  by destruct (remote _ _) as [[] h'].
Qed.

Lemma get_calendar_end_sent (s : string) (t : date) (w : world) :
  strptime_str s = Ok t ->
  trace (get_calendar remote pads_year None (Some (AStr s)) w).2
  = trace w ++ [calendar_call {[ "end" := PAtom (AStr (strftime pads_year t)) ]}].
Proof.
  intros Hp.
  assert (Ht : truthy_atom (AStr s) = true) by (by destruct s).
  unfold get_calendar, request_get, send. cbn [default from_option id].
  rewrite Ht. cbn [strptime truthy_atom]. rewrite Hp. run_store.
  by destruct (remote _ _) as [[] h'].
Qed.

(** X11: normalisation: whatever date string [get_calendar] accepts, what it
    sends is the date in the valid [YYYY-MM-DD] form (where [%Y] comes
    out with four digits), it names the same day, and sending it again
    changes nothing. *)
Theorem sent_date_is_canonical (s : string) (t : date) (w : world) :
  strptime_str s = Ok t ->
  pads_year = true \/ 1000 <= year t ->
  trace (get_calendar remote pads_year (Some (AStr s)) None w).2
  = trace w ++ [calendar_call {[ "start" := PAtom (AStr (strftime pads_year t)) ]}]
  /\ trace (get_calendar remote pads_year None (Some (AStr s)) w).2
     = trace w ++ [calendar_call {[ "end" := PAtom (AStr (strftime pads_year t)) ]}]
  /\ canonical_ymd (strftime pads_year t) = true
  /\ strptime_str (strftime pads_year t) = Ok t
  /\ trace (get_calendar remote pads_year
              (Some (AStr (strftime pads_year t))) None w).2
     = trace (get_calendar remote pads_year (Some (AStr s)) None w).2.
Proof.
  intros Hp Hpad.
  pose proof (strptime_ok_date _ _ Hp) as Hok.
  destruct (formatted_date_parses t Hok) as [Hcan Hback].
  assert (Hsame : strftime pads_year t = strftime true t).
  { destruct pads_year; [reflexivity |]. destruct Hpad as [? | Hy]; [done |].
    unfold strftime. rewrite pretty_four_digits; [reflexivity |].
    destruct (date_ok_ranges _ _ _ Hok). lia. }
  split; [by apply get_calendar_start_sent |].
  split; [by apply get_calendar_end_sent |].
  rewrite Hsame at 1 2. split; [exact Hcan |]. split; [exact Hback |].
  rewrite (get_calendar_start_sent s t w Hp).
  rewrite Hsame at 1.
  rewrite (get_calendar_start_sent _ t w Hback). reflexivity.
Qed.




End CalendarEdges.

(** ** One round trip per endpoint *)

Section RoundTrips.

Variable remote : request -> list pyobj -> outcome pyval * list pyobj.
Variable max_str_digits : Z.

Lemma direct_call_plain (v : verb) (path : string) (w : world) :
  direct_call remote
    (let! res := send remote v path None None in ret res) w
    (call v path None None).
Proof.
  unfold direct_call, send, call. run. by destruct (remote _ _) as [[] h'].
Qed.

Lemma direct_call_object (v : verb) (path : string) (l : loc) (o : pyobj)
    (w : world) :
  heap w !! l = Some o ->
  direct_call remote
    (let! res := send remote v path None (Some l) in ret res) w
    {| rq_verb := v; rq_path := path; rq_params := None; rq_data := Some o |}.
Proof.
  intros Hl. unfold direct_call, send, read_opt, bind, ret, read. rewrite Hl.
  by destruct (remote _ _) as [[] h'].
Qed.

Lemma direct_call_single (m : M pyval) (w : world) (rq : request) :
  direct_call remote m w rq -> single_call remote m w rq.
Proof.
  intros Hm. exists []. split; [simpl; lia |]. by rewrite app_nil_r.
Qed.

Lemma single_call_plain (v : verb) (path : string) (w : world) :
  single_call remote
    (let! res := send remote v path None None in ret res) w
    (call v path None None).
Proof. apply direct_call_single, direct_call_plain. Qed.

Lemma single_call_params (v : verb) (path : string) (d : gmap string pyval)
    (w : world) :
  single_call remote
    (let! params := alloc (ODict d) in
     let! res := send remote v path (Some params) None in ret res) w
    (call v path (Some d) None).
Proof.
  exists [ODict d]. split; [simpl; lia |].
  unfold send, call. run. by destruct (remote _ _) as [[] h'].
Qed.

Lemma single_call_body (v : verb) (path : string) (d : gmap string pyval)
    (w : world) :
  single_call remote
    (let! data := alloc (ODict d) in
     let! res := send remote v path None (Some data) in ret res) w
    (call v path None (Some d)).
Proof.
  exists [ODict d]. split; [simpl; lia |].
  unfold send, call. run. by destruct (remote _ _) as [[] h'].
Qed.

(** An endpoint that formats its id into the path, for an id that [str]
    converts. *)
Lemma direct_call_item (v : verb) (prefix : string) (id_ : atom) (w : world) :
  str_refused max_str_digits id_ = false ->
  direct_call remote
    (let! path := lift (f_string max_str_digits prefix id_) in
     let! res := send remote v path None None in ret res) w
    (call v (prefix +:+ py_str id_) None None).
Proof.
  intros Hid. rewrite (f_string_ok _ _ _ Hid).
  unfold direct_call, send, call. run. by destruct (remote _ _) as [[] h'].
Qed.

Lemma single_call_item_params (v : verb) (prefix : string) (id_ : atom)
    (d : gmap string pyval) (w : world) :
  str_refused max_str_digits id_ = false ->
  single_call remote
    (let! params := alloc (ODict d) in
     let! path := lift (f_string max_str_digits prefix id_) in
     let! res := send remote v path (Some params) None in ret res) w
    (call v (prefix +:+ py_str id_) (Some d) None).
Proof.
  intros Hid. rewrite (f_string_ok _ _ _ Hid).
  exists [ODict d]. split; [simpl; lia |].
  unfold send, call. run. by destruct (remote _ _) as [[] h'].
Qed.

Lemma single_call_item_body (v : verb) (prefix : string) (id_ : atom)
    (d : gmap string pyval) (w : world) :
  str_refused max_str_digits id_ = false ->
  single_call remote
    (let! data := alloc (ODict d) in
     let! path := lift (f_string max_str_digits prefix id_) in
     let! res := send remote v path None (Some data) in ret res) w
    (call v (prefix +:+ py_str id_) None (Some d)).
Proof.
  intros Hid. rewrite (f_string_ok _ _ _ Hid).
  exists [ODict d]. split; [simpl; lia |].
  unfold send, call. run. by destruct (remote _ _) as [[] h'].
Qed.

(** An id that [str] refuses stops the method at the f-string. *)
Lemma refused_item (prefix : string) (id_ : atom) (k : string -> M pyval)
    (w : world) :
  str_refused max_str_digits id_ = true ->
  (let! path := lift (f_string max_str_digits prefix id_) in k path) w
  = (Raise ValueError, w).
Proof. intros Hid. by rewrite (f_string_refused _ _ _ Hid). Qed.

(** The endpoints that format nothing: one request each, with the path
    and the dict of the source, and at most that dict added to the
    store. *)
Lemma fixed_path_endpoints
    (id_ term sort_key label guid indexer_id title download_url protocol
     publish_date : atom)
    (page page_size sort_dir blacklist : option atom) (w : world) :
  single_call remote (get_disk_space remote) w
    (call GET "/api/diskspace" None None)
  /\ single_call remote (get_queue remote) w
       (call GET "/api/queue" None None)
  /\ single_call remote (get_quality_profiles remote) w
       (call GET "/api/profile" None None)
  /\ single_call remote (get_root_folder remote) w
       (call GET "/api/rootfolder" None None)
  /\ single_call remote (get_system_status remote) w
       (call GET "/api/system/status" None None)
  /\ single_call remote (get_backup remote) w
       (call GET "/api/system/backup" None None)
  /\ single_call remote (get_episodes_by_series_id remote id_) w
       (call GET "/api/episode" (Some {[ "seriesId" := PAtom id_ ]}) None)
  /\ single_call remote (get_episode_files_by_series_id remote id_) w
       (call GET "/api/episodefile" (Some {[ "seriesId" := PAtom id_ ]}) None)
  /\ single_call remote (get_releases remote id_) w
       (call GET "/api/release" (Some {[ "episodeId" := PAtom id_ ]}) None)
  /\ single_call remote (get_parsed_title remote term) w
       (call GET "/api/parse" (Some {[ "title" := PAtom term ]}) None)
  /\ single_call remote (get_parsed_path remote term) w
       (call GET "/api/parse" (Some {[ "path" := PAtom term ]}) None)
  /\ single_call remote (get_wanted remote sort_key page page_size sort_dir) w
       (call GET "/api/wanted/missing"
          (Some {[ "sortKey" := PAtom sort_key;
                   "page" := PAtom (default (AInt 1) page);
                   "pageSize" := PAtom (default (AInt 10) page_size);
                   "sortDir" := PAtom (default (AStr "asc") sort_dir) ]})
          None)
  /\ single_call remote (download_release remote guid indexer_id) w
       (call POST "/api/release" None
          (Some {[ "guid" := PAtom guid; "indexerId" := PAtom indexer_id ]}))
  /\ single_call remote
       (push_release remote title download_url protocol publish_date) w
       (call POST "/api/release/push" None
          (Some {[ "title" := PAtom title;
                   "downloadUrl" := PAtom download_url;
                   "protocol" := PAtom protocol;
                   "publishDate" := PAtom publish_date ]}))
  /\ single_call remote (create_tag remote id_ label) w
       (call POST "/api/tag" None
          (Some {[ "id" := PAtom id_; "label" := PAtom label ]}))
  /\ single_call remote (del_queue remote id_ blacklist) w
       (call DELETE "/api/queue/"
          (Some {[ "id" := PAtom id_;
                   "blacklist" := PAtom (default (ABool true) blacklist) ]})
          None).
Proof.
  repeat split;
    first [ apply single_call_plain | apply single_call_params
          | apply single_call_body ].
Qed.

(** The endpoints that always format the id into the path, for an id
    that [str] converts. *)
Lemma item_path_endpoints (id_ label : atom) (delete_files : option atom)
    (w : world) :
  str_refused max_str_digits id_ = false ->
  single_call remote (get_episode_by_episode_id remote max_str_digits id_) w
    (call GET ("/api/episode/" +:+ py_str id_) None None)
  /\ single_call remote (get_episode_file remote max_str_digits id_) w
       (call GET ("/api/episodefile/" +:+ py_str id_) None None)
  /\ single_call remote (del_episode_file remote max_str_digits id_) w
       (call DELETE ("/api/episodefile/" +:+ py_str id_) None None)
  /\ single_call remote (del_tag remote max_str_digits id_) w
       (call DELETE ("/api/tag/" +:+ py_str id_) None None)
  /\ single_call remote (upd_tag remote max_str_digits id_ label) w
       (call PUT ("/api/tag/" +:+ py_str id_) None
          (Some {[ "id" := PAtom id_; "label" := PAtom label ]}))
  /\ single_call remote (del_series remote max_str_digits id_ delete_files) w
       (call DELETE ("/api/series/" +:+ py_str id_)
          (Some {[ "deleteFiles" := PAtom (default (ABool false) delete_files) ]})
          None).
Proof.
  intros Hid. repeat split;
    first [ by apply direct_call_single, direct_call_item
          | by apply single_call_item_params
          | by apply single_call_item_body ].
Qed.

(** The same endpoints for an id that [str] refuses: [ValueError], and
    no request. *)
Lemma item_path_endpoints_refuse (id_ label : atom) (delete_files : option atom)
    (w : world) :
  str_refused max_str_digits id_ = true ->
  get_episode_by_episode_id remote max_str_digits id_ w = (Raise ValueError, w)
  /\ get_episode_file remote max_str_digits id_ w = (Raise ValueError, w)
  /\ del_episode_file remote max_str_digits id_ w = (Raise ValueError, w)
  /\ del_tag remote max_str_digits id_ w = (Raise ValueError, w)
  /\ (upd_tag remote max_str_digits id_ label w).1 = Raise ValueError
  /\ trace (upd_tag remote max_str_digits id_ label w).2 = trace w
  /\ (del_series remote max_str_digits id_ delete_files w).1 = Raise ValueError
  /\ trace (del_series remote max_str_digits id_ delete_files w).2 = trace w.
Proof.
  intros Hid.
  repeat split; try (by apply refused_item);
    unfold upd_tag, del_series; run; by rewrite (f_string_refused _ _ _ Hid).
Qed.

(** X19: the update endpoints pass the caller's object on as it is: one PUT
    whose body is what the object holds at the time of the call, and the
    request layer is handed the caller's store itself, with nothing
    added and nothing changed.  [upd_episode_file_quality] formats its
    id into the path first: an id that [str] refuses raises
    [ValueError] there, and nothing is sent. *)
Theorem update_endpoints_send_the_callers_object
    (id_ : atom) (data : loc) (o : pyobj) (w : world) :
  heap w !! data = Some o ->
  direct_call remote (upd_episode remote data) w
    {| rq_verb := PUT; rq_path := "/api/episode";
       rq_params := None; rq_data := Some o |}
  /\ direct_call remote (upd_series remote data) w
       {| rq_verb := PUT; rq_path := "/api/series";
          rq_params := None; rq_data := Some o |}
  /\ (str_refused max_str_digits id_ = false ->
      direct_call remote
        (upd_episode_file_quality remote max_str_digits id_ data) w
        {| rq_verb := PUT; rq_path := "/api/episodefile/" +:+ py_str id_;
           rq_params := None; rq_data := Some o |})
  /\ (str_refused max_str_digits id_ = true ->
      upd_episode_file_quality remote max_str_digits id_ data w
      = (Raise ValueError, w)).
Proof.
  intros Hl.
  split; [by apply direct_call_object |].
  split; [by apply direct_call_object |].
  split.
  - intros Hid. unfold upd_episode_file_quality.
    rewrite (f_string_ok _ _ _ Hid). by apply direct_call_object.
  - intros Hid. by apply refused_item.
Qed.

End RoundTrips.

(** ** Ids in paths *)

Lemma append_inj_l (p a b : string) : p +:+ a = p +:+ b -> a = b.
Proof.
  induction p as [| c p IH]; cbv beta iota delta [String.append];
    fold String.append; [done |].
  intros [= E]. by apply IH.
Qed.

Lemma append_grows (p x : string) : x <> "" -> p <> p +:+ x.
Proof.
  intros Hx E. apply (f_equal String.length) in E.
  rewrite length_append_str in E. destruct x; [done |]. simpl in E. lia.
Qed.

(** The path of an endpoint that tests its id: the collection for a
    falsy id, the item otherwise. *)
Lemma tested_paths_differ (p : string) (a b : Z) :
  a <> b ->
  (if truthy_atom (AInt a) then p +:+ "/" +:+ pretty a else p)
  <> (if truthy_atom (AInt b) then p +:+ "/" +:+ pretty b else p).
Proof.
  intros Hab. cbn [truthy_atom].
  destruct (Z.eqb_spec a 0) as [-> | Ha]; destruct (Z.eqb_spec b 0) as [-> | Hb];
    cbn [negb].
  - done.
  - by apply append_grows.
  - intros E. symmetry in E. revert E. by apply append_grows.
  - intros E. apply append_inj_l, append_inj_l in E.
    by apply (inj pretty) in E.
Qed.

Lemma item_paths_differ (p : string) (a b : Z) :
  a <> b -> p +:+ pretty a <> p +:+ pretty b.
Proof. intros Hab E. apply append_inj_l in E. by apply (inj pretty) in E. Qed.

Lemma single_call_trace (remote : request -> list pyobj -> outcome pyval * list pyobj)
    (m : M pyval) (w : world) (rq : request) :
  single_call remote m w rq -> trace (m w).2 = trace w ++ [rq].
Proof. intros (extra & _ & ->). reflexivity. Qed.

Lemma last_request_differs (tr : list request) (r1 r2 : request) :
  rq_path r1 <> rq_path r2 -> tr ++ [r1] <> tr ++ [r2].
Proof. intros Hp E. apply app_inv_head in E. congruence. Qed.

Section Ids.

Variable remote : request -> list pyobj -> outcome pyval * list pyobj.
Variable max_str_digits : Z.

Lemma get_series_call (id_ : atom) (w : world) :
  str_refused max_str_digits id_ = false ->
  single_call remote (get_series remote max_str_digits id_) w
    (call GET (if truthy_atom id_ then "/api/series" +:+ "/" +:+ py_str id_
               else "/api/series") None None).
Proof.
  intros Hid. unfold get_series. destruct (truthy_atom id_).
  - by apply direct_call_single, direct_call_item.
  - apply single_call_plain.
Qed.

Lemma get_command_call (id_ : atom) (w : world) :
  str_refused max_str_digits id_ = false ->
  single_call remote (get_command remote max_str_digits (Some id_)) w
    (call GET (if truthy_atom id_ then "/api/command" +:+ "/" +:+ py_str id_
               else "/api/command") None None).
Proof.
  intros Hid. unfold get_command. cbn [default from_option id].
  destruct (truthy_atom id_).
  - by apply direct_call_single, direct_call_item.
  - apply single_call_plain.
Qed.

Lemma get_tag_call (id_ : atom) (w : world) :
  str_refused max_str_digits id_ = false ->
  single_call remote (get_tag remote max_str_digits (Some id_)) w
    (call GET (if truthy_atom id_ then "/api/tag" +:+ "/" +:+ py_str id_
               else "/api/tag") None None).
Proof.
  intros Hid. unfold get_tag. cbn [default from_option id].
  destruct (truthy_atom id_); cbn [negb].
  - by apply direct_call_single, direct_call_item.
  - apply single_call_plain.
Qed.

(** X15: a truthy id selects one item.  When [str] converts the id,
    [get_command], [get_tag] and [get_series] request the collection
    path followed by ["/"] and [str(id)]; when it refuses (an [int] of
    more digits than the interpreter's limit), they raise [ValueError]
    and send nothing.  [get_history] adds the id as ["episodeId"] to its
    four parameters. *)
Theorem truthy_id_selects_one_item (id_ sort_key : atom)
    (page page_size sort_dir : option atom) (w : world) :
  truthy_atom id_ = true ->
  (str_refused max_str_digits id_ = false ->
   single_call remote (get_command remote max_str_digits (Some id_)) w
     (call GET ("/api/command/" +:+ py_str id_) None None)
   /\ single_call remote (get_tag remote max_str_digits (Some id_)) w
        (call GET ("/api/tag/" +:+ py_str id_) None None)
   /\ single_call remote (get_series remote max_str_digits id_) w
        (call GET ("/api/series/" +:+ py_str id_) None None))
  /\ (str_refused max_str_digits id_ = true ->
      get_command remote max_str_digits (Some id_) w = (Raise ValueError, w)
      /\ get_tag remote max_str_digits (Some id_) w = (Raise ValueError, w)
      /\ get_series remote max_str_digits id_ w = (Raise ValueError, w))
  /\ single_call remote
       (get_history remote sort_key page page_size sort_dir (Some id_)) w
       (call GET "/api/history"
          (Some (<["episodeId" := PAtom id_]>
                   {[ "sortKey" := PAtom sort_key;
                      "page" := PAtom (default (AInt 1) page);
                      "pageSize" := PAtom (default (AInt 10) page_size);
                      "sortDir" := PAtom (default (AStr "desc") sort_dir) ]}))
          None).
Proof.
  intros Ht. split; [| split].
  - intros Hid.
    pose proof (get_command_call id_ w Hid) as Hc.
    pose proof (get_tag_call id_ w Hid) as Hg.
    pose proof (get_series_call id_ w Hid) as Hs.
    rewrite Ht in Hc, Hg, Hs. by repeat split.
  - intros Hid. unfold get_command, get_tag, get_series.
    cbn [default from_option id]. rewrite Ht. cbn [negb].
    repeat split; by apply refused_item.
  - exists [ODict (<["episodeId" := PAtom id_]>
                     {[ "sortKey" := PAtom sort_key;
                        "page" := PAtom (default (AInt 1) page);
                        "pageSize" := PAtom (default (AInt 10) page_size);
                        "sortDir" := PAtom (default (AStr "desc") sort_dir) ]})].
    split; [simpl; lia |].
    unfold get_history, request_get, send, call. cbn [default from_option id].
    rewrite Ht. run_store. by destruct (remote _ _) as [[] h'].
Qed.

(** X16: integer ids that [str] converts are told apart: two different
    ids never produce the same request, neither in the endpoints that
    test the id ([0] there meaning the whole collection) nor in the ones
    that always put it in the path, deletions included. *)
Theorem integer_ids_are_told_apart (a b : Z) (delete_files : option atom)
    (w : world) :
  a <> b ->
  str_refused max_str_digits (AInt a) = false ->
  str_refused max_str_digits (AInt b) = false ->
  trace (get_series remote max_str_digits (AInt a) w).2
  <> trace (get_series remote max_str_digits (AInt b) w).2
  /\ trace (get_command remote max_str_digits (Some (AInt a)) w).2
     <> trace (get_command remote max_str_digits (Some (AInt b)) w).2
  /\ trace (get_tag remote max_str_digits (Some (AInt a)) w).2
     <> trace (get_tag remote max_str_digits (Some (AInt b)) w).2
  /\ trace (get_episode_by_episode_id remote max_str_digits (AInt a) w).2
     <> trace (get_episode_by_episode_id remote max_str_digits (AInt b) w).2
  /\ trace (get_episode_file remote max_str_digits (AInt a) w).2
     <> trace (get_episode_file remote max_str_digits (AInt b) w).2
  /\ trace (del_episode_file remote max_str_digits (AInt a) w).2
     <> trace (del_episode_file remote max_str_digits (AInt b) w).2
  /\ trace (del_tag remote max_str_digits (AInt a) w).2
     <> trace (del_tag remote max_str_digits (AInt b) w).2
  /\ trace (del_series remote max_str_digits (AInt a) delete_files w).2
     <> trace (del_series remote max_str_digits (AInt b) delete_files w).2.
Proof.
  intros Hab Ha Hb.
  rewrite (single_call_trace _ _ _ _ (get_series_call _ w Ha)),
          (single_call_trace _ _ _ _ (get_series_call _ w Hb)).
  rewrite (single_call_trace _ _ _ _ (get_command_call _ w Ha)),
          (single_call_trace _ _ _ _ (get_command_call _ w Hb)).
  rewrite (single_call_trace _ _ _ _ (get_tag_call _ w Ha)),
          (single_call_trace _ _ _ _ (get_tag_call _ w Hb)).
  destruct (item_path_endpoints remote max_str_digits (AInt a) ANone
              delete_files w Ha) as (Ea1 & Ea2 & Ea3 & Ea4 & _ & Ea5).
  destruct (item_path_endpoints remote max_str_digits (AInt b) ANone
              delete_files w Hb) as (Eb1 & Eb2 & Eb3 & Eb4 & _ & Eb5).
  rewrite (single_call_trace _ _ _ _ Ea1), (single_call_trace _ _ _ _ Eb1),
          (single_call_trace _ _ _ _ Ea2), (single_call_trace _ _ _ _ Eb2),
          (single_call_trace _ _ _ _ Ea3), (single_call_trace _ _ _ _ Eb3),
          (single_call_trace _ _ _ _ Ea4), (single_call_trace _ _ _ _ Eb4),
          (single_call_trace _ _ _ _ Ea5), (single_call_trace _ _ _ _ Eb5).
  repeat split;
    first [ apply last_request_differs; by apply tested_paths_differ
          | apply last_request_differs; by apply item_paths_differ ].
Qed.

End Ids.

(** ** Failures on the way to a payload *)

Section PayloadFailures.

Variable remote : request -> list pyobj -> outcome pyval * list pyobj.

(** X5: a failure of the request layer during the lookup comes out of
    [construct_series_json] and [add_series] as it is, in the state the
    failed call left: nothing is caught, retried or posted. *)
Theorem lookup_failure_propagates
    (tvdb_id quality_profile_id root_dir : atom)
    (season_folder monitored with_files without_files search : option atom)
    (w0 w1 : world) (e : pyexn) :
  lookup_series remote tvdb_id w0 = (Raise e, w1) ->
  construct_series_json remote tvdb_id quality_profile_id root_dir
    season_folder monitored with_files without_files search w0
  = (Raise e, w1)
  /\ add_series remote tvdb_id quality_profile_id root_dir
       season_folder monitored with_files without_files search w0
     = (Raise e, w1)
  /\ trace w1 = trace w0 ++ [lookup_call tvdb_id].
Proof.
  intros Hlook.
  assert (Hc : construct_series_json remote tvdb_id quality_profile_id root_dir
                 season_folder monitored with_files without_files search w0
               = (Raise e, w1)).
  { unfold construct_series_json. cbv zeta. by apply bind_raise. }
  split; [exact Hc |].
  split; [by apply add_series_after_raise | by eapply lookup_series_trace].
Qed.

(** X8: with a truthy [monitored] and a root directory string, a first match
    whose title is a string or absent and that lacks one of ["title"],
    ["seasons"], ["images"], ["titleSlug"] makes the call raise
    [KeyError], with the reply untouched and nothing posted. *)
Theorem missing_key_raises_key_error
    (tvdb_id quality_profile_id : atom) (root_dir : string)
    (season_folder monitored with_files without_files search : option atom)
    (w0 w1 : world) (res : pyval) (d : loc) (fields : gmap string pyval) :
  lookup_series remote tvdb_id w0 = (Ok res, w1) ->
  first_match (heap w1) res d fields ->
  truthy_atom (default (ABool true) monitored) = true ->
  fields !! "title" = None
  \/ ((exists t, fields !! "title" = Some (PAtom (AStr t)))
      /\ (fields !! "seasons" = None \/ fields !! "images" = None
          \/ fields !! "titleSlug" = None)) ->
  construct_series_json remote tvdb_id quality_profile_id (AStr root_dir)
    season_folder monitored with_files without_files search w0
  = (Raise KeyError, w1)
  /\ add_series remote tvdb_id quality_profile_id (AStr root_dir)
       season_folder monitored with_files without_files search w0
     = (Raise KeyError, w1).
Proof.
  intros Hlook (l0 & rest & -> & Hres & Hd) Hmon Hmiss.
  assert (Hc : construct_series_json remote tvdb_id quality_profile_id
                 (AStr root_dir) season_folder monitored with_files
                 without_files search w0
               = (Raise KeyError, w1)).
  { unfold construct_series_json. cbv zeta.
    rewrite (bind_ok _ _ _ _ _ Hlook).
    rewrite (bind_ok _ _ _ _ _ (getitem_first _ _ _ _ Hres)).
    rewrite Hmon. cbn [negb]. rewrite !bind_ret_l.
    destruct Hmiss as [Ht | [[t Ht] Hrest]].
    { apply bind_raise. by eapply getitem_missing. }
    rewrite (bind_ok _ _ _ _ _ (getitem_key _ _ _ _ _ Hd Ht)).
    destruct (fields !! "seasons") as [sv |] eqn:Hs;
      [| apply bind_raise; by eapply getitem_missing].
    rewrite (bind_ok _ _ _ _ _ (getitem_key _ _ _ _ _ Hd Hs)).
    rewrite (bind_ok _ _ _ _ _ (getitem_key _ _ _ _ _ Hd Ht)).
    cbn [py_add]. unfold lift at 1. unfold bind at 1.
    destruct (fields !! "images") as [iv |] eqn:Hi;
      [| apply bind_raise; by eapply getitem_missing].
    rewrite (bind_ok _ _ _ _ _ (getitem_key _ _ _ _ _ Hd Hi)).
    destruct (fields !! "titleSlug") as [gv |] eqn:Hg;
      [| apply bind_raise; by eapply getitem_missing].
    destruct Hrest as [? | [? | ?]]; discriminate. }
  split; [exact Hc | by apply add_series_after_raise].
Qed.

(** X9: the title is not converted: with a truthy [monitored] and a root
    directory string, a first match that has ["seasons"] and a title
    that is no string, [None] for one, makes [root_dir + title] raise
    [TypeError]. *)
Theorem title_that_is_no_string_raises_type_error
    (tvdb_id quality_profile_id : atom) (root_dir : string)
    (season_folder monitored with_files without_files search : option atom)
    (w0 w1 : world) (res : pyval) (d : loc) (fields : gmap string pyval)
    (title seasons : pyval) :
  lookup_series remote tvdb_id w0 = (Ok res, w1) ->
  first_match (heap w1) res d fields ->
  truthy_atom (default (ABool true) monitored) = true ->
  fields !! "title" = Some title ->
  fields !! "seasons" = Some seasons ->
  (forall t, title <> PAtom (AStr t)) ->
  construct_series_json remote tvdb_id quality_profile_id (AStr root_dir)
    season_folder monitored with_files without_files search w0
  = (Raise TypeError, w1)
  /\ add_series remote tvdb_id quality_profile_id (AStr root_dir)
       season_folder monitored with_files without_files search w0
     = (Raise TypeError, w1).
Proof.
  intros Hlook (l0 & rest & -> & Hres & Hd) Hmon Ht Hs Hnot.
  assert (Hc : construct_series_json remote tvdb_id quality_profile_id
                 (AStr root_dir) season_folder monitored with_files
                 without_files search w0
               = (Raise TypeError, w1)).
  { unfold construct_series_json. cbv zeta.
    rewrite (bind_ok _ _ _ _ _ Hlook).
    rewrite (bind_ok _ _ _ _ _ (getitem_first _ _ _ _ Hres)).
    rewrite Hmon. cbn [negb]. rewrite !bind_ret_l.
    rewrite (bind_ok _ _ _ _ _ (getitem_key _ _ _ _ _ Hd Ht)).
    rewrite (bind_ok _ _ _ _ _ (getitem_key _ _ _ _ _ Hd Hs)).
    rewrite (bind_ok _ _ _ _ _ (getitem_key _ _ _ _ _ Hd Ht)).
    apply bind_raise.
    destruct title as [[| b | z | t] | l]; try reflexivity.
    by destruct (Hnot t). }
  split; [exact Hc | by apply add_series_after_raise].
Qed.

End PayloadFailures.

(** * Further instances *)

Lemma error_lookup :
  lookup_series error_reply (AInt 7) empty_world
  = (Ok (PRef 1), (lookup_series error_reply (AInt 7) empty_world).2).
Proof. reflexivity. Qed.

Lemma reply_that_is_no_list_raises_witness :
  lookup_series error_reply (AInt 7) empty_world
  = (Ok (PRef 1), (lookup_series error_reply (AInt 7) empty_world).2)
  /\ (exists l f, PRef 1 = PRef l
        /\ heap (lookup_series error_reply (AInt 7) empty_world).2 !! l
           = Some (ODict f))
  /\ construct_series_json error_reply (AInt 7) (AInt 1) (AStr "/tv/")
       None None None None None empty_world
     = (Raise KeyError, (lookup_series error_reply (AInt 7) empty_world).2)
  /\ add_series error_reply (AInt 7) (AInt 1) (AStr "/tv/")
       None None None None None empty_world
     = (Raise KeyError, (lookup_series error_reply (AInt 7) empty_world).2).
Proof.
  split; [reflexivity |].
  assert (Hd : exists l f, PRef 1 = PRef l
            /\ heap (lookup_series error_reply (AInt 7) empty_world).2 !! l
               = Some (ODict f))
    by (eexists 1%nat, _; split; reflexivity).
  split; [exact Hd |].
  exact (proj1 (reply_that_is_no_list_raises error_reply
                  (AInt 7) (AInt 1) (AStr "/tv/") None None None None None
                  empty_world _ (PRef 1) error_lookup) Hd).
Defined.

Lemma bare_lookup :
  lookup_series bare_reply (AInt 7) empty_world
  = (Ok (PRef 1), (lookup_series bare_reply (AInt 7) empty_world).2).
Proof. reflexivity. Qed.

Lemma bare_first_match :
  first_match (heap (lookup_series bare_reply (AInt 7) empty_world).2)
    (PRef 1) 2 {[ "title" := PAtom (AStr "Show") ]}.
Proof. exists 1%nat, []. repeat split; reflexivity. Qed.

Lemma missing_seasons_raises_key_error_witness :
  lookup_series bare_reply (AInt 7) empty_world
  = (Ok (PRef 1), (lookup_series bare_reply (AInt 7) empty_world).2)
  /\ first_match (heap (lookup_series bare_reply (AInt 7) empty_world).2)
       (PRef 1) 2 {[ "title" := PAtom (AStr "Show") ]}
  /\ ({[ "title" := PAtom (AStr "Show") ]} : gmap string pyval) !! "seasons" = None
  /\ construct_series_json bare_reply (AInt 7) (AInt 1) (AStr "/tv/")
       None (Some (ABool false)) None None None empty_world
     = (Raise KeyError, (lookup_series bare_reply (AInt 7) empty_world).2)
  /\ add_series bare_reply (AInt 7) (AInt 1) (AStr "/tv/")
       None (Some (ABool false)) None None None empty_world
     = (Raise KeyError, (lookup_series bare_reply (AInt 7) empty_world).2).
Proof.
  split; [exact bare_lookup |]. split; [exact bare_first_match |].
  split; [reflexivity |].
  exact (missing_seasons_raises_key_error bare_reply
           (AInt 7) (AInt 1) (AStr "/tv/") None (Some (ABool false)) None None None
           empty_world _ (PRef 1) 2 _ bare_lookup bare_first_match eq_refl).
Defined.

Lemma missing_key_raises_key_error_witness :
  lookup_series bare_reply (AInt 7) empty_world
  = (Ok (PRef 1), (lookup_series bare_reply (AInt 7) empty_world).2)
  /\ first_match (heap (lookup_series bare_reply (AInt 7) empty_world).2)
       (PRef 1) 2 {[ "title" := PAtom (AStr "Show") ]}
  /\ truthy_atom (default (ABool true) None) = true
  /\ construct_series_json bare_reply (AInt 7) (AInt 1) (AStr "/tv/")
       None None None None None empty_world
     = (Raise KeyError, (lookup_series bare_reply (AInt 7) empty_world).2)
  /\ add_series bare_reply (AInt 7) (AInt 1) (AStr "/tv/")
       None None None None None empty_world
     = (Raise KeyError, (lookup_series bare_reply (AInt 7) empty_world).2).
Proof.
  split; [exact bare_lookup |]. split; [exact bare_first_match |].
  split; [reflexivity |].
  apply (missing_key_raises_key_error bare_reply
           (AInt 7) (AInt 1) "/tv/" None None None None None
           empty_world _ (PRef 1) 2 _ bare_lookup bare_first_match eq_refl).
  right. split; [by exists "Show" | by left].
Defined.

Lemma null_title_lookup :
  lookup_series null_title_reply (AInt 7) empty_world
  = (Ok (PRef 1), (lookup_series null_title_reply (AInt 7) empty_world).2).
Proof. reflexivity. Qed.

Lemma null_title_first_match :
  first_match (heap (lookup_series null_title_reply (AInt 7) empty_world).2)
    (PRef 1) 2 {[ "title" := PAtom ANone; "seasons" := PRef 3 ]}.
Proof. exists 1%nat, []. repeat split; reflexivity. Qed.

Lemma title_that_is_no_string_raises_type_error_witness :
  lookup_series null_title_reply (AInt 7) empty_world
  = (Ok (PRef 1), (lookup_series null_title_reply (AInt 7) empty_world).2)
  /\ first_match (heap (lookup_series null_title_reply (AInt 7) empty_world).2)
       (PRef 1) 2 {[ "title" := PAtom ANone; "seasons" := PRef 3 ]}
  /\ (forall t, PAtom ANone <> PAtom (AStr t))
  /\ construct_series_json null_title_reply (AInt 7) (AInt 1) (AStr "/tv/")
       None None None None None empty_world
     = (Raise TypeError, (lookup_series null_title_reply (AInt 7) empty_world).2)
  /\ add_series null_title_reply (AInt 7) (AInt 1) (AStr "/tv/")
       None None None None None empty_world
     = (Raise TypeError, (lookup_series null_title_reply (AInt 7) empty_world).2).
Proof.
  split; [exact null_title_lookup |]. split; [exact null_title_first_match |].
  split; [discriminate |].
  apply (title_that_is_no_string_raises_type_error null_title_reply
           (AInt 7) (AInt 1) "/tv/" None None None None None
           empty_world _ (PRef 1) 2 _ (PAtom ANone) (PRef 3)
           null_title_lookup null_title_first_match eq_refl eq_refl eq_refl).
  discriminate.
Defined.

Lemma ragged_lookup :
  lookup_series ragged_reply (AInt 7) empty_world
  = (Ok (PRef 1), (lookup_series ragged_reply (AInt 7) empty_world).2).
Proof. reflexivity. Qed.

Lemma ragged_first_match :
  first_match (heap (lookup_series ragged_reply (AInt 7) empty_world).2)
    (PRef 1) 2 sample_fields.
Proof. exists 1%nat, []. repeat split; reflexivity. Qed.

Lemma ragged_prefix :
  Forall (is_dict_ref (heap (lookup_series ragged_reply (AInt 7) empty_world).2))
    [PRef 4].
Proof. repeat constructor. eexists _, _. split; reflexivity. Qed.

Lemma season_loop_stops_at_first_non_dict_witness :
  lookup_series ragged_reply (AInt 7) empty_world
  = (Ok (PRef 1), (lookup_series ragged_reply (AInt 7) empty_world).2)
  /\ heap (lookup_series ragged_reply (AInt 7) empty_world).2 !! 3%nat
     = Some (OList ([PRef 4] ++ PAtom ANone :: [PRef 5]))
  /\ construct_series_json ragged_reply (AInt 7) (AInt 1) (AStr "/tv/")
       None (Some (ABool false)) None None None empty_world
     = (Raise TypeError,
        {| heap := mark_seasons [PRef 4]
                     (heap (lookup_series ragged_reply (AInt 7) empty_world).2);
           trace := trace (lookup_series ragged_reply (AInt 7) empty_world).2 |})
  /\ mark_seasons [PRef 4]
       (heap (lookup_series ragged_reply (AInt 7) empty_world).2) !! 4%nat
     = Some (ODict {[ "seasonNumber" := PAtom (AInt 1);
                      "monitored" := PAtom (ABool false) ]})
  /\ mark_seasons [PRef 4]
       (heap (lookup_series ragged_reply (AInt 7) empty_world).2) !! 5%nat
     = Some (ODict {[ "seasonNumber" := PAtom (AInt 2);
                      "monitored" := PAtom (ABool true) ]}).
Proof.
  split; [exact ragged_lookup |]. split; [reflexivity |].
  split; [| split; reflexivity].
  exact (season_loop_stops_at_first_non_dict ragged_reply
           (AInt 7) (AInt 1) (AStr "/tv/") None (Some (ABool false)) None None None
           empty_world _ (PRef 1) 2 sample_fields 3 [PRef 4] [PRef 5] (PAtom ANone)
           ragged_lookup ragged_first_match eq_refl eq_refl ragged_prefix I eq_refl).
Defined.



Lemma lookup_failure_propagates_witness :
  lookup_series offline (AInt 7) empty_world
  = (Raise (RemoteError "ConnectionError"),
     (lookup_series offline (AInt 7) empty_world).2)
  /\ construct_series_json offline (AInt 7) (AInt 1) (AStr "/tv/")
       None None None None None empty_world
     = (Raise (RemoteError "ConnectionError"),
        (lookup_series offline (AInt 7) empty_world).2)
  /\ add_series offline (AInt 7) (AInt 1) (AStr "/tv/")
       None None None None None empty_world
     = (Raise (RemoteError "ConnectionError"),
        (lookup_series offline (AInt 7) empty_world).2)
  /\ trace (lookup_series offline (AInt 7) empty_world).2
     = trace empty_world ++ [lookup_call (AInt 7)].
Proof.
  split; [reflexivity |].
  apply (lookup_failure_propagates offline
           (AInt 7) (AInt 1) (AStr "/tv/") None None None None None
           empty_world). reflexivity.
Defined.

Lemma sent_date_is_canonical_witness :
  strptime_str "2021-1-5" = Ok {| year := 2021; month := 1; day := 5 |}
  /\ (false = true \/ 1000 <= year {| year := 2021; month := 1; day := 5 |})
  /\ trace (get_calendar no_reply false (Some (AStr "2021-1-5")) None
              empty_world).2
     = trace empty_world
       ++ [calendar_call {[ "start" := PAtom (AStr
             (strftime false {| year := 2021; month := 1; day := 5 |})) ]}]
  /\ strftime false {| year := 2021; month := 1; day := 5 |} = "2021-01-05"
  /\ canonical_ymd (strftime false {| year := 2021; month := 1; day := 5 |}) = true.
Proof.
  split; [reflexivity |]. split; [right; simpl; lia |].
  destruct (sent_date_is_canonical no_reply false "2021-1-5"
              {| year := 2021; month := 1; day := 5 |} empty_world)
    as (H1 & _ & H3 & _); [reflexivity | right; simpl; lia |].
  split; [exact H1 |]. split; [reflexivity | exact H3].
Defined.




Lemma update_endpoints_send_the_callers_object_witness :
  heap callers_world !! 0%nat
  = Some (ODict {[ "id" := PAtom (AInt 3); "monitored" := PAtom (ABool true) ]})
  /\ str_refused 4300 (AInt 3) = false
  /\ direct_call no_reply (upd_episode no_reply 0) callers_world
       {| rq_verb := PUT; rq_path := "/api/episode"; rq_params := None;
          rq_data := Some (ODict {[ "id" := PAtom (AInt 3);
                                    "monitored" := PAtom (ABool true) ]}) |}
  /\ direct_call no_reply (upd_series no_reply 0) callers_world
       {| rq_verb := PUT; rq_path := "/api/series"; rq_params := None;
          rq_data := Some (ODict {[ "id" := PAtom (AInt 3);
                                    "monitored" := PAtom (ABool true) ]}) |}
  /\ direct_call no_reply (upd_episode_file_quality no_reply 4300 (AInt 3) 0)
       callers_world
       {| rq_verb := PUT; rq_path := "/api/episodefile/" +:+ py_str (AInt 3);
          rq_params := None;
          rq_data := Some (ODict {[ "id" := PAtom (AInt 3);
                                    "monitored" := PAtom (ABool true) ]}) |}.
Proof.
  split; [reflexivity |]. split; [vm_compute; reflexivity |].
  destruct (update_endpoints_send_the_callers_object no_reply 4300 (AInt 3)
              0%nat _ callers_world eq_refl) as (He & Hs & Hq & _).
  split; [exact He |]. split; [exact Hs |].
  apply Hq. vm_compute; reflexivity.
Defined.

Lemma truthy_id_selects_one_item_witness :
  truthy_atom (AInt 5) = true
  /\ str_refused 4300 (AInt 5) = false
  /\ single_call no_reply (get_command no_reply 4300 (Some (AInt 5))) empty_world
       (call GET ("/api/command/" +:+ py_str (AInt 5)) None None)
  /\ single_call no_reply (get_tag no_reply 4300 (Some (AInt 5))) empty_world
       (call GET ("/api/tag/" +:+ py_str (AInt 5)) None None)
  /\ single_call no_reply (get_series no_reply 4300 (AInt 5)) empty_world
       (call GET ("/api/series/" +:+ py_str (AInt 5)) None None)
  /\ single_call no_reply
       (get_history no_reply (AStr "date") None None None (Some (AInt 5)))
       empty_world
       (call GET "/api/history"
          (Some (<["episodeId" := PAtom (AInt 5)]>
                   {[ "sortKey" := PAtom (AStr "date");
                      "page" := PAtom (default (AInt 1) None);
                      "pageSize" := PAtom (default (AInt 10) None);
                      "sortDir" := PAtom (default (AStr "desc") None) ]}))
          None).
Proof.
  split; [reflexivity |]. split; [vm_compute; reflexivity |].
  destruct (truthy_id_selects_one_item no_reply 4300 (AInt 5) (AStr "date")
              None None None empty_world eq_refl) as (Hitem & _ & Hhist).
  destruct Hitem as (Hc & Hg & Hs); [vm_compute; reflexivity |].
  split; [exact Hc |]. split; [exact Hg |]. split; [exact Hs | exact Hhist].
Defined.

Lemma integer_ids_are_told_apart_witness :
  (0 <> 7)
  /\ str_refused 4300 (AInt 0) = false
  /\ str_refused 4300 (AInt 7) = false
  /\ trace (get_series no_reply 4300 (AInt 0) empty_world).2
     <> trace (get_series no_reply 4300 (AInt 7) empty_world).2
  /\ trace (get_command no_reply 4300 (Some (AInt 0)) empty_world).2
     <> trace (get_command no_reply 4300 (Some (AInt 7)) empty_world).2
  /\ trace (get_tag no_reply 4300 (Some (AInt 0)) empty_world).2
     <> trace (get_tag no_reply 4300 (Some (AInt 7)) empty_world).2
  /\ trace (get_episode_by_episode_id no_reply 4300 (AInt 0) empty_world).2
     <> trace (get_episode_by_episode_id no_reply 4300 (AInt 7) empty_world).2
  /\ trace (get_episode_file no_reply 4300 (AInt 0) empty_world).2
     <> trace (get_episode_file no_reply 4300 (AInt 7) empty_world).2
  /\ trace (del_episode_file no_reply 4300 (AInt 0) empty_world).2
     <> trace (del_episode_file no_reply 4300 (AInt 7) empty_world).2
  /\ trace (del_tag no_reply 4300 (AInt 0) empty_world).2
     <> trace (del_tag no_reply 4300 (AInt 7) empty_world).2
  /\ trace (del_series no_reply 4300 (AInt 0) None empty_world).2
     <> trace (del_series no_reply 4300 (AInt 7) None empty_world).2.
Proof.
  split; [discriminate |].
  split; [vm_compute; reflexivity |]. split; [vm_compute; reflexivity |].
  apply (integer_ids_are_told_apart no_reply 4300 0 7 None empty_world);
    [discriminate | vm_compute; reflexivity | vm_compute; reflexivity].
Defined.
